(** * Completeness scoring of a PRD against a weighted keyword rubric

    A shallow embedding of [agents/validator_agent.py]: the rubric template
    as the parsed YAML mapping, [ValidatorAgent.validate] with its running
    totals and its percentage computed in double precision, and
    [ValidatorAgent.format_report] with its buckets and status label.

    Conventions of the model.
    - Text is a [string] whose characters are the code points below 256
      (Latin-1). On that range Python's [str.lower] acts character by
      character; beyond it, it does not, and [Unicode] follows the
      keyword check on code points, where a capital sigma shows the
      difference.
    - Integers are [Z]; the weights of the scoring table are integers.
    - A mapping read with [d[key]] has an optional field and raises
      [KeyError] when the field is absent; a mapping read with
      [d.get(key, default)] has an optional field and a default. The
      records of [Rubric] give every entry the type the rubric means it
      to have; [Dynamic] follows [validate] on the values as they are
      loaded, of whatever type, and the typed model is proved to be its
      well-typed case.
    - [int / int] and [float * int] are IEEE 754 binary64 operations,
      taken from the Standard Library's executable specification. *)

From Stdlib Require Import ZArith Bool List Ascii String Lia DecimalString.
From Stdlib Require Import Floats.SpecFloat.
From stdpp Require Import gmap strings list.

Local Open Scope Z_scope.

(** ** Text: [str.lower] and the [in] operator *)

Module Text.

(** [str.lower] on one code point below 256: the letters A-Z and the
    Latin-1 capitals U+00C0-U+00DE (the multiplication sign U+00D7 apart)
    move up by 32, every other code point is unchanged. *)
Definition lower_char (c : ascii) : ascii :=
  let n := N_of_ascii c in
  if ((65 <=? n) && (n <=? 90) ||
      (192 <=? n) && (n <=? 222) && negb (n =? 215))%N
  then ascii_of_N (n + 32)
  else c.

Fixpoint lower (s : string) : string :=
  match s with
  | EmptyString => EmptyString
  | String c t => String (lower_char c) (lower t)
  end.

(** [s.startswith(p)] *)
Fixpoint starts_with (p s : string) : bool :=
  match p, s with
  | EmptyString, _ => true
  | String _ _, EmptyString => false
  | String a p', String b s' => if Ascii.eqb a b then starts_with p' s' else false
  end.

(** [needle in hay] on strings: [needle] starts at some position of
    [hay]; the empty string is in every string. *)
Fixpoint contains (needle hay : string) : bool :=
  starts_with needle hay ||
  match hay with
  | EmptyString => false
  | String _ t => contains needle t
  end.


End Text.

(** ** Text beyond Latin-1

    A Python [str] is a sequence of Unicode code points, and [str.lower]
    is not character-wise on all of them: a capital sigma becomes the
    final small sigma at the end of a word and the ordinary small sigma
    elsewhere. This module follows [lower] and [in] on code points, for
    Latin-1 together with the Greek letters alpha to omega; a string with
    any other code point is outside it and [lower] answers [None]. *)

Module Unicode.

Definition str : Type := list N.


Definition capital_sigma : N := 931.
Definition small_sigma : N := 963.
Definition final_small_sigma : N := 962.

(** U+0391-U+03A9, where U+03A2 is not assigned. *)
Definition is_greek_capital (c : N) : bool :=
  ((913 <=? c) && (c <=? 937) && negb (c =? 930))%N.

(** U+03B1-U+03C9, the final sigma U+03C2 among them. *)
Definition is_greek_small (c : N) : bool := ((945 <=? c) && (c <=? 969))%N.

Definition in_alphabet (c : N) : bool :=
  (c <? 256)%N || is_greek_capital c || is_greek_small c.

(** The property Cased, on the alphabet: the letters of either case,
    with the ordinal indicators and the micro sign. *)
Definition cased (c : N) : bool :=
  ((65 <=? c) && (c <=? 90) || (97 <=? c) && (c <=? 122) ||
   (c =? 170) || (c =? 181) || (c =? 186) ||
   (192 <=? c) && (c <=? 214) || (216 <=? c) && (c <=? 246) ||
   (248 <=? c) && (c <=? 255))%N
  || is_greek_capital c || is_greek_small c.

(** The property Case_Ignorable, on the alphabet: apostrophe, full stop,
    colon, circumflex, grave, diaeresis, soft hyphen, macron, acute,
    middle dot and cedilla. *)
Definition case_ignorable (c : N) : bool :=
  existsb (N.eqb c) [39; 46; 58; 94; 96; 168; 173; 175; 180; 183; 184]%N.

(** The lowercase of one code point of the alphabet, a capital sigma
    apart. *)
Definition to_lower (c : N) : N :=
  if ((65 <=? c) && (c <=? 90) ||
      (192 <=? c) && (c <=? 222) && negb (c =? 215))%N
     || is_greek_capital c
  then (c + 32)%N
  else c.

Fixpoint skip_ignorable (s : str) : str :=
  match s with
  | [] => []
  | c :: t => if case_ignorable c then skip_ignorable t else s
  end.

(** A capital sigma is final when, case-ignorable code points skipped, a
    cased one precedes it and none follows. [before] is the text before
    the sigma, nearest code point first. *)
Definition final_sigma (before after : str) : bool :=
  match skip_ignorable before with
  | c :: _ => cased c
  | [] => false
  end &&
  match skip_ignorable after with
  | c :: _ => negb (cased c)
  | [] => true
  end.

Fixpoint lower_from (before s : str) : str :=
  match s with
  | [] => []
  | c :: t =>
      (if (c =? capital_sigma)%N
       then if final_sigma before t then final_small_sigma else small_sigma
       else to_lower c)
      :: lower_from (c :: before) t
  end.

(** [s.lower()] *)
Definition lower (s : str) : option str :=
  if forallb in_alphabet s then Some (lower_from [] s) else None.

Fixpoint starts_with (p s : str) : bool :=
  match p, s with
  | [], _ => true
  | _ :: _, [] => false
  | a :: p', b :: s' => if (a =? b)%N then starts_with p' s' else false
  end.

(** [needle in hay] *)
Fixpoint contains (needle hay : str) : bool :=
  starts_with needle hay ||
  match hay with
  | [] => false
  | _ :: t => contains needle t
  end.

(** [[kw for kw in keywords if kw.lower() in prd_lower]] *)
Fixpoint keywords_found (prd_lower : str) (keywords : list str) : option (list str) :=
  match keywords with
  | [] => Some []
  | kw :: rest =>
      match lower kw, keywords_found prd_lower rest with
      | Some kw_lower, Some others =>
          Some (if contains kw_lower prd_lower then kw :: others else others)
      | _, _ => None
      end
  end.

(** [found] as [validate] computes it for one section: the document is
    lowercased once, then each keyword is lowercased and looked for. *)
Definition found (prd_text : str) (keywords : list str) : option bool :=
  match lower prd_text with
  | None => None
  | Some prd_lower =>
      match keywords_found prd_lower keywords with
      | None => None
      | Some kws => Some (0 <? length kws)%nat
      end
  end.


End Unicode.

(** ** Case-insensitive occurrence, in the words of the specification

    Two Latin-1 code points are the same letter up to case when they are
    equal or one is a capital (A-Z, U+00C0-U+00D6, U+00D8-U+00DE) and the
    other its small letter, 32 code points further. A keyword occurs
    case-insensitively in a document when some contiguous piece of the
    document is the keyword letter by letter up to case. *)

Module Caseless.






End Caseless.

(** ** Errors

    The exceptions the scorer can raise, and computations that either
    return a value or raise one of them. *)

Inductive PyError : Type :=
  | KeyError (key : string)
  | ZeroDivisionError
  | OverflowError
  | ValueError.

Inductive Result (A : Type) : Type :=
  | Ok (a : A)
  | Raise (e : PyError).

Arguments Ok {A} a.
Arguments Raise {A} e.

Definition bind {A B : Type} (m : Result A) (k : A -> Result B) : Result B :=
  match m with
  | Ok a => k a
  | Raise e => Raise e
  end.

Notation "x <- m ;; k" := (bind m (fun x => k))
  (at level 100, m at next level, right associativity).

(** [d[key]] on a mapping whose entry [key] may be absent. *)
Definition subscript {A : Type} (key : string) (entry : option A) : Result A :=
  match entry with
  | Some v => Ok v
  | None => Raise (KeyError key)
  end.

(** A [for] loop whose body updates a state and may raise. *)
Fixpoint for_each {S A : Type} (body : S -> A -> Result S)
    (items : list A) (st : S) : Result S :=
  match items with
  | [] => Ok st
  | x :: rest => st' <- body st x ;; for_each body rest st'
  end.

(** ** Double precision arithmetic as the scorer uses it *)

Module Binary64.

Definition prec : Z := 53.
Definition emax : Z := 1024.

(** An integer as an exact operand: significand [n], exponent 0. *)
Definition exact (n : Z) : spec_float :=
  match n with
  | Z0 => S754_zero false
  | Zpos p => S754_finite false p 0
  | Zneg p => S754_finite true p 0
  end.

(** [float(n)]: the double nearest to [n], in canonical form. *)
Definition of_int (n : Z) : spec_float := binary_normalize prec emax n 0 false.

(** [a / b] on two integers: the quotient rounded once to the nearest
    double (ties to even), [ZeroDivisionError] for a zero divisor and
    [OverflowError] when the rounded quotient leaves the double range. *)
Definition int_true_divide (a b : Z) : Result spec_float :=
  if b =? 0 then Raise ZeroDivisionError
  else
    match SFdiv prec emax (exact a) (exact b) with
    | S754_infinity _ => Raise OverflowError
    | q => Ok q
    end.

(** [x * n] for a float [x] and a small integer [n]: [n] is converted
    to a double and the product is rounded to nearest; it overflows to
    an infinity without raising. *)
Definition mul_int (x : spec_float) (n : Z) : spec_float :=
  SFmul prec emax x (of_int n).

(** [int(x)]: truncation toward zero; infinities raise [OverflowError],
    a NaN raises [ValueError]. *)
Definition to_int (x : spec_float) : Result Z :=
  match x with
  | S754_zero _ => Ok 0
  | S754_finite s m e => Ok (cond_Zopp s (Z.shiftl (Zpos m) e))
  | S754_infinity _ => Raise OverflowError
  | S754_nan => Raise ValueError
  end.

End Binary64.

(** ** The rubric template: the parsed YAML mapping *)

Module Rubric.

(** One entry of [sections]. [name], [required] and [severity] are read
    with [section[...]], [keywords] with [section.get('keywords', [])]. *)
Record Section : Type := {
  name : option string;
  required : option bool;
  severity : option string;
  keywords : option (list string)
}.

(** The template: [sections] and [scoring] are both read with [.get]. *)
Record Template : Type := {
  sections : option (list Section);
  scoring : option (gmap string Z)
}.

End Rubric.

(** ** The validator *)

(** Result from validating a single section. *)
Record ValidationResult : Type := {
  section_name : string;
  required : bool;
  found : bool;
  severity : string;
  keywords_found : list string;
  score : Z
}.

(** The agent after [__init__]: the loaded template and its scoring
    table, empty when the template has none. *)
Record ValidatorAgent : Type := {
  template : Rubric.Template;
  scoring : gmap string Z
}.

Definition init (tpl : Rubric.Template) : ValidatorAgent :=
  {| template := tpl; scoring := default ∅ (Rubric.scoring tpl) |}.

(** [self.scoring.get(f"{severity}_weight", 0)] *)
Definition section_weight (self : ValidatorAgent) (sev : string) : Z :=
  default 0 (scoring self !! (sev +:+ "_weight")).

(** [[kw for kw in keywords if kw.lower() in prd_lower]] *)
Definition matching_keywords (prd_lower : string) (kws : list string) : list string :=
  List.filter (fun kw => Text.contains (Text.lower kw) prd_lower) kws.

(** The variables the loop of [validate] carries from section to section. *)
Record LoopState : Type := {
  results : list ValidationResult;
  total_score : Z;
  max_score : Z
}.

Definition initial_state : LoopState :=
  {| results := []; total_score := 0; max_score := 0 |}.

(** The body of the loop over the template's sections. *)
Definition check_section (self : ValidatorAgent) (prd_lower : string)
    (st : LoopState) (section : Rubric.Section) : Result LoopState :=
  the_name <- subscript "name" (Rubric.name section) ;;
  is_required <- subscript "required" (Rubric.required section) ;;
  the_severity <- subscript "severity" (Rubric.severity section) ;;
  let kws := default [] (Rubric.keywords section) in
  let kws_found := matching_keywords prd_lower kws in
  let is_found := (0 <? length kws_found)%nat in
  let weight := section_weight self the_severity in
  let section_score := if is_found then weight else 0 in
  let max' := if is_required then max_score st + weight else max_score st in
  let total' := total_score st + section_score in
  let result :=
    {| section_name := the_name;
       required := is_required;
       found := is_found;
       severity := the_severity;
       keywords_found := kws_found;
       score := section_score |} in
  Ok {| results := results st ++ [result];
        total_score := total';
        max_score := max' |}.

(** [int((total_score / max_score * 100)) if max_score > 0 else 0] *)
Definition overall_score (total max : Z) : Result Z :=
  if 0 <? max then
    q <- Binary64.int_true_divide total max ;;
    Binary64.to_int (Binary64.mul_int q 100)
  else Ok 0.

Definition run_sections (self : ValidatorAgent) (prd_text : string) : Result LoopState :=
  for_each (check_section self (Text.lower prd_text))
           (default [] (Rubric.sections (template self)))
           initial_state.

Definition validate (self : ValidatorAgent) (prd_text : string)
    : Result (list ValidationResult * Z) :=
  st <- run_sections self prd_text ;;
  overall <- overall_score (total_score st) (max_score st) ;;
  Ok (results st, overall).

(** ** The report *)

Inductive Emoji : Type := CheckMark | WarningSign | CrossMark.

(** The dictionary [format_report] returns. *)
Record Report : Type := {
  report_score : Z;
  status : string;
  status_emoji : Emoji;
  missing_critical : list string;
  missing_high : list string;
  missing_medium : list string;
  found_sections : list string;
  total_sections : Z;
  found_count : Z;
  missing_count : Z
}.

(** The four local lists of [format_report], before their names are taken. *)
Definition critical_bucket (rs : list ValidationResult) : list ValidationResult :=
  List.filter (fun r => negb (found r) && required r && String.eqb (severity r) "critical") rs.

Definition high_bucket (rs : list ValidationResult) : list ValidationResult :=
  List.filter (fun r => negb (found r) && required r && String.eqb (severity r) "high") rs.

Definition medium_bucket (rs : list ValidationResult) : list ValidationResult :=
  List.filter (fun r => negb (found r) && String.eqb (severity r) "medium") rs.

Definition found_bucket (rs : list ValidationResult) : list ValidationResult :=
  List.filter (fun r => found r) rs.

Definition status_of (the_score : Z) : string * Emoji :=
  if 90 <=? the_score then ("READY FOR REVIEW", CheckMark)
  else if 70 <=? the_score then ("NEEDS IMPROVEMENT", WarningSign)
  else ("NOT READY", CrossMark).

Definition format_report (rs : list ValidationResult) (the_score : Z) : Report :=
  {| report_score := the_score;
     status := fst (status_of the_score);
     status_emoji := snd (status_of the_score);
     missing_critical := map section_name (critical_bucket rs);
     missing_high := map section_name (high_bucket rs);
     missing_medium := map section_name (medium_bucket rs);
     found_sections := map section_name (found_bucket rs);
     total_sections := Z.of_nat (length rs);
     found_count := Z.of_nat (length (found_bucket rs));
     missing_count := Z.of_nat (length rs) - Z.of_nat (length (found_bucket rs)) |}.

(** ** Rubrics used in the examples *)

Definition a_section (n : string) (req : bool) (sev : string) (kws : list string)
    : Rubric.Section :=
  {| Rubric.name := Some n; Rubric.required := Some req;
     Rubric.severity := Some sev; Rubric.keywords := Some kws |}.

Definition a_template (secs : list Rubric.Section) (weights : list (string * Z))
    : Rubric.Template :=
  {| Rubric.sections := Some secs; Rubric.scoring := Some (list_to_map weights) |}.

(** Scenario 1: a required critical section and a required high section. *)
Definition scenario_rubric : Rubric.Template :=
  a_template
    [a_section "Problem Statement" true "critical" ["problem statement"];
     a_section "Success Metrics" true "high" ["success metrics"]]
    [("critical_weight", 40); ("high_weight", 20)].

Definition scenario_doc : string := "This covers the Problem Statement in depth.".

(** The same two sections with the weights 29 and 71. *)
Definition rounding_rubric : Rubric.Template :=
  a_template
    [a_section "Problem Statement" true "critical" ["problem statement"];
     a_section "Success Metrics" true "high" ["success metrics"]]
    [("critical_weight", 29); ("high_weight", 71)].

(** A required critical section and an optional high section. *)
Definition optional_rubric : Rubric.Template :=
  a_template
    [a_section "Problem Statement" true "critical" ["problem statement"];
     a_section "Success Metrics" false "high" ["success metrics"]]
    [("critical_weight", 40); ("high_weight", 20)].

Definition optional_doc : string :=
  "Problem Statement: checkout is slow. Success Metrics: p95 under 2s.".

(** A section whose only keyword is the empty string. *)
Definition empty_keyword_rubric : Rubric.Template :=
  a_template
    [a_section "Overview" true "critical" [""]]
    [("critical_weight", 40)].

(** A section of a tier without weight, then a section without [severity]. *)
Definition keyless_rubric : Rubric.Template :=
  a_template
    [a_section "Risks" true "low" ["risk"];
     {| Rubric.name := Some "Scope"; Rubric.required := Some true;
        Rubric.severity := None; Rubric.keywords := Some ["scope"] |}]
    [("critical_weight", 40)].

(** A rubric whose only tier has no weight. *)
Definition unweighted_rubric : Rubric.Template :=
  a_template
    [a_section "Risks" true "low" ["risk"]]
    [("critical_weight", 40)].

(** An optional section only: the possible total is 0. *)
Definition appendix_rubric : Rubric.Template :=
  a_template
    [a_section "Appendix" false "low" ["appendix"]]
    [("low_weight", 5)].

Definition problem_section : Rubric.Section :=
  a_section "Problem Statement" true "critical" ["problem statement"].

Definition metrics_section : Rubric.Section :=
  a_section "Success Metrics" true "high" ["success metrics"].

Definition risks_section : Rubric.Section :=
  a_section "Risks" true "low" ["risk"].

(** What the loop leaves behind on scenario 1. *)
Definition problem_result : ValidationResult :=
  {| section_name := "Problem Statement"; required := true; found := true;
     severity := "critical"; keywords_found := ["problem statement"];
     score := 40 |}.

Definition metrics_result : ValidationResult :=
  {| section_name := "Success Metrics"; required := true; found := false;
     severity := "high"; keywords_found := []; score := 0 |}.

Definition scenario_state : LoopState :=
  {| results := [problem_result; metrics_result];
     total_score := 40; max_score := 60 |}.

Definition timeline_result : ValidationResult :=
  {| section_name := "Timeline"; required := false; found := false;
     severity := "medium"; keywords_found := []; score := 0 |}.

Definition appendix_result : ValidationResult :=
  {| section_name := "Appendix"; required := true; found := false;
     severity := "low"; keywords_found := []; score := 0 |}.

(** Three results for the report: a missing optional medium section, a
    missing required low section and a found critical section. *)
Definition sample_results : list ValidationResult :=
  [timeline_result; appendix_result; problem_result].

(** ** Vocabulary of the properties *)

(** A section carries the three entries the loop reads with [section[...]]. *)
Definition has_keys (sec : Rubric.Section) : bool :=
  match Rubric.name sec, Rubric.required sec, Rubric.severity sec with
  | Some _, Some _, Some _ => true
  | _, _, _ => false
  end.

Definition section_keywords (sec : Rubric.Section) : list string :=
  default [] (Rubric.keywords sec).

Definition section_tier (sec : Rubric.Section) : string :=
  default "" (Rubric.severity sec).

Definition section_required (sec : Rubric.Section) : bool :=
  default false (Rubric.required sec).

(** The sections the loop of [validate] runs over. *)
Definition rubric_sections (self : ValidatorAgent) : list Rubric.Section :=
  default [] (Rubric.sections (template self)).

(** Whether the section is found in the lowercased document. *)
Definition section_found (prd_lower : string) (sec : Rubric.Section) : bool :=
  (0 <? length (matching_keywords prd_lower (section_keywords sec)))%nat.

(** What a section earns: its tier's weight when found. *)
Definition earned (self : ValidatorAgent) (prd_lower : string) (sec : Rubric.Section) : Z :=
  if section_found prd_lower sec then section_weight self (section_tier sec) else 0.

(** What a section adds to the denominator: its tier's weight when required. *)
Definition possible (self : ValidatorAgent) (sec : Rubric.Section) : Z :=
  if section_required sec then section_weight self (section_tier sec) else 0.

Definition earned_total (self : ValidatorAgent) (prd_lower : string)
    (secs : list Rubric.Section) : Z :=
  fold_right (fun sec acc => earned self prd_lower sec + acc) 0 secs.

Definition possible_total (self : ValidatorAgent) (secs : list Rubric.Section) : Z :=
  fold_right (fun sec acc => possible self sec + acc) 0 secs.

(** The record the loop appends for a section that has its keys. *)
Definition section_result (self : ValidatorAgent) (prd_lower : string)
    (sec : Rubric.Section) : ValidationResult :=
  {| section_name := default "" (Rubric.name sec);
     required := section_required sec;
     found := section_found prd_lower sec;
     severity := section_tier sec;
     keywords_found := matching_keywords prd_lower (section_keywords sec);
     score := earned self prd_lower sec |}.

(** The percentage as the specification words it: the exact quotient
    [earned * 100 / possible], truncated toward zero. *)
Definition truncated_percentage (earned_sum possible_sum : Z) : Z :=
  Z.quot (earned_sum * 100) possible_sum.

(** The section with one more keyword at the end of its list. *)
Definition add_keyword (sec : Rubric.Section) (kw : string) : Rubric.Section :=
  {| Rubric.name := Rubric.name sec;
     Rubric.required := Rubric.required sec;
     Rubric.severity := Rubric.severity sec;
     Rubric.keywords := Some (section_keywords sec ++ [kw]) |}.

(** The agent with another list of sections and the same scoring table. *)
Definition with_sections (self : ValidatorAgent) (secs : list Rubric.Section)
    : ValidatorAgent :=
  {| template := {| Rubric.sections := Some secs;
                    Rubric.scoring := Rubric.scoring (template self) |};
     scoring := scoring self |}.

(** ** Strings as the orchestrator and the skeptic use them *)

Module Str.

Definition nl : string := String (ascii_of_nat 10) EmptyString.

(** [str(n)] for an integer, as an f-string prints it. *)
Definition of_int (n : Z) : string := NilZero.string_of_int (Z.to_int n).

(** [s.replace(old, new)] for a non-empty [old]: the occurrences of
    [old] are replaced from left to right without overlap. [skip] counts
    the characters of an occurrence still to be passed over. *)
Fixpoint replace_from (old new : string) (skip : nat) (s : string) : string :=
  match s with
  | EmptyString => EmptyString
  | String c t =>
      match skip with
      | S k => replace_from old new k t
      | O =>
          if Text.starts_with old s
          then new +:+ replace_from old new (String.length old - 1) t
          else String c (replace_from old new 0 t)
      end
  end.

Definition replace (old new s : string) : string := replace_from old new 0 s.

(** [c.isspace()] on the code points below 256. *)
Definition is_space (c : ascii) : bool :=
  let n := N_of_ascii c in
  ((9 <=? n) && (n <=? 13) || (28 <=? n) && (n <=? 32) ||
   (n =? 133) || (n =? 160))%N.

(** [s.lstrip(...)] and [s.rstrip(...)] for a set of characters. *)
Fixpoint lstrip_if (drop : ascii -> bool) (s : string) : string :=
  match s with
  | EmptyString => EmptyString
  | String c t => if drop c then lstrip_if drop t else s
  end.

Fixpoint rstrip_if (drop : ascii -> bool) (s : string) : string :=
  match s with
  | EmptyString => EmptyString
  | String c t =>
      match rstrip_if drop t with
      | EmptyString => if drop c then EmptyString else String c EmptyString
      | t' => String c t'
      end
  end.

(** [s.strip()] *)
Definition strip (s : string) : string :=
  rstrip_if is_space (lstrip_if is_space s).

(** [s.split('\n')[0]] *)
Fixpoint first_line (s : string) : string :=
  match s with
  | EmptyString => EmptyString
  | String c t => if Ascii.eqb c (ascii_of_nat 10) then EmptyString
                  else String c (first_line t)
  end.

Definition is_hash (c : ascii) : bool := Ascii.eqb c "#".
Definition is_slash (c : ascii) : bool := Ascii.eqb c "/".

Fixpoint has_char (test : ascii -> bool) (s : string) : bool :=
  match s with
  | EmptyString => false
  | String c t => test c || has_char test t
  end.

Fixpoint all_chars (test : ascii -> bool) (s : string) : bool :=
  match s with
  | EmptyString => true
  | String c t => test c && all_chars test t
  end.

(** [os.path.basename(p)]: what follows the last slash. *)
Fixpoint basename (p : string) : string :=
  match p with
  | EmptyString => EmptyString
  | String c t =>
      if is_slash c || has_char is_slash t then basename t else p
  end.

(** [p[:p.rfind('/') + 1]]: the path up to its last slash, included. *)
Fixpoint upto_last_slash (p : string) : string :=
  match p with
  | EmptyString => EmptyString
  | String c t =>
      if is_slash c || has_char is_slash t
      then String c (upto_last_slash t)
      else EmptyString
  end.

(** [os.path.dirname(p)]: the head up to the last slash, without its
    trailing slashes unless it consists of slashes only. *)
Definition dirname (p : string) : string :=
  let head := upto_last_slash p in
  if all_chars is_slash head then head else rstrip_if is_slash head.

(** Truth value of an optional string: [None] and [''] are false. *)
Definition truthy (s : option string) : bool :=
  match s with
  | Some (String _ _) => true
  | _ => false
  end.

End Str.

(** ** The report as the dictionary its consumers read *)

Module ReportDict.

(** The four entries [_build_user_prompt] and [_generate_summary] read. *)
Record t : Type := {
  score : option Z;
  status : option string;
  missing_critical : option (list string);
  missing_high : option (list string)
}.

End ReportDict.

(** The dictionary [format_report] hands over: every entry is there. *)
Definition as_dict (report : Report) : ReportDict.t :=
  {| ReportDict.score := Some (report_score report);
     ReportDict.status := Some (status report);
     ReportDict.missing_critical := Some (missing_critical report);
     ReportDict.missing_high := Some (missing_high report) |}.

(** ** The skeptic *)

Module Skeptic.

(** What [challenge] returns. *)
Record Critique : Type := {
  critique : string;
  model : string;
  prompt_tokens : Z;
  completion_tokens : Z;
  total_tokens : Z
}.

(** One call of [client.messages.create]. *)
Record Request : Type := {
  req_model : string;
  req_max_tokens : Z;
  req_system : string;
  req_user : string
}.

(** What the API answers: the texts of its content blocks and its usage. *)
Record Response : Type := {
  content : list string;
  input_tokens : Z;
  output_tokens : Z
}.

Record Agent : Type := {
  agent_model : string;
  system_prompt : string
}.

(** The lines [validation_summary] gains for one list of missing
    sections; an empty list adds nothing. *)
Definition add_missing (heading : string) (names : list string) (summary : string)
    : string :=
  match names with
  | [] => summary
  | _ :: _ =>
      fold_left (fun acc section => acc +:+ "- " +:+ section +:+ Str.nl)
                names (summary +:+ heading +:+ Str.nl)
      +:+ Str.nl
  end.

Definition score_line (the_score : Z) (the_status : string) : string :=
  "**Validation Score:** " +:+ Str.of_int the_score +:+ "/100 (" +:+ the_status
  +:+ ")" +:+ Str.nl +:+ Str.nl.

Definition validation_summary (the_score : Z) (the_status : string)
    (critical high : list string) : string :=
  add_missing "**High Priority Sections Missing:**" high
    (add_missing "**Critical Sections Missing:**" critical
       (score_line the_score the_status)).

Definition prompt_opening : string :=
  "Review this PRD with your technical expertise." +:+ Str.nl +:+ Str.nl +:+
  "VALIDATION RESULTS:" +:+ Str.nl.

Definition prompt_middle : string :=
  Str.nl +:+ Str.nl +:+ "PRD CONTENT:" +:+ Str.nl.

Definition prompt_closing : string :=
  Str.nl +:+ Str.nl +:+ "---" +:+ Str.nl +:+ Str.nl +:+
  "Provide your technical critique following the format specified in your role."
  +:+ Str.nl +:+
  "Focus on the HARDEST technical challenges and RISKIEST assumptions."
  +:+ Str.nl +:+ "Be specific and actionable.".

(** [_build_user_prompt] *)
Definition build_user_prompt (prd_text : string) (validation_report : ReportDict.t)
    : Result string :=
  the_score <- subscript "score" (ReportDict.score validation_report) ;;
  the_status <- subscript "status" (ReportDict.status validation_report) ;;
  let critical := default [] (ReportDict.missing_critical validation_report) in
  let high := default [] (ReportDict.missing_high validation_report) in
  Ok (prompt_opening +:+ validation_summary the_score the_status critical high
      +:+ prompt_middle +:+ prd_text +:+ prompt_closing).

(** What the pipeline can raise beyond the scorer's own exceptions. *)
Inductive Exception : Type :=
  | FromCore (e : PyError)
  | IndexError
  | ApiError.

Inductive Outcome (A : Type) : Type :=
  | Returned (a : A)
  | Raised (e : Exception).

Arguments Returned {A} a.
Arguments Raised {A} e.

(** [challenge]. The API is a function from requests to responses,
    [None] when the call raises; the requests sent so far are threaded
    through as a list. *)
Definition challenge (api : Request -> option Response) (self : Agent)
    (prd_text : string) (validation_report : ReportDict.t) (sent : list Request)
    : Outcome Critique * list Request :=
  match build_user_prompt prd_text validation_report with
  | Raise e => (Raised (FromCore e), sent)
  | Ok user_prompt =>
      let request :=
        {| req_model := agent_model self;
           req_max_tokens := 2000;
           req_system := system_prompt self;
           req_user := user_prompt |} in
      let sent' := sent ++ [request] in
      match api request with
      | None => (Raised ApiError, sent')
      | Some response =>
          match content response with
          | [] => (Raised IndexError, sent')
          | critique_text :: _ =>
              (Returned
                 {| critique := critique_text;
                    model := agent_model self;
                    prompt_tokens := input_tokens response;
                    completion_tokens := output_tokens response;
                    total_tokens := input_tokens response + output_tokens response |},
               sent')
          end
      end
  end.

End Skeptic.

(** ** The orchestrator *)

Module Orchestrator.

(** What [_generate_summary] returns. *)
Record Summary : Type := {
  overall_status : string;
  recommendation : string;
  completeness_score : Z;
  critical_gaps : Z;
  high_priority_gaps : Z;
  key_insight : string
}.

Definition readiness (the_score critical : Z) : string * string :=
  if (90 <=? the_score) && (critical =? 0) then
    ("READY FOR ENGINEERING REVIEW",
     "PRD meets quality standards. Address technical questions before kickoff.")
  else if 70 <=? the_score then
    ("NEEDS ITERATION",
     "Address missing sections and technical concerns before engineering review.")
  else
    ("NOT READY",
     "Significant gaps in completeness and technical clarity. Requires substantial work.").

(** [_generate_summary]; its second argument, the critique, is not read. *)
Definition generate_summary (validation_report : ReportDict.t)
    (the_critique : Skeptic.Critique) : Result Summary :=
  the_score <- subscript "score" (ReportDict.score validation_report) ;;
  critical <- subscript "missing_critical"
                (ReportDict.missing_critical validation_report) ;;
  high <- subscript "missing_high" (ReportDict.missing_high validation_report) ;;
  let n_critical := Z.of_nat (length critical) in
  let n_high := Z.of_nat (length high) in
  Ok {| overall_status := fst (readiness the_score n_critical);
        recommendation := snd (readiness the_score n_critical);
        completeness_score := the_score;
        critical_gaps := n_critical;
        high_priority_gaps := n_high;
        key_insight :=
          "Multi-agent review complete. See detailed validation and technical critique below." |}.

(** What [review_prd] returns; the entries of [metadata] are flattened. *)
Record Review : Type := {
  prd_name : string;
  timestamp : string;
  validation : Report;
  technical_critique : string;
  summary : Summary;
  validator_score : Z;
  validator_status : string;
  skeptic_tokens : Z;
  model_used : string
}.

(** [review_prd], without its printing. [now] is the time stamp read
    from the clock. *)
Definition review_prd (api : Skeptic.Request -> option Skeptic.Response)
    (validator : ValidatorAgent) (skeptic : Skeptic.Agent) (now : string)
    (prd_text the_name : string) (sent : list Skeptic.Request)
    : Skeptic.Outcome Review * list Skeptic.Request :=
  match validate validator prd_text with
  | Raise e => (Skeptic.Raised (Skeptic.FromCore e), sent)
  | Ok (validation_results, the_score) =>
      let validation_report := format_report validation_results the_score in
      match Skeptic.challenge api skeptic prd_text (as_dict validation_report) sent with
      | (Skeptic.Raised e, sent') => (Skeptic.Raised e, sent')
      | (Skeptic.Returned the_critique, sent') =>
          match generate_summary (as_dict validation_report) the_critique with
          | Raise e => (Skeptic.Raised (Skeptic.FromCore e), sent')
          | Ok the_summary =>
              (Skeptic.Returned
                 {| prd_name := the_name;
                    timestamp := now;
                    validation := validation_report;
                    technical_critique := Skeptic.critique the_critique;
                    summary := the_summary;
                    validator_score := the_score;
                    validator_status := status validation_report;
                    skeptic_tokens := Skeptic.total_tokens the_critique;
                    model_used := Skeptic.model the_critique |},
               sent')
          end
      end
  end.

(** The name [save_review] gives the file: spaces become underscores,
    then slashes become hyphens. *)
Definition safe_name (prd_name : string) : string :=
  Str.replace "/" "-" (Str.replace " " "_" prd_name).

(** The path [save_review] writes to and returns: the one it is given
    unless that is [None] or empty, else one under [output/] made of the
    safe name and the time stamp. *)
Definition save_review_path (prd_name : string) (output_path : option string)
    (stamp : string) : string :=
  if Str.truthy output_path then default EmptyString output_path
  else "output/" +:+ safe_name prd_name +:+ "_" +:+ stamp +:+ ".json".


(** What the file system can answer to [save_review]. *)
Inductive OSError : Type :=
  | FileNotFoundError
  | OtherOSError (errno : Z).

(** The calls [save_review] makes on the file system. *)
Inductive Call : Type :=
  | MakeDirs (directory : string)
  | OpenForWriting (path : string)
  | JsonDump (path : string) (review : Review).

(** The file system as [save_review] meets it: what creating a directory
    of a non-empty name, opening a file for writing and writing it out
    raise, [None] when the call succeeds. *)
Record FileSystem : Type := {
  makedirs_error : string -> option OSError;
  open_error : string -> option OSError;
  write_error : string -> option OSError
}.

(** [os.makedirs(name, exist_ok=True)]. The empty name is no directory
    and cannot be created: [mkdir] fails with [FileNotFoundError], which
    [exist_ok] does not cover. *)
Definition makedirs (fs : FileSystem) (directory : string) : option OSError :=
  match directory with
  | EmptyString => Some FileNotFoundError
  | String _ _ => makedirs_error fs directory
  end.

Inductive SaveOutcome : Type :=
  | Saved (path : string)
  | SaveFailed (e : OSError).

(** [save_review]: the calls it makes, in order, and how it ends. [stamp]
    is the time stamp read from the clock. *)
Definition save_review (fs : FileSystem) (review : Review)
    (output_path : option string) (stamp : string) : list Call * SaveOutcome :=
  let path := save_review_path (prd_name review) output_path stamp in
  let directory := Str.dirname path in
  match makedirs fs directory with
  | Some e => ([MakeDirs directory], SaveFailed e)
  | None =>
      match open_error fs path with
      | Some e => ([MakeDirs directory; OpenForWriting path], SaveFailed e)
      | None =>
          match write_error fs path with
          | Some e =>
              ([MakeDirs directory; OpenForWriting path; JsonDump path review],
               SaveFailed e)
          | None =>
              ([MakeDirs directory; OpenForWriting path; JsonDump path review],
               Saved path)
          end
      end
  end.

(** The PRD name [main] derives: from the first line when it is a
    heading, else from the file name. *)
Definition prd_name_of (prd_text prd_file : string) : string :=
  let line := Str.strip (Str.first_line prd_text) in
  if Text.starts_with "#" line
  then Str.strip (Str.lstrip_if Str.is_hash line)
  else Str.replace ".md" "" (Str.basename prd_file).

End Orchestrator.

(** ** More vocabulary *)

(** The first of [name], [required], [severity] a section lacks. *)
Definition first_missing_key (sec : Rubric.Section) : option string :=
  match Rubric.name sec, Rubric.required sec, Rubric.severity sec with
  | None, _, _ => Some "name"
  | Some _, None, _ => Some "required"
  | Some _, Some _, None => Some "severity"
  | Some _, Some _, Some _ => None
  end.

(** A section of the rubric is reported as missing in the critical tier. *)
Definition is_missing_tier (tier : string) (r : ValidationResult) : bool :=
  negb (found r) && required r && String.eqb (severity r) tier.


(** The line break. *)
Definition is_newline (c : ascii) : bool := Ascii.eqb c (ascii_of_nat 10).



(** An API that answers every request with one block of text. *)
Definition sample_api (request : Skeptic.Request) : option Skeptic.Response :=
  Some {| Skeptic.content := ["Which load was this tested under?"];
          Skeptic.input_tokens := 1200;
          Skeptic.output_tokens := 300 |}.

Definition sample_agent : Skeptic.Agent :=
  {| Skeptic.agent_model := "claude-sonnet-4-20250514";
     Skeptic.system_prompt := "You are a skeptical tech lead." |}.

(** ** The rubric as it is loaded

    [yaml.safe_load] hands [validate] plain Python values, and nothing
    checks their types: an entry of the template can be present with a
    value of any kind. This module follows [validate] on such values:
    [None], booleans, integers, floats, strings, lists, and dictionaries
    with string keys. A rubric whose entries have the types the records
    of [Rubric] give them is the special case [typed_template]. *)

Module Dynamic.

(** A dictionary is the list of its items in insertion order; its keys
    are distinct. *)
#[warnings="-register-all"]
Inductive Value : Type :=
  | VNone
  | VBool (b : bool)
  | VInt (n : Z)
  | VFloat (x : spec_float)
  | VStr (s : string)
  | VList (items : list Value)
  | VDict (entries : list (string * Value)).

Inductive Exception : Type :=
  | Core (e : PyError)
  | TypeError
  | AttributeError.

Inductive Outcome (A : Type) : Type :=
  | Returns (a : A)
  | Raises (e : Exception).

Arguments Returns {A} a.
Arguments Raises {A} e.

Definition and_then {A B : Type} (m : Outcome A) (k : A -> Outcome B) : Outcome B :=
  match m with
  | Returns a => k a
  | Raises e => Raises e
  end.

Notation "x <~ m ;; k" := (and_then m (fun x => k))
  (at level 100, m at next level, right associativity).

Definition of_core {A : Type} (m : Result A) : Outcome A :=
  match m with
  | Ok a => Returns a
  | Raise e => Raises (Core e)
  end.

(** The value a dictionary holds for a key. *)
Fixpoint get (entries : list (string * Value)) (key : string) : option Value :=
  match entries with
  | [] => None
  | (k, v) :: rest => if String.eqb k key then Some v else get rest key
  end.

(** [v[key]] for a string key: only a dictionary can be asked. *)
Definition subscript (v : Value) (key : string) : Outcome Value :=
  match v with
  | VDict entries =>
      match get entries key with
      | Some x => Returns x
      | None => Raises (Core (KeyError key))
      end
  | _ => Raises TypeError
  end.

(** [v.get(key, fallback)]: only a dictionary has the method. *)
Definition get_method (v : Value) (key : string) (fallback : Value) : Outcome Value :=
  match v with
  | VDict entries => Returns (default fallback (get entries key))
  | _ => Raises AttributeError
  end.

Fixpoint characters (s : string) : list Value :=
  match s with
  | EmptyString => []
  | String c t => VStr (String c EmptyString) :: characters t
  end.

(** What a [for] loop or a comprehension runs over: the items of a
    list, the characters of a string, the keys of a dictionary. *)
Definition iterate (v : Value) : Outcome (list Value) :=
  match v with
  | VList items => Returns items
  | VStr s => Returns (characters s)
  | VDict entries => Returns (map (fun kv => VStr (fst kv)) entries)
  | VNone | VBool _ | VInt _ | VFloat _ => Raises TypeError
  end.

(** [[kw for kw in keywords if kw.lower() in prd_lower]] on the items:
    only a string has [lower]. *)
Fixpoint keywords_found (prd_lower : string) (items : list Value) : Outcome (list string) :=
  match items with
  | [] => Returns []
  | VStr kw :: rest =>
      others <~ keywords_found prd_lower rest ;;
      Returns (if Text.contains (Text.lower kw) prd_lower then kw :: others else others)
  | _ :: _ => Raises AttributeError
  end.

(** The text an f-string puts for a value. [repr] stands for the
    conversion of floats, lists and dictionaries. *)
Definition format_value (repr : Value -> string) (v : Value) : string :=
  match v with
  | VStr s => s
  | VNone => "None"
  | VBool true => "True"
  | VBool false => "False"
  | VInt n => Str.of_int n
  | VFloat _ | VList _ | VDict _ => repr v
  end.

(** [if v:] *)
Definition truthy (v : Value) : bool :=
  match v with
  | VNone => false
  | VBool b => b
  | VInt n => negb (n =? 0)
  | VFloat (S754_zero _) => false
  | VFloat _ => true
  | VStr EmptyString => false
  | VStr _ => true
  | VList [] => false
  | VList _ => true
  | VDict [] => false
  | VDict _ => true
  end.

(** The two kinds of number the totals can be. *)
Inductive Number : Type :=
  | Int (n : Z)
  | Float (x : spec_float).

(** A value as an operand of [+]: a boolean counts as 0 or 1. *)
Definition as_number (v : Value) : Outcome Number :=
  match v with
  | VBool b => Returns (Int (if b then 1 else 0))
  | VInt n => Returns (Int n)
  | VFloat x => Returns (Float x)
  | VNone | VStr _ | VList _ | VDict _ => Raises TypeError
  end.

(** An integer operand next to a float: the nearest double, or
    [OverflowError] when that is out of range. *)
Definition to_float (n : Z) : Outcome spec_float :=
  match Binary64.of_int n with
  | S754_infinity _ => Raises (Core OverflowError)
  | x => Returns x
  end.

(** [total += v] *)
Definition add (total : Number) (v : Value) : Outcome Number :=
  operand <~ as_number v ;;
  match total, operand with
  | Int m, Int n => Returns (Int (m + n))
  | Int m, Float y =>
      x <~ to_float m ;; Returns (Float (SFadd Binary64.prec Binary64.emax x y))
  | Float x, Int n =>
      y <~ to_float n ;; Returns (Float (SFadd Binary64.prec Binary64.emax x y))
  | Float x, Float y => Returns (Float (SFadd Binary64.prec Binary64.emax x y))
  end.

(** [n > 0] *)
Definition is_positive (n : Number) : bool :=
  match n with
  | Int m => 0 <? m
  | Float x => SFltb (S754_zero false) x
  end.

Definition float_divide (x y : spec_float) : Outcome spec_float :=
  match y with
  | S754_zero _ => Raises (Core ZeroDivisionError)
  | _ => Returns (SFdiv Binary64.prec Binary64.emax x y)
  end.

(** [a / b] *)
Definition true_divide (a b : Number) : Outcome spec_float :=
  match a, b with
  | Int m, Int n => of_core (Binary64.int_true_divide m n)
  | Int m, Float y => x <~ to_float m ;; float_divide x y
  | Float x, Int n => y <~ to_float n ;; float_divide x y
  | Float x, Float y => float_divide x y
  end.

(** The fields of a [ValidationResult], as the values they are given. *)
Record ValidationResult : Type := {
  section_name : Value;
  required : Value;
  found : bool;
  severity : Value;
  keywords_found_in : list string;
  score : Value
}.

(** The agent after [__init__]. *)
Record Agent : Type := {
  template : list (string * Value);
  scoring : Value
}.

(** [__init__] once the file is loaded: [self.template.get] needs a
    dictionary. *)
Definition init (loaded : Value) : Outcome Agent :=
  match loaded with
  | VDict entries =>
      Returns {| template := entries;
                 scoring := default (VDict []) (get entries "scoring") |}
  | _ => Raises AttributeError
  end.

Record LoopState : Type := {
  results : list ValidationResult;
  total_score : Number;
  max_score : Number
}.

Definition initial_state : LoopState :=
  {| results := []; total_score := Int 0; max_score := Int 0 |}.

(** The body of the loop, statement by statement. *)
Definition check_section (repr : Value -> string) (self : Agent) (prd_lower : string)
    (st : LoopState) (section : Value) : Outcome LoopState :=
  the_name <~ subscript section "name" ;;
  is_required <~ subscript section "required" ;;
  the_severity <~ subscript section "severity" ;;
  keywords <~ get_method section "keywords" (VList []) ;;
  items <~ iterate keywords ;;
  kws_found <~ keywords_found prd_lower items ;;
  let is_found := (0 <? length kws_found)%nat in
  let weight_key := format_value repr the_severity +:+ "_weight" in
  section_weight <~ get_method (scoring self) weight_key (VInt 0) ;;
  let section_score := if is_found then section_weight else VInt 0 in
  max' <~ (if truthy is_required then add (max_score st) section_weight
           else Returns (max_score st)) ;;
  total' <~ add (total_score st) section_score ;;
  Returns {| results := results st ++
                        [{| section_name := the_name;
                            required := is_required;
                            found := is_found;
                            severity := the_severity;
                            keywords_found_in := kws_found;
                            score := section_score |}];
             total_score := total';
             max_score := max' |}.

Fixpoint for_each (body : LoopState -> Value -> Outcome LoopState)
    (items : list Value) (st : LoopState) : Outcome LoopState :=
  match items with
  | [] => Returns st
  | x :: rest => st' <~ body st x ;; for_each body rest st'
  end.

(** [int((total_score / max_score * 100)) if max_score > 0 else 0] *)
Definition overall_score (total max : Number) : Outcome Z :=
  if is_positive max then
    q <~ true_divide total max ;;
    of_core (Binary64.to_int (Binary64.mul_int q 100))
  else Returns 0.

(** [validate] *)
Definition validate (repr : Value -> string) (self : Agent) (prd_text : string)
    : Outcome (list ValidationResult * Z) :=
  let prd_lower := Text.lower prd_text in
  sections <~ iterate (default (VList []) (get (template self) "sections")) ;;
  st <~ for_each (check_section repr self prd_lower) sections initial_state ;;
  overall <~ overall_score (total_score st) (max_score st) ;;
  Returns (results st, overall).

(** The values a loop can run over. *)
Definition iterable (v : Value) : bool :=
  match v with
  | VList _ | VStr _ | VDict _ => true
  | VNone | VBool _ | VInt _ | VFloat _ => false
  end.

Definition is_str (v : Value) : bool :=
  match v with VStr _ => true | _ => false end.

(** The values [+] accepts next to a number. *)
Definition is_number (v : Value) : bool :=
  match v with
  | VBool _ | VInt _ | VFloat _ => true
  | VNone | VStr _ | VList _ | VDict _ => false
  end.

(** *** Well-typed rubrics *)

Definition as_str (v : Value) : option string :=
  match v with VStr s => Some s | _ => None end.

Definition as_bool (v : Value) : option bool :=
  match v with VBool b => Some b | _ => None end.

Definition as_int (v : Value) : option Z :=
  match v with VInt n => Some n | _ => None end.

Fixpoint all_of {A : Type} (read : Value -> option A) (items : list Value)
    : option (list A) :=
  match items with
  | [] => Some []
  | v :: rest =>
      match read v, all_of read rest with
      | Some a, Some others => Some (a :: others)
      | _, _ => None
      end
  end.

Definition as_list {A : Type} (read : Value -> option A) (v : Value) : option (list A) :=
  match v with VList items => all_of read items | _ => None end.

(** An entry that may be absent; when present it must read well. *)
Definition entry {A : Type} (read : Value -> option A) (e : option Value)
    : option (option A) :=
  match e with
  | None => Some None
  | Some v => match read v with Some a => Some (Some a) | None => None end
  end.

(** A section whose entries, where present, are a string name, a
    boolean flag, a string severity and a list of string keywords. *)
Definition typed_section (v : Value) : option Rubric.Section :=
  match v with
  | VDict entries =>
      match entry as_str (get entries "name"),
            entry as_bool (get entries "required"),
            entry as_str (get entries "severity"),
            entry (as_list as_str) (get entries "keywords") with
      | Some n, Some r, Some s, Some k =>
          Some {| Rubric.name := n; Rubric.required := r;
                  Rubric.severity := s; Rubric.keywords := k |}
      | _, _, _, _ => None
      end
  | _ => None
  end.

(** A scoring table all of whose weights are integers. *)
Fixpoint typed_weights (entries : list (string * Value)) : option (gmap string Z) :=
  match entries with
  | [] => Some ∅
  | (k, v) :: rest =>
      match as_int v, typed_weights rest with
      | Some w, Some m => Some (<[k := w]> m)
      | _, _ => None
      end
  end.

Definition typed_scoring (v : Value) : option (gmap string Z) :=
  match v with VDict entries => typed_weights entries | _ => None end.

(** The loaded value as a template of [Rubric], when it is a dictionary
    whose [sections], if present, is a list of well-typed sections and
    whose [scoring], if present, is a table of integer weights. *)
Definition typed_template (loaded : Value) : option Rubric.Template :=
  match loaded with
  | VDict entries =>
      match entry (as_list typed_section) (get entries "sections"),
            entry typed_scoring (get entries "scoring") with
      | Some s, Some w => Some {| Rubric.sections := s; Rubric.scoring := w |}
      | _, _ => None
      end
  | _ => None
  end.

End Dynamic.

(** The results and the outcome of the typed model among the values. *)
Definition as_value (r : ValidationResult) : Dynamic.ValidationResult :=
  {| Dynamic.section_name := Dynamic.VStr (section_name r);
     Dynamic.required := Dynamic.VBool (required r);
     Dynamic.found := found r;
     Dynamic.severity := Dynamic.VStr (severity r);
     Dynamic.keywords_found_in := keywords_found r;
     Dynamic.score := Dynamic.VInt (score r) |}.

Definition as_outcome (m : Result (list ValidationResult * Z))
    : Dynamic.Outcome (list Dynamic.ValidationResult * Z) :=
  match m with
  | Ok (rs, s) => Dynamic.Returns (map as_value rs, s)
  | Raise e => Dynamic.Raises (Dynamic.Core e)
  end.

Definition as_state (st : LoopState) : Dynamic.LoopState :=
  {| Dynamic.results := map as_value (results st);
     Dynamic.total_score := Dynamic.Int (total_score st);
     Dynamic.max_score := Dynamic.Int (max_score st) |}.

(** The conversion of the other values is of no account where every
    severity is a string. *)
Definition no_repr (v : Dynamic.Value) : string := EmptyString.

(** The rubrics of the examples as they are loaded. *)
Definition loaded_section (n : string) (req : bool) (sev : string) (kws : list string)
    : Dynamic.Value :=
  Dynamic.VDict
    [("name", Dynamic.VStr n); ("required", Dynamic.VBool req);
     ("severity", Dynamic.VStr sev);
     ("keywords", Dynamic.VList (map Dynamic.VStr kws))].

Definition loaded_template (secs : list Dynamic.Value) (weights : list (string * Z))
    : Dynamic.Value :=
  Dynamic.VDict
    [("sections", Dynamic.VList secs);
     ("scoring", Dynamic.VDict (map (fun kw => (fst kw, Dynamic.VInt (snd kw))) weights))].

Definition loaded_keyless : Dynamic.Value :=
  loaded_template
    [loaded_section "Risks" true "low" ["risk"];
     Dynamic.VDict
       [("name", Dynamic.VStr "Scope"); ("required", Dynamic.VBool true);
        ("keywords", Dynamic.VList [Dynamic.VStr "scope"])]]
    [("critical_weight", 40)].

Definition loaded_optional : Dynamic.Value :=
  loaded_template
    [loaded_section "Problem Statement" true "critical" ["problem statement"];
     loaded_section "Success Metrics" false "high" ["success metrics"]]
    [("critical_weight", 40); ("high_weight", 20)].

(** The critical weight written as text. *)
Definition text_weight_agent : Dynamic.Agent :=
  {| Dynamic.template :=
       [("sections",
         Dynamic.VList
           [loaded_section "Problem Statement" true "critical" ["problem statement"]]);
        ("scoring", Dynamic.VDict [("critical_weight", Dynamic.VStr "40")])];
     Dynamic.scoring := Dynamic.VDict [("critical_weight", Dynamic.VStr "40")] |}.

(** A second section whose [keywords] entry was left empty. *)
Definition null_keywords_entries : list (string * Dynamic.Value) :=
  [("name", Dynamic.VStr "Success Metrics"); ("required", Dynamic.VBool true);
   ("severity", Dynamic.VStr "high"); ("keywords", Dynamic.VNone)].

Definition null_keywords_agent : Dynamic.Agent :=
  {| Dynamic.template :=
       [("sections",
         Dynamic.VList
           [loaded_section "Problem Statement" true "critical" ["problem statement"];
            Dynamic.VDict null_keywords_entries]);
        ("scoring", Dynamic.VDict [("critical_weight", Dynamic.VInt 40)])];
     Dynamic.scoring := Dynamic.VDict [("critical_weight", Dynamic.VInt 40)] |}.

(** A file system on which every call succeeds. *)
Definition welcoming_disk : Orchestrator.FileSystem :=
  {| Orchestrator.makedirs_error := fun _ => None;
     Orchestrator.open_error := fun _ => None;
     Orchestrator.write_error := fun _ => None |}.

(** Nothing has been shifted out of the significand so far. *)
Definition is_exact (mrs : shr_record) : bool :=
  negb (shr_r mrs) && negb (shr_s mrs).

(** ** Text lemmas *)

Section TextFacts.

Import Text.

Lemma append_cons (c : ascii) (s t : string) :
  String c s +:+ t = String c (s +:+ t).
Proof. reflexivity. Qed.

Lemma append_empty (t : string) : EmptyString +:+ t = t.
Proof. reflexivity. Qed.

Lemma starts_with_spec (p s : string) :
  starts_with p s = true <-> exists t, s = p +:+ t.
Proof.
  revert s. induction p as [|a p IH]; intros s; simpl.
  - split; [intros _; now exists s | reflexivity].
  - destruct s as [|b s].
    + split; [discriminate | intros [t Ht]; rewrite append_cons in Ht; discriminate].
    + destruct (Ascii.eqb a b) eqn:Hab.
      * apply Ascii.eqb_eq in Hab. subst b. rewrite IH.
        split; intros [t Ht]; exists t; rewrite append_cons in *; congruence.
      * apply Ascii.eqb_neq in Hab.
        split; [discriminate | intros [t Ht]; rewrite append_cons in Ht; congruence].
Qed.

Lemma contains_spec (needle hay : string) :
  contains needle hay = true <->
  exists pre post, hay = pre +:+ needle +:+ post.
Proof.
  induction hay as [|c hay IH]; simpl; rewrite orb_true_iff, starts_with_spec.
  - split.
    + intros [[t Ht] | Hf]; [exists EmptyString, t; exact Ht | discriminate].
    + intros [pre [post H]]. left.
      destruct pre; [now exists post | rewrite append_cons in H; discriminate].
  - rewrite IH. split.
    + intros [[t Ht] | [pre [post H]]].
      * exists EmptyString, t. exact Ht.
      * exists (String c pre), post. rewrite append_cons. now rewrite H.
    + intros [pre [post H]]. destruct pre as [|d pre].
      * left. now exists post.
      * right. exists pre, post. rewrite append_cons in H. congruence.
Qed.




Lemma lower_empty_inv (s : string) : lower s = EmptyString -> s = EmptyString.
Proof. destruct s; simpl; [reflexivity | discriminate]. Qed.

Lemma contains_in_empty (needle : string) :
  contains needle EmptyString = true <-> needle = EmptyString.
Proof.
  destruct needle; simpl; split; auto; discriminate.
Qed.

End TextFacts.

(** ** The loop of [validate] *)

Section LoopFacts.

Variable self : ValidatorAgent.
Variable prd_lower : string.

(** One turn of the loop on a section that has its keys. *)
Lemma check_section_ok (st : LoopState) (sec : Rubric.Section) :
  has_keys sec = true ->
  check_section self prd_lower st sec =
  Ok {| results := results st ++ [section_result self prd_lower sec];
        total_score := total_score st + earned self prd_lower sec;
        max_score := max_score st + possible self sec |}.
Proof.
  unfold has_keys, check_section, section_result, earned, possible,
    section_found, section_tier, section_required, section_keywords.
  destruct (Rubric.name sec) as [n|]; [|discriminate].
  destruct (Rubric.required sec) as [[|]|]; try discriminate;
    (destruct (Rubric.severity sec) as [sev|]; [|discriminate]);
    intros _; simpl; repeat f_equal; lia.
Qed.

(** A section without one of its keys stops the loop with [KeyError]. *)
Lemma check_section_key_error (st : LoopState) (sec : Rubric.Section) :
  has_keys sec = false ->
  exists key, check_section self prd_lower st sec = Raise (KeyError key).
Proof.
  unfold has_keys, check_section.
  destruct (Rubric.name sec); [|intros _; now exists "name"].
  destruct (Rubric.required sec); [|intros _; now exists "required"].
  destruct (Rubric.severity sec); [discriminate|intros _; now exists "severity"].
Qed.

(** The whole loop, from any state, on sections that all have their keys. *)
Lemma for_each_check_section (secs : list Rubric.Section) (st : LoopState) :
  forallb has_keys secs = true ->
  for_each (check_section self prd_lower) secs st =
  Ok {| results := results st ++ map (section_result self prd_lower) secs;
        total_score := total_score st + earned_total self prd_lower secs;
        max_score := max_score st + possible_total self secs |}.
Proof.
  revert st. induction secs as [|sec secs IH]; intros st H; simpl in *.
  - destruct st; simpl. now rewrite app_nil_r, !Z.add_0_r.
  - apply andb_true_iff in H as [Hk Hs].
    rewrite (check_section_ok st sec Hk). simpl.
    rewrite (IH _ Hs). simpl.
    rewrite <- app_assoc. simpl. now rewrite !Z.add_assoc.
Qed.

End LoopFacts.

Lemma run_sections_ok (self : ValidatorAgent) (prd_text : string) :
  forallb has_keys (rubric_sections self) = true ->
  run_sections self prd_text =
  Ok {| results := map (section_result self (Text.lower prd_text)) (rubric_sections self);
        total_score := earned_total self (Text.lower prd_text) (rubric_sections self);
        max_score := possible_total self (rubric_sections self) |}.
Proof.
  intros H. unfold run_sections. fold (rubric_sections self).
  now rewrite for_each_check_section.
Qed.

Lemma validate_unfold (self : ValidatorAgent) (prd_text : string) :
  forallb has_keys (rubric_sections self) = true ->
  validate self prd_text =
  (overall <- overall_score (earned_total self (Text.lower prd_text) (rubric_sections self))
                            (possible_total self (rubric_sections self)) ;;
   Ok (map (section_result self (Text.lower prd_text)) (rubric_sections self), overall)).
Proof.
  intros H. unfold validate. now rewrite run_sections_ok.
Qed.

(** The loop raises nothing but [KeyError], and that only for a section
    without one of its keys. *)
Lemma for_each_key_error (self : ValidatorAgent) (prd_lower : string)
    (secs : list Rubric.Section) (st : LoopState) :
  forallb has_keys secs = false ->
  exists key, for_each (check_section self prd_lower) secs st = Raise (KeyError key).
Proof.
  revert st. induction secs as [|sec secs IH]; intros st H; simpl in *.
  - discriminate.
  - destruct (has_keys sec) eqn:Hk; simpl in H.
    + rewrite (check_section_ok self prd_lower st sec Hk). simpl. now apply IH.
    + destruct (check_section_key_error self prd_lower st sec Hk) as [k Hr].
      exists k. now rewrite Hr.
Qed.

(** ** The percentage *)

Lemma hundred_as_double :
  Binary64.of_int 100 = S754_finite false 7036874417766400 (-46).
Proof. reflexivity. Qed.

(** Without a positive denominator the score is 0 and nothing is divided. *)
Lemma overall_score_no_denominator (total max : Z) :
  max <= 0 -> overall_score total max = Ok 0.
Proof.
  intros H. unfold overall_score.
  destruct (0 <? max) eqn:E; [apply Z.ltb_lt in E; lia | reflexivity].
Qed.

(** Nothing earned over a positive denominator is 0.0, then 0. *)
Lemma overall_score_nothing_earned (max : Z) :
  0 < max -> overall_score 0 max = Ok 0.
Proof.
  intros H. unfold overall_score, Binary64.int_true_divide, Binary64.mul_int.
  destruct max as [|p|p]; try lia.
  rewrite hundred_as_double. reflexivity.
Qed.

(** ** Rounding to nearest stays under a representable ceiling

    The shifts and the rounding of the Standard Library's
    [binary_round_aux], followed far enough to bound the percentage. *)

Section Rounding.

Lemma digits2_pos_size (p : positive) : digits2_pos p = Pos.size p.
Proof. induction p; simpl; congruence. Qed.

(** A positive number has at least as many digits as any power of two below it. *)
Lemma digits_le (p : positive) (k : Z) :
  Zpos p < 2 ^ k -> Zpos (digits2_pos p) <= k.
Proof.
  intros H. rewrite digits2_pos_size.
  destruct (Z_lt_le_dec k 0) as [Hk|Hk].
  { rewrite Z.pow_neg_r in H by lia. lia. }
  pose proof (Pos.size_le p) as Hs.
  assert (Hs' : 2 ^ Zpos (Pos.size p) <= 2 * Zpos p).
  { rewrite <- Pos2Z.inj_pow. change (2 * Zpos p) with (Zpos p~0). exact Hs. }
  destruct (Z_lt_le_dec k (Zpos (Pos.size p))) as [Hlt|]; [|lia].
  exfalso.
  assert (2 ^ (k + 1) <= 2 ^ Zpos (Pos.size p)) by (apply Z.pow_le_mono_r; lia).
  rewrite Z.pow_add_r in * by lia. lia.
Qed.

Lemma iter_pos_nat {A : Type} (f : A -> A) (p : positive) (x : A) :
  @SpecFloat.iter_pos A f p x = Nat.iter (Pos.to_nat p) f x.
Proof.
  revert x. induction p as [p IH|p IH|]; intros x.
  - rewrite Pos2Nat.inj_xI. cbn [SpecFloat.iter_pos]. rewrite !IH.
    rewrite <- Nat.iter_add, <- Nat.iter_succ_r. f_equal. lia.
  - rewrite Pos2Nat.inj_xO. cbn [SpecFloat.iter_pos]. rewrite !IH.
    rewrite <- Nat.iter_add. f_equal. lia.
  - reflexivity.
Qed.

Lemma shr_1_spec (mrs : shr_record) :
  0 <= shr_m mrs ->
  shr_m (shr_1 mrs) = shr_m mrs / 2 /\
  (is_exact mrs = true -> shr_m mrs mod 2 = 0 -> is_exact (shr_1 mrs) = true).
Proof.
  destruct mrs as [m r s]. unfold is_exact. simpl. intros Hm.
  destruct m as [|[p|p|]|p]; simpl; try lia.
  - split; [reflexivity|]. destruct r, s; auto.
  - split; [rewrite Pos2Z.inj_xI; apply Z.div_unique with 1; lia|].
    intros _ H. rewrite Pos2Z.inj_xI in H.
    rewrite Z.add_comm, Z.mul_comm, Z.mod_add in H by lia. discriminate.
  - split; [rewrite Pos2Z.inj_xO; apply Z.div_unique with 0; lia|].
    destruct r, s; auto.
  - split; [reflexivity|]. intros _ H. discriminate.
Qed.

Lemma shr_iter_spec (k : nat) (mrs : shr_record) :
  0 <= shr_m mrs ->
  let out := Nat.iter k shr_1 mrs in
  shr_m out = shr_m mrs / 2 ^ Z.of_nat k /\
  (is_exact mrs = true -> shr_m mrs mod 2 ^ Z.of_nat k = 0 -> is_exact out = true).
Proof.
  intros Hm. induction k as [|k [IHm IHe]].
  - simpl. rewrite Z.div_1_r. auto.
  - cbn zeta. rewrite Nat2Z.inj_succ, Z.pow_succ_r by lia. simpl Nat.iter.
    assert (H0 : 0 <= shr_m (Nat.iter k shr_1 mrs)).
    { cbn zeta in IHm. rewrite IHm. apply Z.div_pos; lia. }
    destruct (shr_1_spec _ H0) as [Sm Se]. split.
    + rewrite Sm. cbn zeta in IHm. rewrite IHm.
      rewrite Z.div_div by lia. f_equal. lia.
    + intros He Hmod. apply Se.
      * apply IHe; [exact He|].
        assert (P : 0 < 2 ^ Z.of_nat k) by (apply Z.pow_pos_nonneg; lia).
        apply Z.mod_divide in Hmod; [|lia]. destruct Hmod as [c Hc].
        apply Z.mod_divide; [lia|]. exists (c * 2). lia.
      * cbn zeta in IHm. rewrite IHm.
        assert (P : 0 < 2 ^ Z.of_nat k) by (apply Z.pow_pos_nonneg; lia).
        apply Z.mod_divide in Hmod; [|lia]. destruct Hmod as [c Hc].
        rewrite Hc. replace (c * (2 * 2 ^ Z.of_nat k)) with (c * 2 * 2 ^ Z.of_nat k) by lia.
        rewrite Z.div_mul by lia. apply Z.mod_mul. lia.
Qed.


Lemma loc_of_record_of_loc (m : Z) (l : location) :
  loc_of_shr_record (shr_record_of_loc m l) = l.
Proof. destruct l as [|[]]; reflexivity. Qed.

Lemma is_exact_loc (mrs : shr_record) :
  is_exact mrs = true -> loc_of_shr_record mrs = loc_Exact.
Proof.
  destruct mrs as [m [] []]; unfold is_exact; simpl; intros H;
    [discriminate | discriminate | discriminate | reflexivity].
Qed.

Lemma shr_spec (m e : Z) (p : positive) (l : location) :
  0 <= m ->
  exists out,
    shr (shr_record_of_loc m l) e (Zpos p) = (out, e + Zpos p) /\
    shr_m out = m / 2 ^ Zpos p /\
    (l = loc_Exact -> m mod 2 ^ Zpos p = 0 -> loc_of_shr_record out = loc_Exact).
Proof.
  intros Hm. unfold shr. rewrite iter_pos_nat.
  assert (H0 : 0 <= shr_m (shr_record_of_loc m l)) by (destruct l as [|[]]; exact Hm).
  destruct (shr_iter_spec (Pos.to_nat p) _ H0) as [Sm Se].
  rewrite positive_nat_Z in Sm, Se.
  assert (E : shr_m (shr_record_of_loc m l) = m) by (destruct l as [|[]]; reflexivity).
  rewrite E in Sm, Se.
  eexists. split; [reflexivity|]. split; [exact Sm|].
  intros -> Hmod. apply is_exact_loc. now apply Se.
Qed.

Lemma round_nearest_even_bounds (m : Z) (l : location) :
  m <= round_nearest_even m l <= m + 1 /\
  (l = loc_Exact -> round_nearest_even m l = m).
Proof.
  destruct l as [|[]]; simpl; (split; [|try discriminate; auto]);
    try lia. destruct (Z.even m); lia.
Qed.

Lemma fexp_double (z : Z) : fexp 53 1024 z = Z.max (z - 53) (-1074).
Proof. reflexivity. Qed.

Section Ceiling.

Variable C : Z.
Hypothesis C_pos : 0 < C.
Hypothesis C_fits : C < 2 ^ 53.

(** A significand under the ceiling [C] has few enough digits for its
    rounding exponent to stay non-positive. *)
Lemma fexp_under_ceiling (m e : Z) :
  0 <= m -> e <= 0 -> m <= C * 2 ^ (- e) ->
  fexp 53 1024 (Zdigits2 m + e) <= 0.
Proof.
  intros Hm He Hle. rewrite fexp_double.
  destruct m as [|q|q]; simpl Zdigits2; try lia.
  assert (Zpos (digits2_pos q) <= 53 - e); [|lia].
  apply digits_le. replace (53 - e) with (53 + - e) by lia.
  rewrite Z.pow_add_r by lia.
  assert (0 < 2 ^ (- e)) by (apply Z.pow_pos_nonneg; lia). nia.
Qed.

Lemma shr_fexp_le (m e : Z) (l : location) :
  0 <= m -> e <= 0 -> m <= C * 2 ^ (- e) ->
  exists out e',
    shr_fexp 53 1024 m e l = (out, e') /\
    e' <= 0 /\
    0 <= shr_m out <= C * 2 ^ (- e') /\
    ((l <> loc_Exact -> m < C * 2 ^ (- e)) ->
     loc_of_shr_record out <> loc_Exact -> shr_m out < C * 2 ^ (- e')).
Proof.
  intros Hm He Hle. unfold shr_fexp.
  pose proof (fexp_under_ceiling m e Hm He Hle) as Hf.
  set (n := fexp 53 1024 (Zdigits2 m + e) - e).
  assert (Keep : forall r : shr_record * Z,
             r = (shr_record_of_loc m l, e) ->
             exists out e', r = (out, e') /\ e' <= 0 /\
               0 <= shr_m out <= C * 2 ^ (- e') /\
               ((l <> loc_Exact -> m < C * 2 ^ (- e)) ->
                loc_of_shr_record out <> loc_Exact -> shr_m out < C * 2 ^ (- e'))).
  { intros r ->. eexists. eexists. split; [reflexivity|].
    assert (E : shr_m (shr_record_of_loc m l) = m) by (destruct l as [|[]]; reflexivity).
    rewrite E, loc_of_record_of_loc. auto. }
  destruct n as [|p|p] eqn:En; [now apply Keep | | now apply Keep].
  destruct (shr_spec m e p l Hm) as [out [Hs [Sm Se]]].
  exists out, (e + Zpos p). split; [exact Hs|].
  assert (Ee : e + Zpos p = fexp 53 1024 (Zdigits2 m + e)) by lia.
  assert (He' : e + Zpos p <= 0) by lia.
  assert (P2 : 0 < 2 ^ Zpos p) by (apply Z.pow_pos_nonneg; lia).
  assert (Pe : 0 < 2 ^ (- (e + Zpos p))) by (apply Z.pow_pos_nonneg; lia).
  assert (Split : 2 ^ (- e) = 2 ^ (- (e + Zpos p)) * 2 ^ Zpos p).
  { rewrite <- Z.pow_add_r by lia. f_equal. lia. }
  split; [exact He'|]. rewrite Sm. split.
  - split; [apply Z.div_pos; lia|].
    apply Z.div_le_upper_bound; [lia|]. rewrite Split in Hle. nia.
  - intros Hstrict Hloc.
    destruct (Z_lt_le_dec (m / 2 ^ Zpos p) (C * 2 ^ (- (e + Zpos p)))) as [|Hge];
      [assumption|exfalso].
    assert (Hm2 : m / 2 ^ Zpos p * 2 ^ Zpos p <= m).
    { rewrite Z.mul_comm. apply Z.mul_div_le. lia. }
    assert (Heq : m = C * 2 ^ (- e)) by (rewrite Split in *; nia).
    assert (Hex : l = loc_Exact).
    { destruct l as [|c]; [reflexivity|]. exfalso.
      assert (m < C * 2 ^ (- e)) by (apply Hstrict; discriminate). lia. }
    apply Hloc, Se; [exact Hex|].
    rewrite Heq, Split, Z.mul_assoc. apply Z.mod_mul. lia.
Qed.

(** Rounding to nearest never crosses a ceiling that is itself a double. *)
Lemma binary_round_aux_le (mx ex : Z) (lx : location) :
  0 <= mx -> ex <= 0 -> mx <= C * 2 ^ (- ex) ->
  (lx <> loc_Exact -> mx < C * 2 ^ (- ex)) ->
  binary_round_aux 53 1024 false mx ex lx = S754_zero false \/
  exists m e,
    binary_round_aux 53 1024 false mx ex lx = S754_finite false m e /\
    e <= 0 /\ Zpos m <= C * 2 ^ (- e).
Proof.
  intros Hm He Hle Hstrict. unfold binary_round_aux.
  destruct (shr_fexp_le mx ex lx Hm He Hle) as [o1 [e1 [-> [He1 [[Hlo Hhi] Hst]]]]].
  specialize (Hst Hstrict).
  destruct (round_nearest_even_bounds (shr_m o1) (loc_of_shr_record o1)) as [[Rl Rh] Rex].
  assert (Hr : round_nearest_even (shr_m o1) (loc_of_shr_record o1) <= C * 2 ^ (- e1)).
  { destruct (loc_of_shr_record o1) as [|c] eqn:El.
    - rewrite Rex by reflexivity. exact Hhi.
    - assert (shr_m o1 < C * 2 ^ (- e1)) by (apply Hst; discriminate). lia. }
  destruct (shr_fexp_le _ e1 loc_Exact (Z.le_trans _ _ _ Hlo Rl) He1 Hr)
    as [o2 [e2 [-> [He2 [[Hlo2 Hhi2] _]]]]].
  destruct (shr_m o2) as [|m|m] eqn:Em; [now left | right | lia].
  exists m, e2.
  destruct (e2 <=? 1024 - 53) eqn:Eb; [|apply Z.leb_gt in Eb; lia].
  auto.
Qed.

End Ceiling.

(** The quotient of two integers [0 < a <= b] is 0.0 or a double no
    greater than 1. *)
Lemma int_true_divide_le_one (a b : Z) :
  0 < a <= b ->
  SFdiv 53 1024 (Binary64.exact a) (Binary64.exact b) = S754_zero false \/
  exists m e,
    SFdiv 53 1024 (Binary64.exact a) (Binary64.exact b) = S754_finite false m e /\
    e <= 0 /\ Zpos m <= 1 * 2 ^ (- e).
Proof.
  intros [Ha Hab].
  destruct a as [|pa|pa]; try lia. destruct b as [|pb|pb]; try lia.
  unfold Binary64.exact, SFdiv, SFdiv_core_binary.
  set (e' := Z.min _ _).
  assert (He' : e' <= 0) by (unfold e'; lia).
  set (s := 0 - 0 - e').
  set (m' := match s with Z0 => Zpos pa | Zpos _ => Z.shiftl (Zpos pa) s | Zneg _ => 0 end).
  assert (Hm' : m' = Zpos pa * 2 ^ (- e')).
  { unfold m'. destruct s as [|ps|ps] eqn:Es; try lia.
    - replace (- e') with 0 by lia. simpl. lia.
    - rewrite Z.shiftl_mul_pow2 by lia. f_equal. f_equal. lia. }
  assert (P : 0 < 2 ^ (- e')) by (apply Z.pow_pos_nonneg; lia).
  pose proof (Z_div_mod m' (Zpos pb) eq_refl) as Hdiv.
  destruct (Z.div_eucl m' (Zpos pb)) as [q r]. destruct Hdiv as [Hq Hr].
  simpl xorb.
  assert (Hq0 : 0 <= q) by nia.
  assert (Hq1 : q <= 1 * 2 ^ (- e')) by nia.
  assert (Hq2 : new_location (Zpos pb) r <> loc_Exact -> q < 1 * 2 ^ (- e')).
  { intros Hloc.
    assert (r <> 0).
    { intros ->. apply Hloc. unfold new_location.
      destruct (Z.even (Zpos pb)); reflexivity. }
    nia. }
  apply (binary_round_aux_le 1 ltac:(lia) ltac:(reflexivity) q e' _ Hq0 He' Hq1 Hq2).
Qed.

(** A double no greater than 1, times 100, truncates to at most 100. *)
Lemma times_hundred_le (m : positive) (e : Z) :
  e <= 0 -> Zpos m <= 1 * 2 ^ (- e) ->
  exists s,
    Binary64.to_int (Binary64.mul_int (S754_finite false m e) 100) = Ok s /\
    0 <= s <= 100.
Proof.
  intros He Hm. unfold Binary64.mul_int. rewrite hundred_as_double.
  unfold SFmul, Binary64.prec, Binary64.emax. simpl xorb.
  assert (P : 0 < 2 ^ (- e)) by (apply Z.pow_pos_nonneg; lia).
  assert (Hb : Zpos (m * 7036874417766400) <= 100 * 2 ^ (- (e + -46))).
  { replace (- (e + -46)) with (- e + 46) by lia.
    rewrite Z.pow_add_r by lia. rewrite Pos2Z.inj_mul.
    change (Zpos 7036874417766400) with (100 * 2 ^ 46). nia. }
  destruct (binary_round_aux_le 100 ltac:(lia) ltac:(reflexivity)
              (Zpos (m * 7036874417766400)) (e + -46) loc_Exact
              ltac:(lia) ltac:(lia) Hb ltac:(congruence))
    as [-> | [m' [e' [-> [He' Hm']]]]].
  - exists 0. simpl. split; [reflexivity | lia].
  - eexists. split; [reflexivity|]. simpl cond_Zopp.
    rewrite Z.shiftl_div_pow2 by lia.
    assert (P' : 0 < 2 ^ (- e')) by (apply Z.pow_pos_nonneg; lia).
    split; [apply Z.div_pos; lia|].
    apply Z.div_le_upper_bound; lia.
Qed.

(** Whenever what is earned does not exceed what is possible, the
    percentage is computed without error and lies between 0 and 100. *)
Lemma overall_score_in_range (total max : Z) :
  0 <= total <= max ->
  exists s, overall_score total max = Ok s /\ 0 <= s <= 100.
Proof.
  intros [Ht Hm].
  destruct (Z_lt_le_dec 0 max) as [Hpos|Hle].
  2:{ exists 0. split; [now apply overall_score_no_denominator | lia]. }
  destruct (Z.eq_dec total 0) as [->|Hne].
  { exists 0. split; [now apply overall_score_nothing_earned | lia]. }
  unfold overall_score, Binary64.int_true_divide, Binary64.prec, Binary64.emax.
  destruct (0 <? max) eqn:E; [|apply Z.ltb_ge in E; lia].
  destruct (max =? 0) eqn:E0; [apply Z.eqb_eq in E0; lia|].
  destruct (int_true_divide_le_one total max ltac:(lia)) as [-> | [m [e [-> [He Hle]]]]].
  - exists 0. simpl. split; [reflexivity | lia].
  - simpl bind. now apply times_hundred_le.
Qed.

End Rounding.

(** ** Found sections *)

Lemma matching_keywords_In (prd_lower kw : string) (kws : list string) :
  In kw (matching_keywords prd_lower kws) <->
  In kw kws /\ Text.contains (Text.lower kw) prd_lower = true.
Proof.
  unfold matching_keywords.
  exact (filter_In (fun k => Text.contains (Text.lower k) prd_lower) kw kws).
Qed.

Lemma section_found_iff (prd_lower : string) (sec : Rubric.Section) :
  section_found prd_lower sec = true <->
  exists kw, In kw (section_keywords sec) /\
             Text.contains (Text.lower kw) prd_lower = true.
Proof.
  unfold section_found. rewrite Nat.ltb_lt. split.
  - destruct (matching_keywords prd_lower (section_keywords sec)) as [|kw l] eqn:E.
    + simpl. lia.
    + intros _. exists kw. apply matching_keywords_In. rewrite E. now left.
  - intros [kw H]. apply matching_keywords_In in H.
    destruct (matching_keywords prd_lower (section_keywords sec)); [destruct H|].
    simpl. lia.
Qed.

Lemma Forall2_map_same {A B : Type} (P : A -> B -> Prop) (f : A -> B) (l : list A) :
  (forall x, In x l -> P x (f x)) -> Forall2 P l (map f l).
Proof.
  induction l as [|x l IH]; intros H; simpl; constructor.
  - apply H. now left.
  - apply IH. intros y Hy. apply H. now right.
Qed.

(** ** Claims about [validate] *)

(** C3. When the possible total of the rubric is 0, [validate] returns
    the overall score 0 and raises nothing; when the rubric has no
    section at all, the list of results is empty too, and so is every
    bucket of the report. *)
Theorem C3_zero_possible_total_scores_zero (self : ValidatorAgent) (doc : string) :
  forallb has_keys (rubric_sections self) = true ->
  possible_total self (rubric_sections self) = 0 ->
  (exists rs,
      validate self doc = Ok (rs, 0) /\
      length rs = length (rubric_sections self)) /\
  (rubric_sections self = [] ->
   validate self doc = Ok ([], 0) /\
   missing_critical (format_report [] 0) = [] /\
   missing_high (format_report [] 0) = [] /\
   missing_medium (format_report [] 0) = [] /\
   found_sections (format_report [] 0) = []).
Proof.
  intros Hk Hp. rewrite (validate_unfold self doc Hk), Hp.
  rewrite overall_score_no_denominator by lia. simpl. split.
  - eexists. split; [reflexivity|]. now rewrite length_map.
  - intros ->. simpl. repeat split.
Qed.

(** * Case-insensitive occurrence and the code-point model *)

Section CaselessFacts.

Import Text Caseless.









End CaselessFacts.

Section UnicodeFacts.

Import Unicode.












End UnicodeFacts.



(** The loop returns only when every section has its keys. *)
Lemma run_sections_has_keys (self : ValidatorAgent) (doc : string) (st : LoopState) :
  run_sections self doc = Ok st ->
  forallb has_keys (rubric_sections self) = true.
Proof.
  intros H. destruct (forallb has_keys (rubric_sections self)) eqn:E; [reflexivity|].
  destruct (for_each_key_error self (Text.lower doc) _ initial_state E) as [k Hk].
  unfold run_sections in H. fold (rubric_sections self) in H. congruence.
Qed.

(** A template with a section that lacks a key makes [validate] raise. *)
Lemma validate_key_error (self : ValidatorAgent) (doc : string) :
  forallb has_keys (rubric_sections self) = false ->
  exists key, validate self doc = Raise (KeyError key).
Proof.
  intros E.
  destruct (for_each_key_error self (Text.lower doc) _ initial_state E) as [k Hk].
  exists k. unfold validate, run_sections. fold (rubric_sections self).
  now rewrite Hk.
Qed.

Lemma earned_total_app (self : ValidatorAgent) (pl : string) (a b : list Rubric.Section) :
  earned_total self pl (a ++ b) = earned_total self pl a + earned_total self pl b.
Proof.
  unfold earned_total. induction a as [|x a IH]; simpl; [reflexivity|].
  rewrite IH. lia.
Qed.

Lemma possible_total_app (self : ValidatorAgent) (a b : list Rubric.Section) :
  possible_total self (a ++ b) = possible_total self a + possible_total self b.
Proof.
  unfold possible_total. induction a as [|x a IH]; simpl; [reflexivity|].
  rewrite IH. lia.
Qed.

Lemma lookup_map_middle {A B : Type} (f : A -> B) (pre post : list A) (x : A) :
  map f (pre ++ x :: post) !! length pre = Some (f x).
Proof. induction pre as [|y pre IH]; simpl; [reflexivity | exact IH]. Qed.

Lemma matching_keywords_snoc (pl kw : string) (kws : list string) :
  Text.contains (Text.lower kw) pl = true ->
  matching_keywords pl (kws ++ [kw]) = matching_keywords pl kws ++ [kw].
Proof.
  intros H. unfold matching_keywords. rewrite List.filter_app. simpl. now rewrite H.
Qed.

(** A section that was found stays found, with the same earnings, when a
    keyword is added to it. *)
Lemma earned_add_keyword (self : ValidatorAgent) (pl kw : string) (sec : Rubric.Section) :
  section_found pl sec = true ->
  section_found pl (add_keyword sec kw) = true /\
  earned self pl (add_keyword sec kw) = earned self pl sec.
Proof.
  intros H.
  assert (Hf : section_found pl (add_keyword sec kw) = true).
  { apply section_found_iff. apply section_found_iff in H as [k [Hin Hk]].
    exists k. split; [|exact Hk]. simpl. apply in_or_app. now left. }
  split; [exact Hf|]. unfold earned. now rewrite Hf, H.
Qed.

(** On the empty document only an empty keyword matches. *)
Lemma nothing_found_in_empty (sec : Rubric.Section) :
  (forall kw, In kw (section_keywords sec) -> kw <> EmptyString) ->
  section_found EmptyString sec = false.
Proof.
  intros H. destruct (section_found EmptyString sec) eqn:E; [|reflexivity].
  apply section_found_iff in E as [kw [Hin Hc]].
  apply contains_in_empty, lower_empty_inv in Hc. now apply H in Hin.
Qed.

Lemma earned_total_nothing_found (self : ValidatorAgent) (pl : string)
    (secs : list Rubric.Section) :
  (forall sec, In sec secs -> section_found pl sec = false) ->
  earned_total self pl secs = 0.
Proof.
  induction secs as [|sec secs IH]; intros H; simpl; [reflexivity|].
  unfold earned at 1. rewrite (H sec) by now left.
  rewrite IH; [reflexivity|]. intros s Hs. apply H. now right.
Qed.

(** C8, amended. On the empty document, a rubric whose keywords are all
    non-empty strings has no section found, and its overall score is 0. *)
Theorem C8_empty_document_finds_nothing (self : ValidatorAgent) :
  forallb has_keys (rubric_sections self) = true ->
  (forall sec kw, In sec (rubric_sections self) ->
                  In kw (section_keywords sec) -> kw <> EmptyString) ->
  exists rs,
    validate self EmptyString = Ok (rs, 0) /\
    length rs = length (rubric_sections self) /\
    Forall (fun r => found r = false /\ score r = 0) rs.
Proof.
  intros Hk Hne.
  assert (Hnf : forall sec, In sec (rubric_sections self) ->
                            section_found EmptyString sec = false).
  { intros sec Hin. apply nothing_found_in_empty. intros kw. now apply Hne. }
  rewrite (validate_unfold self EmptyString Hk). simpl Text.lower.
  rewrite (earned_total_nothing_found self EmptyString _ Hnf).
  assert (Hs : overall_score 0 (possible_total self (rubric_sections self)) = Ok 0).
  { destruct (Z_lt_le_dec 0 (possible_total self (rubric_sections self))).
    - now apply overall_score_nothing_earned.
    - now apply overall_score_no_denominator. }
  rewrite Hs. simpl. eexists. split; [reflexivity|]. split.
  - now rewrite length_map.
  - apply List.Forall_forall. intros r Hr. apply in_map_iff in Hr as [sec [<- Hin]].
    simpl. unfold earned. now rewrite (Hnf sec Hin).
Qed.

(** C8 as stated fails: the empty keyword is in the empty document, so
    the section is found and the score is 100. *)
Lemma C8_empty_keyword_found_in_empty_document :
  validate (init empty_keyword_rubric) EmptyString =
  Ok ([{| section_name := "Overview"; required := true; found := true;
          severity := "critical"; keywords_found := [EmptyString];
          score := 40 |}], 100).
Proof. vm_compute. reflexivity. Qed.

(** C9. When a section is found, adding to its keywords one more keyword
    that matches the document changes neither the score of the section
    nor the totals nor the overall score. *)
Theorem C9_extra_matching_keyword_keeps_score
    (self : ValidatorAgent) (doc kw : string)
    (pre post : list Rubric.Section) (sec : Rubric.Section)
    (st : LoopState) (r : ValidationResult) :
  rubric_sections self = pre ++ sec :: post ->
  run_sections self doc = Ok st ->
  results st !! length pre = Some r ->
  found r = true ->
  Text.contains (Text.lower kw) (Text.lower doc) = true ->
  exists st' r',
    run_sections (with_sections self (pre ++ add_keyword sec kw :: post)) doc = Ok st' /\
    results st' !! length pre = Some r' /\
    found r' = true /\
    keywords_found r' = keywords_found r ++ [kw] /\
    score r' = score r /\
    total_score st' = total_score st /\
    max_score st' = max_score st /\
    overall_score (total_score st') (max_score st') =
    overall_score (total_score st) (max_score st).
Proof.
  intros Hsecs Hrun Hr Hfound Hkw.
  pose proof (run_sections_has_keys self doc st Hrun) as Hk.
  rewrite (run_sections_ok self doc Hk) in Hrun. injection Hrun as <-.
  rewrite Hsecs in Hk, Hr. simpl in Hr. rewrite lookup_map_middle in Hr.
  injection Hr as <-. simpl in Hfound.
  destruct (earned_add_keyword self (Text.lower doc) kw sec Hfound) as [Hf' He'].
  set (self' := with_sections self (pre ++ add_keyword sec kw :: post)).
  assert (Hk' : forallb has_keys (rubric_sections self') = true).
  { unfold self', rubric_sections. simpl.
    rewrite forallb_app in *. simpl in *.
    apply andb_true_iff in Hk as [H1 H2]. apply andb_true_iff in H2 as [H2 H3].
    rewrite H1, H3. unfold has_keys in *. simpl. now rewrite H2. }
  assert (Ht : earned_total self' (Text.lower doc) (rubric_sections self') =
               earned_total self (Text.lower doc) (rubric_sections self)).
  { rewrite Hsecs. unfold self', rubric_sections. simpl.
    rewrite !earned_total_app. simpl.
    change (earned (with_sections self (pre ++ add_keyword sec kw :: post)))
      with (earned self).
    rewrite He'. reflexivity. }
  assert (Hm : possible_total self' (rubric_sections self') =
               possible_total self (rubric_sections self)).
  { rewrite Hsecs. unfold self', rubric_sections. simpl.
    rewrite !possible_total_app. reflexivity. }
  eexists. eexists. split; [apply (run_sections_ok self' doc Hk')|]. simpl.
  split; [unfold self' at 2, rubric_sections; simpl; apply lookup_map_middle|].
  simpl. rewrite Hsecs in *.
  repeat split; auto.
  - unfold section_keywords at 1. simpl. now apply matching_keywords_snoc.
  - now rewrite Ht, Hm.
Qed.

(** C6, amended. A tier without an entry in the scoring table weighs 0:
    its section scores 0 and leaves both totals as they were. On a rubric
    whose sections all have [name], [required] and [severity] the loop
    returns and [validate] raises no [KeyError], whatever the scoring
    table holds and whether or not [sections], [scoring] or a [keywords]
    list is there. *)
Theorem C6_missing_weight_counts_zero (self : ValidatorAgent) (doc : string) :
  forallb has_keys (rubric_sections self) = true ->
  (exists st, run_sections self doc = Ok st /\
              length (results st) = length (rubric_sections self)) /\
  (forall key, validate self doc <> Raise (KeyError key)) /\
  (forall (st : LoopState) (sec : Rubric.Section),
      has_keys sec = true ->
      scoring self !! (section_tier sec +:+ "_weight") = None ->
      section_weight self (section_tier sec) = 0 /\
      exists r,
        check_section self (Text.lower doc) st sec =
        Ok {| results := results st ++ [r];
              total_score := total_score st;
              max_score := max_score st |} /\
        score r = 0).
Proof.
  intros Hk. split; [|split].
  - eexists. split; [apply (run_sections_ok self doc Hk)|].
    simpl. now rewrite length_map.
  - intros key. rewrite (validate_unfold self doc Hk).
    destruct (overall_score _ _) as [s|e] eqn:E; simpl; [discriminate|].
    intros [= ->]. unfold overall_score in E.
    destruct (0 <? _); [|discriminate].
    unfold Binary64.int_true_divide in E.
    destruct (_ =? 0); [discriminate|].
    destruct (SFdiv _ _ _ _); simpl in E; try discriminate;
      match type of E with
      | Binary64.to_int ?x = _ => destruct x; simpl in E; discriminate
      end.
  - intros st sec Hs Hw.
    assert (W : section_weight self (section_tier sec) = 0).
    { unfold section_weight. now rewrite Hw. }
    split; [exact W|].
    exists (section_result self (Text.lower doc) sec).
    rewrite (check_section_ok self (Text.lower doc) st sec Hs).
    assert (E : earned self (Text.lower doc) sec = 0).
    { unfold earned. rewrite W. now destruct (section_found _ _). }
    assert (P : possible self sec = 0).
    { unfold possible. rewrite W. now destruct (section_required _). }
    rewrite E, P, !Z.add_0_r. split; [reflexivity | exact E].
Qed.

(** C6 as stated fails: the rubric names a tier without weight, and its
    second section has no [severity], so [validate] raises [KeyError]. *)
Lemma C6_section_without_severity_raises :
  scoring (init keyless_rubric) !! "low_weight" = None /\
  validate (init keyless_rubric) scenario_doc = Raise (KeyError "severity").
Proof. split; vm_compute; reflexivity. Qed.

(** What is earned stays within what is possible when the weights are
    not negative and every section that is found is also required. *)
Lemma earned_within_possible (self : ValidatorAgent) (pl : string)
    (secs : list Rubric.Section) :
  (forall sec, In sec secs -> 0 <= section_weight self (section_tier sec)) ->
  (forall sec, In sec secs -> section_found pl sec = true ->
               section_required sec = true) ->
  0 <= earned_total self pl secs <= possible_total self secs.
Proof.
  induction secs as [|sec secs IH]; intros Hw Hr; simpl; [lia|].
  assert (Hs : 0 <= earned_total self pl secs <= possible_total self secs).
  { apply IH; intros x Hx; [apply Hw | apply Hr]; now right. }
  pose proof (Hw sec (or_introl eq_refl)) as W.
  pose proof (Hr sec (or_introl eq_refl)) as R.
  fold (earned_total self pl secs). fold (possible_total self secs).
  unfold earned, possible.
  destruct (section_found pl sec).
  - rewrite R by reflexivity. lia.
  - destruct (section_required sec); lia.
Qed.

(** X6. Where the score does stay between 0 and 100: the weights are
    not negative and no optional section is found. [validate] then
    returns, and its score is in range. *)
Theorem validate_score_in_range (self : ValidatorAgent) (doc : string) :
  forallb has_keys (rubric_sections self) = true ->
  (forall sec, In sec (rubric_sections self) ->
               0 <= section_weight self (section_tier sec)) ->
  (forall sec, In sec (rubric_sections self) ->
               section_found (Text.lower doc) sec = true ->
               section_required sec = true) ->
  exists rs s, validate self doc = Ok (rs, s) /\ 0 <= s <= 100.
Proof.
  intros Hk Hw Hr. rewrite (validate_unfold self doc Hk).
  destruct (overall_score_in_range _ _
              (earned_within_possible self (Text.lower doc) _ Hw Hr))
    as [s [-> Hs]].
  simpl. eauto.
Qed.

(** C1 at the failing input: both sections are found, only the first is
    required; the weights are positive, the possible total is 40, the
    earned total is 60 and the overall score is 150. *)
Theorem C1_optional_section_scores_above_100 :
  possible_total (init optional_rubric) (rubric_sections (init optional_rubric)) = 40 /\
  earned_total (init optional_rubric) (Text.lower optional_doc)
               (rubric_sections (init optional_rubric)) = 60 /\
  exists rs, validate (init optional_rubric) optional_doc = Ok (rs, 150) /\
             map found rs = [true; true] /\
             map required rs = [true; false].
Proof.
  split; [vm_compute; reflexivity|]. split; [vm_compute; reflexivity|].
  eexists. split; [vm_compute; reflexivity|]. split; reflexivity.
Qed.

(** C2 at the failing input: 29 earned out of 100 possible. The exact
    quotient truncates to 29; the double nearest to 29/100 times 100
    rounds to a double just below 29, and [validate] returns 28. *)
Theorem C2_rounding_loses_a_point :
  possible_total (init rounding_rubric) (rubric_sections (init rounding_rubric)) = 100 /\
  earned_total (init rounding_rubric) (Text.lower scenario_doc)
               (rubric_sections (init rounding_rubric)) = 29 /\
  truncated_percentage 29 100 = 29 /\
  overall_score 29 100 = Ok 28 /\
  exists rs, validate (init rounding_rubric) scenario_doc = Ok (rs, 28).
Proof.
  split; [vm_compute; reflexivity|]. split; [vm_compute; reflexivity|].
  split; [reflexivity|]. split; [vm_compute; reflexivity|].
  eexists. vm_compute. reflexivity.
Qed.

(** Scenario 1 of the specification: 40 earned out of 60 scores 66, the
    high section is reported missing and the critical one is not. *)
Lemma scenario_1 :
  exists rs,
    validate (init scenario_rubric) scenario_doc = Ok (rs, 66) /\
    truncated_percentage 40 60 = 66 /\
    missing_critical (format_report rs 66) = [] /\
    missing_high (format_report rs 66) = ["Success Metrics"] /\
    status (format_report rs 66) = "NOT READY".
Proof.
  eexists. split; [vm_compute; reflexivity|]. repeat split.
Qed.

(** ** Claims about [format_report] *)

Section ReportFacts.

Variable rs : list ValidationResult.
Variable the_score : Z.

(** A name is in a bucket's list exactly when a result selected by the
    bucket's test bears it. *)
Lemma In_names_filter (test : ValidationResult -> bool) (n : string) :
  In n (map section_name (List.filter test rs)) <->
  exists r, In r rs /\ section_name r = n /\ test r = true.
Proof.
  rewrite in_map_iff. split.
  - intros [r [Hn Hr]]. apply filter_In in Hr as [Hin Ht]. now exists r.
  - intros [r [Hin [Hn Ht]]]. exists r. split; [exact Hn|].
    apply filter_In. now split.
Qed.

Lemma missing_count_counts_unfound :
  missing_count (format_report rs the_score) =
  Z.of_nat (length (List.filter (fun r => negb (found r)) rs)).
Proof.
  simpl. unfold found_bucket.
  induction rs as [|r l IH]; simpl; [reflexivity|].
  destruct (found r); simpl; lia.
Qed.

End ReportFacts.

(** Under unique names, the result bearing a name is determined. *)
Lemma unique_name (rs : list ValidationResult) (r r' : ValidationResult) :
  List.NoDup (map section_name rs) ->
  In r rs -> In r' rs -> section_name r' = section_name r -> r' = r.
Proof.
  induction rs as [|x l IH]; simpl; intros Hnd Hr Hr' Hn; [destruct Hr|].
  apply NoDup_cons_iff in Hnd as [Hx Hnd].
  destruct Hr as [-> | Hr], Hr' as [-> | Hr']; auto.
  - exfalso. apply Hx. rewrite <- Hn. now apply in_map.
  - exfalso. apply Hx. rewrite Hn. now apply in_map.
Qed.

(** C5. The medium bucket lists the results that are not found and of
    severity medium, required or not; the critical and the high bucket
    list only results that are required, not found and of that severity;
    the found list holds exactly the results that are found. *)
Theorem C5_report_buckets (rs : list ValidationResult) (the_score : Z) :
  let report := format_report rs the_score in
  (forall r, In r rs -> found r = false -> severity r = "medium" ->
             In (section_name r) (missing_medium report)) /\
  (forall n, In n (missing_medium report) ->
             exists r, In r rs /\ section_name r = n /\
                       found r = false /\ severity r = "medium") /\
  (forall n, In n (missing_critical report) <->
             exists r, In r rs /\ section_name r = n /\
                       required r = true /\ found r = false /\
                       severity r = "critical") /\
  (forall n, In n (missing_high report) <->
             exists r, In r rs /\ section_name r = n /\
                       required r = true /\ found r = false /\
                       severity r = "high") /\
  (forall n, In n (found_sections report) <->
             exists r, In r rs /\ section_name r = n /\ found r = true) /\
  found_sections report = map section_name (List.filter found rs) /\
  found_count report = Z.of_nat (length (List.filter found rs)).
Proof.
  simpl. unfold medium_bucket, critical_bucket, high_bucket, found_bucket.
  repeat split.
  - intros r Hin Hf Hs. apply In_names_filter. exists r.
    rewrite Hf, Hs. auto.
  - intros n Hn. apply In_names_filter in Hn as [r [Hin [Hr Ht]]].
    exists r. apply andb_true_iff in Ht as [Hf Hs].
    apply negb_true_iff in Hf. apply String.eqb_eq in Hs. auto.
  - intros Hn. apply In_names_filter in Hn as [r [Hin [Hr Ht]]].
    exists r. apply andb_true_iff in Ht as [Ht Hs].
    apply andb_true_iff in Ht as [Hf Hq].
    apply negb_true_iff in Hf. apply String.eqb_eq in Hs. auto.
  - intros [r [Hin [Hr [Hq [Hf Hs]]]]]. apply In_names_filter. exists r.
    rewrite Hf, Hq, Hs. auto.
  - intros Hn. apply In_names_filter in Hn as [r [Hin [Hr Ht]]].
    exists r. apply andb_true_iff in Ht as [Ht Hs].
    apply andb_true_iff in Ht as [Hf Hq].
    apply negb_true_iff in Hf. apply String.eqb_eq in Hs. auto.
  - intros [r [Hin [Hr [Hq [Hf Hs]]]]]. apply In_names_filter. exists r.
    rewrite Hf, Hq, Hs. auto.
  - intros Hn. apply In_names_filter in Hn as [r [Hin [Hr Ht]]]. now exists r.
  - intros [r [Hin [Hr Hf]]]. apply In_names_filter. now exists r.
Qed.

(** C7. The status depends on the score alone: 90 and above is
    READY FOR REVIEW, 70 to 89 is NEEDS IMPROVEMENT, below 70 is NOT READY. *)
Theorem C7_status_thresholds (rs : list ValidationResult) (the_score : Z) :
  (90 <= the_score -> status (format_report rs the_score) = "READY FOR REVIEW") /\
  (70 <= the_score <= 89 -> status (format_report rs the_score) = "NEEDS IMPROVEMENT") /\
  (the_score < 70 -> status (format_report rs the_score) = "NOT READY") /\
  (forall rs', status (format_report rs' the_score) = status (format_report rs the_score)).
Proof.
  simpl. unfold status_of. repeat split.
  - intros H. apply Z.leb_le in H. now rewrite H.
  - intros [H1 H2]. apply Z.leb_le in H1.
    destruct (90 <=? the_score) eqn:E; [apply Z.leb_le in E; lia|].
    now rewrite H1.
  - intros H.
    destruct (90 <=? the_score) eqn:E; [apply Z.leb_le in E; lia|].
    destruct (70 <=? the_score) eqn:E'; [apply Z.leb_le in E'; lia|].
    reflexivity.
Qed.

(** C10. A result that is not found and whose severity is none of
    critical, high and medium is selected by no bucket, required or not;
    when section names are unique its name is in none of the three
    missing lists; it is counted in [missing_count]. *)
Theorem C10_other_tiers_in_no_bucket
    (rs : list ValidationResult) (the_score : Z) (r : ValidationResult) :
  In r rs ->
  found r = false ->
  severity r <> "critical" -> severity r <> "high" -> severity r <> "medium" ->
  let report := format_report rs the_score in
  (~ In r (critical_bucket rs) /\ ~ In r (high_bucket rs) /\
   ~ In r (medium_bucket rs) /\ ~ In r (found_bucket rs)) /\
  (List.NoDup (map section_name rs) ->
   ~ In (section_name r) (missing_critical report) /\
   ~ In (section_name r) (missing_high report) /\
   ~ In (section_name r) (missing_medium report) /\
   ~ In (section_name r) (found_sections report)) /\
  In r (List.filter (fun x => negb (found x)) rs) /\
  missing_count report = Z.of_nat (length (List.filter (fun x => negb (found x)) rs)) /\
  0 < missing_count report.
Proof.
  intros Hin Hf Hc Hh Hm report.
  assert (Tc : (negb (found r) && required r && String.eqb (severity r) "critical") = false).
  { apply String.eqb_neq in Hc. rewrite Hc. apply andb_false_r. }
  assert (Th : (negb (found r) && required r && String.eqb (severity r) "high") = false).
  { apply String.eqb_neq in Hh. rewrite Hh. apply andb_false_r. }
  assert (Tm : (negb (found r) && String.eqb (severity r) "medium") = false).
  { apply String.eqb_neq in Hm. rewrite Hm. apply andb_false_r. }
  assert (Hu : In r (List.filter (fun x => negb (found x)) rs)).
  { apply filter_In. split; [exact Hin | now rewrite Hf]. }
  split; [|split; [|split; [exact Hu|split]]].
  - unfold critical_bucket, high_bucket, medium_bucket, found_bucket.
    repeat split; intros H; apply filter_In in H as [_ H]; congruence.
  - intros Hnd. unfold report. simpl.
    unfold critical_bucket, high_bucket, medium_bucket, found_bucket.
    repeat split; intros H; apply In_names_filter in H as [r' [Hin' [Hn Ht]]];
      rewrite (unique_name rs r r' Hnd Hin Hin' Hn) in Ht; congruence.
  - apply missing_count_counts_unfound.
  - unfold report. rewrite missing_count_counts_unfound.
    destruct (List.filter _ rs); [destruct Hu | simpl; lia].
Qed.

(** ** The theorems at concrete rubrics *)

Lemma C3_witness :
  forallb has_keys (rubric_sections (init appendix_rubric)) = true /\
  possible_total (init appendix_rubric) (rubric_sections (init appendix_rubric)) = 0 /\
  exists rs,
    validate (init appendix_rubric) "See the appendix." = Ok (rs, 0) /\
    length rs = length (rubric_sections (init appendix_rubric)).
Proof.
  assert (H1 : forallb has_keys (rubric_sections (init appendix_rubric)) = true)
    by reflexivity.
  assert (H2 : possible_total (init appendix_rubric)
                 (rubric_sections (init appendix_rubric)) = 0)
    by (vm_compute; reflexivity).
  split; [exact H1|]. split; [exact H2|].
  exact (proj1 (C3_zero_possible_total_scores_zero
                  (init appendix_rubric) "See the appendix." H1 H2)).
Defined.


Lemma C5_witness :
  In timeline_result sample_results /\
  found timeline_result = false /\
  severity timeline_result = "medium" /\
  In (section_name timeline_result)
     (missing_medium (format_report sample_results 66)).
Proof.
  assert (H1 : In timeline_result sample_results) by (left; reflexivity).
  split; [exact H1|]. split; [reflexivity|]. split; [reflexivity|].
  exact (proj1 (C5_report_buckets sample_results 66)
               timeline_result H1 eq_refl eq_refl).
Defined.

Lemma C6_witness :
  forallb has_keys (rubric_sections (init unweighted_rubric)) = true /\
  has_keys risks_section = true /\
  scoring (init unweighted_rubric) !! (section_tier risks_section +:+ "_weight") = None /\
  (exists st, run_sections (init unweighted_rubric) scenario_doc = Ok st /\
              length (results st) = length (rubric_sections (init unweighted_rubric))) /\
  section_weight (init unweighted_rubric) (section_tier risks_section) = 0.
Proof.
  assert (H1 : forallb has_keys (rubric_sections (init unweighted_rubric)) = true)
    by reflexivity.
  assert (H2 : has_keys risks_section = true) by reflexivity.
  assert (H3 : scoring (init unweighted_rubric)
                 !! (section_tier risks_section +:+ "_weight") = None)
    by (vm_compute; reflexivity).
  pose proof (C6_missing_weight_counts_zero (init unweighted_rubric) scenario_doc H1)
    as [Hrun [_ Hw]].
  split; [exact H1|]. split; [exact H2|]. split; [exact H3|].
  split; [exact Hrun|].
  exact (proj1 (Hw initial_state risks_section H2 H3)).
Defined.

Lemma C7_witness :
  90 <= 90 /\ 70 <= 89 <= 89 /\ 69 < 70 /\
  status (format_report sample_results 90) = "READY FOR REVIEW" /\
  status (format_report sample_results 89) = "NEEDS IMPROVEMENT" /\
  status (format_report sample_results 69) = "NOT READY".
Proof.
  assert (H1 : 90 <= 90) by lia.
  assert (H2 : 70 <= 89 <= 89) by lia.
  assert (H3 : 69 < 70) by lia.
  repeat (split; [assumption|]).
  split; [|split].
  - exact (proj1 (C7_status_thresholds sample_results 90) H1).
  - exact (proj1 (proj2 (C7_status_thresholds sample_results 89)) H2).
  - exact (proj1 (proj2 (proj2 (C7_status_thresholds sample_results 69))) H3).
Defined.

Lemma C8_witness :
  forallb has_keys (rubric_sections (init scenario_rubric)) = true /\
  (forall sec kw, In sec (rubric_sections (init scenario_rubric)) ->
                  In kw (section_keywords sec) -> kw <> EmptyString) /\
  exists rs,
    validate (init scenario_rubric) EmptyString = Ok (rs, 0) /\
    length rs = length (rubric_sections (init scenario_rubric)) /\
    Forall (fun r => found r = false /\ score r = 0) rs.
Proof.
  assert (H1 : forallb has_keys (rubric_sections (init scenario_rubric)) = true)
    by reflexivity.
  assert (H2 : forall sec kw, In sec (rubric_sections (init scenario_rubric)) ->
                              In kw (section_keywords sec) -> kw <> EmptyString).
  { intros sec kw [<- | [<- | []]] [<- | []]; discriminate. }
  split; [exact H1|]. split; [exact H2|].
  exact (C8_empty_document_finds_nothing (init scenario_rubric) H1 H2).
Defined.

Lemma C9_witness :
  rubric_sections (init scenario_rubric) = [] ++ problem_section :: [metrics_section] /\
  run_sections (init scenario_rubric) scenario_doc = Ok scenario_state /\
  results scenario_state !! length (@nil Rubric.Section) = Some problem_result /\
  found problem_result = true /\
  Text.contains (Text.lower "covers") (Text.lower scenario_doc) = true /\
  exists st' r',
    run_sections
      (with_sections (init scenario_rubric)
                     ([] ++ add_keyword problem_section "covers" :: [metrics_section]))
      scenario_doc = Ok st' /\
    results st' !! length (@nil Rubric.Section) = Some r' /\
    found r' = true /\
    keywords_found r' = keywords_found problem_result ++ ["covers"] /\
    score r' = score problem_result /\
    total_score st' = total_score scenario_state /\
    max_score st' = max_score scenario_state /\
    overall_score (total_score st') (max_score st') =
    overall_score (total_score scenario_state) (max_score scenario_state).
Proof.
  assert (H1 : rubric_sections (init scenario_rubric) =
               [] ++ problem_section :: [metrics_section]) by reflexivity.
  assert (H2 : run_sections (init scenario_rubric) scenario_doc = Ok scenario_state)
    by (vm_compute; reflexivity).
  assert (H3 : results scenario_state !! length (@nil Rubric.Section) = Some problem_result)
    by reflexivity.
  assert (H4 : found problem_result = true) by reflexivity.
  assert (H5 : Text.contains (Text.lower "covers") (Text.lower scenario_doc) = true)
    by (vm_compute; reflexivity).
  repeat (split; [assumption|]).
  exact (C9_extra_matching_keyword_keeps_score
           (init scenario_rubric) scenario_doc "covers" [] [metrics_section]
           problem_section scenario_state problem_result H1 H2 H3 H4 H5).
Defined.

Lemma C10_witness :
  In appendix_result sample_results /\
  found appendix_result = false /\
  severity appendix_result <> "critical" /\
  severity appendix_result <> "high" /\
  severity appendix_result <> "medium" /\
  List.NoDup (map section_name sample_results) /\
  (~ In appendix_result (critical_bucket sample_results) /\
   ~ In appendix_result (high_bucket sample_results) /\
   ~ In appendix_result (medium_bucket sample_results) /\
   ~ In appendix_result (found_bucket sample_results)) /\
  (~ In (section_name appendix_result) (missing_critical (format_report sample_results 66)) /\
   ~ In (section_name appendix_result) (missing_high (format_report sample_results 66)) /\
   ~ In (section_name appendix_result) (missing_medium (format_report sample_results 66)) /\
   ~ In (section_name appendix_result) (found_sections (format_report sample_results 66))) /\
  0 < missing_count (format_report sample_results 66).
Proof.
  assert (H1 : In appendix_result sample_results) by (right; left; reflexivity).
  assert (H2 : found appendix_result = false) by reflexivity.
  assert (H3 : severity appendix_result <> "critical") by discriminate.
  assert (H4 : severity appendix_result <> "high") by discriminate.
  assert (H5 : severity appendix_result <> "medium") by discriminate.
  assert (H6 : List.NoDup (map section_name sample_results)).
  { repeat constructor; simpl; intuition discriminate. }
  pose proof (C10_other_tiers_in_no_bucket sample_results 66 appendix_result
                H1 H2 H3 H4 H5) as [Hb [Hn [_ [_ Hc]]]].
  repeat (split; [assumption|]).
  split; [exact (Hn H6) | exact Hc].
Defined.

(** * Further properties of the scorer *)

(** What a returned [validate] says about the loop. *)
Lemma validate_ok_inv (self : ValidatorAgent) (doc : string)
    (rs : list ValidationResult) (s : Z) :
  validate self doc = Ok (rs, s) ->
  forallb has_keys (rubric_sections self) = true /\
  rs = map (section_result self (Text.lower doc)) (rubric_sections self) /\
  overall_score (earned_total self (Text.lower doc) (rubric_sections self))
                (possible_total self (rubric_sections self)) = Ok s.
Proof.
  intros H.
  destruct (forallb has_keys (rubric_sections self)) eqn:Hk.
  - rewrite (validate_unfold self doc Hk) in H.
    destruct (overall_score _ _) as [s'|e]; simpl in H; [|discriminate].
    injection H as <- <-. auto.
  - destruct (validate_key_error self doc Hk) as [k Hr]. congruence.
Qed.

Lemma has_keys_fields (sec : Rubric.Section) :
  has_keys sec = true ->
  Rubric.name sec = Some (default EmptyString (Rubric.name sec)) /\
  Rubric.required sec = Some (section_required sec) /\
  Rubric.severity sec = Some (section_tier sec).
Proof.
  unfold has_keys, section_required, section_tier.
  destruct (Rubric.name sec), (Rubric.required sec), (Rubric.severity sec);
    simpl; intros H; try discriminate; auto.
Qed.

(** X1. [validate] returns one result per section of the template, in
    the template's order, each with the section's own name, required
    flag and severity. *)
Theorem validate_results_follow_template (self : ValidatorAgent) (doc : string)
    (rs : list ValidationResult) (s : Z) :
  validate self doc = Ok (rs, s) ->
  length rs = length (rubric_sections self) /\
  map (fun r => Some (section_name r)) rs = map Rubric.name (rubric_sections self) /\
  map (fun r => Some (required r)) rs = map Rubric.required (rubric_sections self) /\
  map (fun r => Some (severity r)) rs = map Rubric.severity (rubric_sections self).
Proof.
  intros H. destruct (validate_ok_inv self doc rs s H) as [Hk [-> _]].
  rewrite length_map. split; [reflexivity|]. clear H.
  induction (rubric_sections self) as [|sec secs IH]; simpl; [auto|].
  simpl in Hk. apply andb_true_iff in Hk as [Hs Hk].
  destruct (IH Hk) as [I1 [I2 I3]].
  destruct (has_keys_fields sec Hs) as [E1 [E2 E3]].
  rewrite I1, I2, I3. repeat split; f_equal; auto.
Qed.

(** X2. In every result [validate] returns, [keywords_found] lists, in
    the section's order, exactly the keywords whose lowercase form is in
    the lowercased document; [found] says that this list is not empty;
    [score] is the weight of the result's severity when found, else 0. *)
Theorem validate_result_fields (self : ValidatorAgent) (doc : string)
    (rs : list ValidationResult) (s : Z) :
  validate self doc = Ok (rs, s) ->
  Forall2
    (fun sec r =>
       keywords_found r =
         List.filter (fun kw => Text.contains (Text.lower kw) (Text.lower doc))
                     (section_keywords sec) /\
       sublist (keywords_found r) (section_keywords sec) /\
       (found r = true <-> keywords_found r <> []) /\
       score r = (if found r then section_weight self (severity r) else 0))
    (rubric_sections self) rs.
Proof.
  intros H. destruct (validate_ok_inv self doc rs s H) as [_ [-> _]].
  apply Forall2_map_same. intros sec _. simpl. split; [reflexivity|]. split.
  - unfold matching_keywords.
    induction (section_keywords sec) as [|kw kws IH]; simpl; [constructor|].
    destruct (Text.contains _ _); [now apply sublist_skip | now apply sublist_cons].
  - split; [|reflexivity]. unfold section_found.
    destruct (matching_keywords _ _); simpl; split; intros; try easy.
Qed.

(** ** Which exception, and when *)

Lemma for_each_app {S A : Type} (body : S -> A -> Result S) (a b : list A) (st : S) :
  for_each body (a ++ b) st = (st' <- for_each body a st ;; for_each body b st').
Proof.
  revert st. induction a as [|x a IH]; intros st; simpl; [reflexivity|].
  destruct (body st x); simpl; [apply IH | reflexivity].
Qed.

Lemma first_missing_key_has_keys (sec : Rubric.Section) :
  first_missing_key sec = None <-> has_keys sec = true.
Proof.
  unfold first_missing_key, has_keys.
  destruct (Rubric.name sec), (Rubric.required sec), (Rubric.severity sec);
    split; intros; try discriminate; reflexivity.
Qed.

Lemma check_section_raises (self : ValidatorAgent) (pl : string) (st : LoopState)
    (sec : Rubric.Section) (k : string) :
  first_missing_key sec = Some k ->
  check_section self pl st sec = Raise (KeyError k).
Proof.
  unfold first_missing_key, check_section.
  destruct (Rubric.name sec); [|now intros [= <-]].
  destruct (Rubric.required sec); [|now intros [= <-]].
  destruct (Rubric.severity sec); [discriminate | now intros [= <-]].
Qed.

Lemma first_keyless (secs : list Rubric.Section) :
  forallb has_keys secs = false ->
  exists pre sec post k,
    secs = pre ++ sec :: post /\ forallb has_keys pre = true /\
    first_missing_key sec = Some k.
Proof.
  induction secs as [|x l IH]; simpl; [discriminate|].
  destruct (has_keys x) eqn:Hx; simpl.
  - intros H. destruct (IH H) as [pre [sec [post [k [-> [Hp Hk]]]]]].
    exists (x :: pre), sec, post, k. simpl. rewrite Hx. auto.
  - intros _. destruct (first_missing_key x) as [k|] eqn:Hk.
    + exists [], x, l, k. auto.
    + apply first_missing_key_has_keys in Hk. congruence.
Qed.

Lemma validate_raises_first_missing (self : ValidatorAgent) (doc : string)
    (pre post : list Rubric.Section) (sec : Rubric.Section) (k : string) :
  rubric_sections self = pre ++ sec :: post ->
  forallb has_keys pre = true ->
  first_missing_key sec = Some k ->
  validate self doc = Raise (KeyError k).
Proof.
  intros Hs Hp Hk. unfold validate, run_sections.
  fold (rubric_sections self). rewrite Hs, for_each_app.
  rewrite (for_each_check_section self (Text.lower doc) pre initial_state Hp).
  simpl. now rewrite (check_section_raises self _ _ sec k Hk).
Qed.

(** ** No NaN, and the sign of the score *)

Lemma shr_fexp_nonneg (m e : Z) (l : location) :
  0 <= m -> 0 <= shr_m (fst (shr_fexp 53 1024 m e l)).
Proof.
  intros Hm. unfold shr_fexp.
  assert (E : shr_m (shr_record_of_loc m l) = m) by (destruct l as [|[]]; reflexivity).
  destruct (fexp 53 1024 (Zdigits2 m + e) - e) as [|p|p];
    try (simpl; rewrite E; exact Hm).
  destruct (shr_spec m e p l Hm) as [out [-> [Sm _]]]. simpl. rewrite Sm.
  apply Z.div_pos; [exact Hm | apply Z.pow_pos_nonneg; lia].
Qed.

(** Rounding a non-negative significand gives a zero, a finite double or
    an infinity of the sign it was given, never a NaN. *)
Lemma binary_round_aux_sign (sx : bool) (mx ex : Z) (lx : location) :
  0 <= mx ->
  match binary_round_aux 53 1024 sx mx ex lx with
  | S754_zero s | S754_infinity s | S754_finite s _ _ => s = sx
  | S754_nan => False
  end.
Proof.
  intros Hm. unfold binary_round_aux.
  pose proof (shr_fexp_nonneg mx ex lx Hm) as H1.
  destruct (shr_fexp 53 1024 mx ex lx) as [o1 e1]. simpl in H1.
  destruct (round_nearest_even_bounds (shr_m o1) (loc_of_shr_record o1)) as [[Rl _] _].
  pose proof (shr_fexp_nonneg _ e1 loc_Exact (Z.le_trans _ _ _ H1 Rl)) as H2.
  destruct (shr_fexp 53 1024 _ e1 loc_Exact) as [o2 e2]. simpl in H2.
  destruct (shr_m o2) as [|m|m]; [reflexivity | | lia].
  destruct (e2 <=? 1024 - 53); reflexivity.
Qed.

(** The quotient of two integers, the divisor positive: its sign is the
    dividend's, and it is no NaN. *)
Lemma int_divide_sign (a b : Z) :
  0 < b ->
  match SFdiv 53 1024 (Binary64.exact a) (Binary64.exact b) with
  | S754_zero s | S754_infinity s | S754_finite s _ _ => s = (a <? 0)
  | S754_nan => False
  end.
Proof.
  intros Hb. destruct b as [|pb|pb]; try lia.
  destruct a as [|pa|pa]; [reflexivity | |];
    (unfold Binary64.exact, SFdiv, SFdiv_core_binary;
     set (e' := Z.min _ _); set (s := 0 - 0 - e');
     set (m' := match s with Z0 => Zpos pa | Zpos _ => Z.shiftl (Zpos pa) s | Zneg _ => 0 end);
     assert (Hm' : 0 <= m')
       by (unfold m'; destruct s; [lia | apply Z.shiftl_nonneg; lia | lia]);
     pose proof (Z_div_mod m' (Zpos pb) eq_refl) as Hdiv;
     destruct (Z.div_eucl m' (Zpos pb)) as [q r]; destruct Hdiv as [Hq Hr];
     assert (Hq0 : 0 <= q) by nia;
     exact (binary_round_aux_sign _ q e' _ Hq0)).
Qed.

(** The percentage either overflows or is an integer of the sign of
    what was earned. *)
Lemma overall_score_cases (total max : Z) :
  overall_score total max = Raise OverflowError \/
  exists s, overall_score total max = Ok s /\
            (0 <= total -> 0 <= s) /\ (total < 0 -> s <= 0).
Proof.
  unfold overall_score.
  destruct (0 <? max) eqn:Emax; [|right; exists 0; split; [reflexivity|lia]].
  apply Z.ltb_lt in Emax.
  unfold Binary64.int_true_divide, Binary64.prec, Binary64.emax.
  destruct (max =? 0) eqn:E0; [apply Z.eqb_eq in E0; lia|].
  pose proof (int_divide_sign total max Emax) as Hd.
  destruct (SFdiv 53 1024 _ _) as [sq|sq| |sq mq eq]; cbn [bind];
    [ | now left | destruct Hd | ].
  - right. exists 0. unfold Binary64.mul_int. rewrite hundred_as_double.
    simpl. split; [reflexivity | lia].
  - unfold Binary64.mul_int, Binary64.prec, Binary64.emax.
    rewrite hundred_as_double. unfold SFmul.
    pose proof (binary_round_aux_sign (xorb sq false)
                  (Zpos (mq * 7036874417766400)) (eq + -46) loc_Exact
                  ltac:(lia)) as Hp.
    destruct (binary_round_aux 53 1024 _ _ _ _) as [sp|sp| |sp mp ep];
      [ | now left | destruct Hp | ].
    + right. exists 0. simpl. split; [reflexivity | lia].
    + right. eexists. split; [reflexivity|].
      assert (Hsh : 0 <= Z.shiftl (Zpos mp) ep) by (apply Z.shiftl_nonneg; lia).
      subst sp sq. rewrite xorb_false_r.
      destruct (total <? 0) eqn:Et; simpl cond_Zopp.
      * apply Z.ltb_lt in Et. lia.
      * apply Z.ltb_ge in Et. lia.
Qed.


(** With typed entries [validate] raises nothing but [KeyError], for one
    of the three keys, and [OverflowError]: it never divides by zero and
    never converts a NaN. *)
Lemma validate_raises_only_typed (self : ValidatorAgent) (doc : string) (e : PyError) :
  validate self doc = Raise e ->
  e = KeyError "name" \/ e = KeyError "required" \/ e = KeyError "severity" \/
  e = OverflowError.
Proof.
  intros H. destruct (forallb has_keys (rubric_sections self)) eqn:Hk.
  - rewrite (validate_unfold self doc Hk) in H.
    destruct (overall_score_cases
                (earned_total self (Text.lower doc) (rubric_sections self))
                (possible_total self (rubric_sections self)))
      as [E | [s [E _]]]; rewrite E in H; simpl in H; [|discriminate].
    injection H as <-. auto.
  - destruct (first_keyless _ Hk) as [pre [sec [post [k [Hs [Hp Hm]]]]]].
    rewrite (validate_raises_first_missing self doc pre post sec k Hs Hp Hm) in H.
    injection H as <-. unfold first_missing_key in Hm.
    destruct (Rubric.name sec); [|injection Hm as <-; auto].
    destruct (Rubric.required sec); [|injection Hm as <-; auto].
    destruct (Rubric.severity sec); [discriminate | injection Hm as <-; auto].
Qed.

Lemma earned_total_nonneg (self : ValidatorAgent) (pl : string)
    (secs : list Rubric.Section) :
  (forall sec, In sec secs -> 0 <= section_weight self (section_tier sec)) ->
  0 <= earned_total self pl secs.
Proof.
  induction secs as [|sec secs IH]; intros Hw; simpl; [lia|].
  assert (0 <= earned_total self pl secs) by (apply IH; intros x Hx; apply Hw; now right).
  pose proof (Hw sec (or_introl eq_refl)).
  fold (earned_total self pl secs). unfold earned.
  destruct (section_found pl sec); lia.
Qed.

(** X5. When no tier used by the rubric has a negative weight, the score
    [validate] returns is never negative. *)
Theorem validate_score_nonneg (self : ValidatorAgent) (doc : string)
    (rs : list ValidationResult) (s : Z) :
  (forall sec, In sec (rubric_sections self) ->
               0 <= section_weight self (section_tier sec)) ->
  validate self doc = Ok (rs, s) ->
  0 <= s.
Proof.
  intros Hw H. destruct (validate_ok_inv self doc rs s H) as [_ [_ Hs]].
  destruct (overall_score_cases
              (earned_total self (Text.lower doc) (rubric_sections self))
              (possible_total self (rubric_sections self)))
    as [E | [s' [E [Hpos _]]]]; rewrite E in Hs; [discriminate|].
  injection Hs as <-. apply Hpos. now apply earned_total_nonneg.
Qed.

(** ** Full marks *)

(** A positive total over itself is 1.0, and the score is exactly 100. *)
Lemma overall_score_full (a : Z) : 0 < a -> overall_score a a = Ok 100.
Proof.
  intros Ha. unfold overall_score, Binary64.int_true_divide.
  destruct (0 <? a) eqn:E; [|apply Z.ltb_ge in E; lia].
  destruct (a =? 0) eqn:E0; [apply Z.eqb_eq in E0; lia|].
  destruct a as [|p|p]; try lia.
  unfold Binary64.exact, SFdiv, SFdiv_core_binary, Binary64.prec, Binary64.emax.
  replace (Zdigits2 (Zpos p) + 0 - (Zdigits2 (Zpos p) + 0)) with 0 by lia.
  change (Z.min (fexp 53 1024 0) (0 - 0)) with (-53).
  change (0 - 0 - -53) with 53.
  rewrite Z.shiftl_mul_pow2 by lia.
  rewrite (surjective_pairing (Z.div_eucl (Zpos p * 2 ^ 53) (Zpos p))).
  change (fst (Z.div_eucl (Zpos p * 2 ^ 53) (Zpos p))) with (Zpos p * 2 ^ 53 / Zpos p).
  change (snd (Z.div_eucl (Zpos p * 2 ^ 53) (Zpos p))) with ((Zpos p * 2 ^ 53) mod Zpos p).
  rewrite (Z.mul_comm (Zpos p)), Z.div_mul, Z.mod_mul by lia.
  assert (L : new_location (Zpos p) 0 = loc_Exact).
  { unfold new_location. destruct (Z.even (Zpos p)); reflexivity. }
  rewrite L. vm_compute. reflexivity.
Qed.

(** X7. When every section is found exactly if it is required and the
    possible total is positive, the score is exactly 100: in particular
    when the document matches every section of a rubric whose sections
    are all required. *)
Theorem validate_full_marks (self : ValidatorAgent) (doc : string) :
  forallb has_keys (rubric_sections self) = true ->
  (forall sec, In sec (rubric_sections self) ->
               section_found (Text.lower doc) sec = section_required sec) ->
  0 < possible_total self (rubric_sections self) ->
  exists rs, validate self doc = Ok (rs, 100).
Proof.
  intros Hk Hf Hp. rewrite (validate_unfold self doc Hk).
  assert (E : earned_total self (Text.lower doc) (rubric_sections self) =
              possible_total self (rubric_sections self)).
  { clear Hp Hk. induction (rubric_sections self) as [|sec secs IH]; simpl; [reflexivity|].
    fold (earned_total self (Text.lower doc) secs). fold (possible_total self secs).
    rewrite IH by (intros x Hx; apply Hf; now right).
    unfold earned, possible. now rewrite (Hf sec (or_introl eq_refl)). }
  rewrite E, (overall_score_full _ Hp). simpl. eauto.
Qed.

(** ** More text in the document, other letter case *)

Lemma append_assoc (a b c : string) : (a +:+ b) +:+ c = a +:+ b +:+ c.
Proof.
  induction a as [|x a IH]; [reflexivity|].
  rewrite !append_cons. now rewrite IH.
Qed.

Lemma append_nil_r (a : string) : a +:+ EmptyString = a.
Proof.
  induction a as [|x a IH]; [reflexivity|]. rewrite append_cons. now rewrite IH.
Qed.

(** What is in a text is in every text around it. *)
Lemma contains_extend (needle hay pre post : string) :
  Text.contains needle hay = true ->
  Text.contains needle (pre +:+ hay +:+ post) = true.
Proof.
  rewrite !contains_spec. intros [a [b ->]].
  exists (pre +:+ a), (b +:+ post). now rewrite !append_assoc.
Qed.

Lemma Forall2_map_both {A B : Type} (P : B -> B -> Prop) (f g : A -> B) (l : list A) :
  (forall x, In x l -> P (f x) (g x)) -> Forall2 P (map f l) (map g l).
Proof.
  induction l as [|x l IH]; intros H; simpl; constructor.
  - apply H. now left.
  - apply IH. intros y Hy. apply H. now right.
Qed.

(** Containment is transitive. *)
Lemma contains_trans (a b c : string) :
  Text.contains a b = true -> Text.contains b c = true -> Text.contains a c = true.
Proof.
  intros Hab Hbc. apply contains_spec in Hbc as [pre [post ->]].
  now apply contains_extend.
Qed.

Lemma section_found_extend (pl pl' : string) (sec : Rubric.Section) :
  Text.contains pl pl' = true ->
  section_found pl sec = true -> section_found pl' sec = true.
Proof.
  intros Hsub. rewrite !section_found_iff. intros [kw [Hin Hc]].
  exists kw. split; [exact Hin|]. now apply (contains_trans _ pl).
Qed.

(** X9. A longer document keeps the matches: when the lowercase form of
    a document is contained in the lowercase form of another, the loop
    returns on the other as well, every section that was found stays
    found with at least the keywords it had, the possible total is the
    same, and with non-negative weights the earned total does not
    decrease. *)
Theorem more_text_keeps_matches (self : ValidatorAgent) (doc doc' : string)
    (st : LoopState) :
  Text.contains (Text.lower doc) (Text.lower doc') = true ->
  run_sections self doc = Ok st ->
  exists st',
    run_sections self doc' = Ok st' /\
    max_score st' = max_score st /\
    Forall2
      (fun r r' =>
         section_name r' = section_name r /\
         (found r = true -> found r' = true) /\
         (forall kw, In kw (keywords_found r) -> In kw (keywords_found r')))
      (results st) (results st') /\
    ((forall sec, In sec (rubric_sections self) ->
                  0 <= section_weight self (section_tier sec)) ->
     total_score st <= total_score st').
Proof.
  intros Hsub H. pose proof (run_sections_has_keys self doc st H) as Hk.
  rewrite (run_sections_ok self doc Hk) in H. injection H as <-.
  eexists. split; [apply (run_sections_ok self _ Hk)|]. simpl.
  split; [reflexivity|]. split.
  - apply Forall2_map_both. intros sec _. simpl. split; [reflexivity|].
    split; [now apply section_found_extend|].
    intros kw Hin. apply matching_keywords_In in Hin as [Hin Hc].
    apply matching_keywords_In. split; [exact Hin|].
    now apply (contains_trans _ (Text.lower doc)).
  - intros Hw. induction (rubric_sections self) as [|sec secs IH]; simpl; [lia|].
    simpl in Hk. apply andb_true_iff in Hk as [_ Hk].
    assert (I : earned_total self (Text.lower doc) secs <=
                earned_total self (Text.lower doc') secs).
    { apply IH; [exact Hk|]. intros x Hx. apply Hw. now right. }
    fold (earned_total self (Text.lower doc) secs).
    fold (earned_total self (Text.lower doc') secs).
    pose proof (Hw sec (or_introl eq_refl)) as W.
    pose proof (section_found_extend _ _ sec Hsub) as M.
    unfold earned.
    destruct (section_found (Text.lower doc) sec).
    + rewrite M by reflexivity. lia.
    + destruct (section_found _ sec); lia.
Qed.







(** ** No overflow below an astronomic total *)

Lemma digits_gt (p : positive) : Zpos p < 2 ^ Zpos (digits2_pos p).
Proof.
  rewrite digits2_pos_size. pose proof (Pos.size_gt p) as H.
  rewrite <- Pos2Z.inj_pow. exact H.
Qed.

Section PowerCeiling.

Variable K : Z.
Hypothesis K_nonneg : 0 <= K.
Hypothesis K_fits : K <= 1024.

(** A significand below [2^(K - e)], shifted to its rounding exponent,
    stays below that power of two at the new exponent. *)
Lemma shr_fexp_below (m e : Z) (l : location) :
  0 <= m -> e <= 971 -> m < 2 ^ (K - e) ->
  exists out e',
    shr_fexp 53 1024 m e l = (out, e') /\
    e' <= 971 /\ 0 <= shr_m out /\ shr_m out < 2 ^ (K - e').
Proof.
  intros Hm He Hlt. unfold shr_fexp.
  assert (HKe : 0 <= K - e).
  { destruct (Z_lt_le_dec (K - e) 0); [|lia].
    rewrite Z.pow_neg_r in Hlt by lia. lia. }
  assert (Hf : fexp 53 1024 (Zdigits2 m + e) <= Z.min 971 K).
  { rewrite fexp_double. destruct m as [|q|q]; simpl Zdigits2; try lia.
    pose proof (digits_le q (K - e) Hlt). lia. }
  set (n := fexp 53 1024 (Zdigits2 m + e) - e).
  assert (E : shr_m (shr_record_of_loc m l) = m) by (destruct l as [|[]]; reflexivity).
  destruct n as [|p|p] eqn:En;
    try (eexists; eexists; split; [reflexivity|]; rewrite E; auto).
  destruct (shr_spec m e p l Hm) as [out [Hs [Sm _]]].
  exists out, (e + Zpos p). split; [exact Hs|].
  assert (P2 : 0 < 2 ^ Zpos p) by (apply Z.pow_pos_nonneg; lia).
  split; [lia|]. rewrite Sm. split; [apply Z.div_pos; lia|].
  apply Z.div_lt_upper_bound; [lia|].
  rewrite <- Z.pow_add_r by lia.
  replace (Zpos p + (K - (e + Zpos p))) with (K - e) by lia. exact Hlt.
Qed.

End PowerCeiling.

(** Rounding a value below [2^K], [K] at most 1023, does not overflow,
    and gives a value below [2^(K+1)]. *)
Lemma binary_round_aux_finite (K : Z) (sx : bool) (mx ex : Z) (lx : location) :
  0 <= K <= 1023 -> 0 <= mx -> ex <= 971 -> mx < 2 ^ (K - ex) ->
  binary_round_aux 53 1024 sx mx ex lx = S754_zero sx \/
  exists m e,
    binary_round_aux 53 1024 sx mx ex lx = S754_finite sx m e /\
    e <= 971 /\ Zpos m < 2 ^ (K + 1 - e).
Proof.
  intros HK Hm He Hlt. unfold binary_round_aux.
  destruct (shr_fexp_below K ltac:(lia) ltac:(lia) mx ex lx Hm He Hlt)
    as [o1 [e1 [-> [He1 [Hlo Hhi]]]]].
  destruct (round_nearest_even_bounds (shr_m o1) (loc_of_shr_record o1)) as [[Rl Rh] _].
  assert (HKe : 0 <= K - e1).
  { destruct (Z_lt_le_dec (K - e1) 0); [|lia].
    rewrite Z.pow_neg_r in Hhi by lia. lia. }
  assert (Hr : round_nearest_even (shr_m o1) (loc_of_shr_record o1) < 2 ^ (K + 1 - e1)).
  { replace (K + 1 - e1) with (K - e1 + 1) by lia.
    rewrite Z.pow_add_r by lia. lia. }
  destruct (shr_fexp_below (K + 1) ltac:(lia) ltac:(lia) _ e1 loc_Exact
              (Z.le_trans _ _ _ Hlo Rl) He1 Hr)
    as [o2 [e2 [-> [He2 [Hlo2 Hhi2]]]]].
  destruct (shr_m o2) as [|m|m] eqn:Em; [now left | right | lia].
  exists m, e2.
  destruct (e2 <=? 1024 - 53) eqn:Eb; [|apply Z.leb_gt in Eb; lia].
  auto.
Qed.

(** The quotient of a non-zero integer below [2^1000] in size by a
    positive integer does not overflow. *)
Lemma int_true_divide_finite (a b : Z) :
  a <> 0 -> Z.abs a < 2 ^ 1000 -> 0 < b ->
  exists m e,
    SFdiv 53 1024 (Binary64.exact a) (Binary64.exact b) = S754_zero (a <? 0) \/
    (SFdiv 53 1024 (Binary64.exact a) (Binary64.exact b) = S754_finite (a <? 0) m e /\
     e <= 971 /\ Zpos m < 2 ^ (1001 - e)).
Proof.
  intros Ha Hsize Hb. destruct b as [|pb|pb]; try lia.
  assert (G : forall pa sa, Zpos pa < 2 ^ 1000 ->
            exists m e,
              SFdiv 53 1024 (S754_finite sa pa 0) (S754_finite false pb 0) = S754_zero sa \/
              (SFdiv 53 1024 (S754_finite sa pa 0) (S754_finite false pb 0) =
                 S754_finite sa m e /\ e <= 971 /\ Zpos m < 2 ^ (1001 - e))).
  { intros pa sa Hpa. unfold SFdiv, SFdiv_core_binary.
    set (e' := Z.min _ _).
    assert (He' : e' <= 0) by (unfold e'; lia).
    set (s := 0 - 0 - e').
    set (m' := match s with Z0 => Zpos pa | Zpos _ => Z.shiftl (Zpos pa) s | Zneg _ => 0 end).
    assert (Hm' : m' = Zpos pa * 2 ^ (- e')).
    { unfold m'. destruct s as [|ps|ps] eqn:Es; try lia.
      - replace (- e') with 0 by lia. simpl. lia.
      - rewrite Z.shiftl_mul_pow2 by lia. f_equal. f_equal. lia. }
    assert (P : 0 < 2 ^ (- e')) by (apply Z.pow_pos_nonneg; lia).
    pose proof (Z_div_mod m' (Zpos pb) eq_refl) as Hdiv.
    destruct (Z.div_eucl m' (Zpos pb)) as [q r]. destruct Hdiv as [Hq Hr].
    assert (Hq0 : 0 <= q) by nia.
    assert (Hq1 : q < 2 ^ (1000 - e')).
    { replace (1000 - e') with (1000 + - e') by lia.
      rewrite Z.pow_add_r by lia. nia. }
    rewrite xorb_false_r.
    destruct (binary_round_aux_finite 1000 sa q e' (new_location (Zpos pb) r)
                ltac:(lia) Hq0 ltac:(lia) Hq1) as [E | [m [e [E [He Hm]]]]].
    - exists 1%positive, 0. now left.
    - exists m, e. right. auto. }
  destruct a as [|pa|pa]; [congruence | |].
  - exact (G pa false ltac:(lia)).
  - exact (G pa true ltac:(lia)).
Qed.

(** The percentage is computed without error when what is earned is
    below [2^1000] in size. *)
Lemma overall_score_returns (total max : Z) :
  Z.abs total < 2 ^ 1000 ->
  exists s, overall_score total max = Ok s.
Proof.
  intros Hsize. unfold overall_score.
  destruct (0 <? max) eqn:Emax; [|now exists 0].
  apply Z.ltb_lt in Emax.
  destruct (Z.eq_dec total 0) as [->|Hne].
  { exists 0. pose proof (overall_score_nothing_earned max Emax) as H.
    unfold overall_score in H. apply Z.ltb_lt in Emax. now rewrite Emax in H. }
  unfold Binary64.int_true_divide, Binary64.prec, Binary64.emax.
  destruct (max =? 0) eqn:E0; [apply Z.eqb_eq in E0; lia|].
  destruct (int_true_divide_finite total max Hne Hsize Emax)
    as [m [e [-> | [-> [He Hm]]]]]; cbn [bind].
  - exists 0. unfold Binary64.mul_int. rewrite hundred_as_double. reflexivity.
  - unfold Binary64.mul_int, Binary64.prec, Binary64.emax.
    rewrite hundred_as_double. unfold SFmul.
    assert (Hb : Zpos (m * 7036874417766400) < 2 ^ (1008 - (e + -46))).
    { rewrite Pos2Z.inj_mul.
      assert (0 <= 1001 - e).
      { destruct (Z_lt_le_dec (1001 - e) 0); [|lia].
        rewrite Z.pow_neg_r in Hm by lia. lia. }
      replace (1008 - (e + -46)) with (1001 - e + 53) by lia.
      rewrite Z.pow_add_r by lia.
      assert (Zpos 7036874417766400 < 2 ^ 53) by reflexivity.
      nia. }
    destruct (binary_round_aux_finite 1008 (xorb (total <? 0) false)
                (Zpos (m * 7036874417766400)) (e + -46) loc_Exact
                ltac:(lia) ltac:(lia) ltac:(lia) Hb) as [-> | [m' [e' [-> _]]]].
    + now exists 0.
    + eexists. reflexivity.
Qed.

(** With typed entries and every key in place, the loop and the score
    both return when the earned total is below [2^1000] in size. *)
Lemma validate_returns_typed (self : ValidatorAgent) (doc : string) :
  forallb has_keys (rubric_sections self) = true ->
  Z.abs (earned_total self (Text.lower doc) (rubric_sections self)) < 2 ^ 1000 ->
  exists rs s, validate self doc = Ok (rs, s).
Proof.
  intros Hk Hsize. rewrite (validate_unfold self doc Hk).
  destruct (overall_score_returns _ (possible_total self (rubric_sections self)) Hsize)
    as [s ->].
  simpl. eauto.
Qed.

(** * Further properties of the report *)

(** X11. The counts of the report add up: found and missing make the
    total, the found count is the length of the found list, and the
    three missing lists together never hold more names than there are
    missing sections (missing sections of another tier, and optional
    ones of the critical and high tiers, are in none of them). *)
Theorem report_counts (rs : list ValidationResult) (the_score : Z) :
  let report := format_report rs the_score in
  found_count report + missing_count report = total_sections report /\
  0 <= found_count report /\ 0 <= missing_count report /\
  found_count report = Z.of_nat (length (found_sections report)) /\
  Z.of_nat (length (missing_critical report)) +
  Z.of_nat (length (missing_high report)) +
  Z.of_nat (length (missing_medium report)) <= missing_count report.
Proof.
  simpl. unfold critical_bucket, high_bucket, medium_bucket, found_bucket.
  rewrite !length_map.
  induction rs as [|r l IH]; simpl; [lia|].
  destruct (found r); simpl; [lia|].
  destruct (String.eqb (severity r) "critical") eqn:Ec.
  - apply String.eqb_eq in Ec. rewrite Ec. simpl.
    destruct (required r); simpl; lia.
  - destruct (String.eqb (severity r) "high") eqn:Eh.
    + apply String.eqb_eq in Eh. rewrite Eh. simpl.
      destruct (required r); simpl; lia.
    + rewrite !andb_false_r. destruct (String.eqb (severity r) "medium"); simpl; lia.
Qed.

Lemma names_filter_sublist (test : ValidationResult -> bool) (rs : list ValidationResult) :
  sublist (map section_name (List.filter test rs)) (map section_name rs).
Proof.
  induction rs as [|r l IH]; simpl; [constructor|].
  destruct (test r); simpl; [now apply sublist_skip | now apply sublist_cons].
Qed.

(** X12. Each list of names in the report keeps the order of the
    results: it is the list of all section names with some names left out. *)
Theorem report_lists_keep_order (rs : list ValidationResult) (the_score : Z) :
  let report := format_report rs the_score in
  sublist (missing_critical report) (map section_name rs) /\
  sublist (missing_high report) (map section_name rs) /\
  sublist (missing_medium report) (map section_name rs) /\
  sublist (found_sections report) (map section_name rs).
Proof. simpl. repeat split; apply names_filter_sublist. Qed.

(** The sections behind the names of a required tier's missing list. *)
Lemma missing_tier_end_to_end (self : ValidatorAgent) (doc tier n : string) :
  forallb has_keys (rubric_sections self) = true ->
  In n (map section_name
          (List.filter (is_missing_tier tier)
             (map (section_result self (Text.lower doc)) (rubric_sections self)))) <->
  exists sec,
    In sec (rubric_sections self) /\
    Rubric.name sec = Some n /\
    Rubric.required sec = Some true /\
    Rubric.severity sec = Some tier /\
    forall kw, In kw (section_keywords sec) ->
               Text.contains (Text.lower kw) (Text.lower doc) = false.
Proof.
  intros Hk. rewrite In_names_filter.
  assert (Hkeys : forall sec, In sec (rubric_sections self) -> has_keys sec = true).
  { intros sec Hin. rewrite forallb_forall in Hk. now apply Hk. }
  assert (Hnf : forall sec,
             section_found (Text.lower doc) sec = false <->
             forall kw, In kw (section_keywords sec) ->
                        Text.contains (Text.lower kw) (Text.lower doc) = false).
  { intros sec. split.
    - intros Hf kw Hin.
      destruct (Text.contains (Text.lower kw) (Text.lower doc)) eqn:Hc; [|reflexivity].
      assert (section_found (Text.lower doc) sec = true); [|congruence].
      apply section_found_iff. exists kw. now split.
    - intros Hno. destruct (section_found (Text.lower doc) sec) eqn:E; [|reflexivity].
      apply section_found_iff in E as [kw [Hin Hc]].
      rewrite (Hno kw Hin) in Hc. discriminate. }
  split.
  - intros [r [Hin [Hn Ht]]]. apply in_map_iff in Hin as [sec [<- Hsec]].
    exists sec. destruct (has_keys_fields sec (Hkeys sec Hsec)) as [E1 [E2 E3]].
    unfold is_missing_tier in Ht. simpl in Ht, Hn.
    apply andb_true_iff in Ht as [Ht Hs]. apply andb_true_iff in Ht as [Hf Hq].
    apply negb_true_iff in Hf. apply String.eqb_eq in Hs.
    repeat split; try assumption; try congruence.
    now apply Hnf.
  - intros [sec [Hsec [Hn [Hq [Hs Hno]]]]].
    exists (section_result self (Text.lower doc) sec).
    split; [now apply in_map|]. unfold is_missing_tier. simpl.
    unfold section_required, section_tier. rewrite Hn, Hq, Hs. simpl.
    split; [reflexivity|]. rewrite (proj2 (Hnf sec) Hno), String.eqb_refl.
    reflexivity.
Qed.

(** X13. From the rubric to the report: a name is in [missing_critical]
    exactly when it is the name of a rubric section that is required, of
    severity critical, and none of whose keywords, lowercased, is in the
    lowercased document; likewise for [missing_high]. The report counts
    one section per rubric section. *)
Theorem missing_lists_end_to_end (self : ValidatorAgent) (doc : string)
    (rs : list ValidationResult) (s : Z) :
  validate self doc = Ok (rs, s) ->
  let report := format_report rs s in
  (forall n,
      In n (missing_critical report) <->
      exists sec,
        In sec (rubric_sections self) /\
        Rubric.name sec = Some n /\
        Rubric.required sec = Some true /\
        Rubric.severity sec = Some "critical" /\
        forall kw, In kw (section_keywords sec) ->
                   Text.contains (Text.lower kw) (Text.lower doc) = false) /\
  (forall n,
      In n (missing_high report) <->
      exists sec,
        In sec (rubric_sections self) /\
        Rubric.name sec = Some n /\
        Rubric.required sec = Some true /\
        Rubric.severity sec = Some "high" /\
        forall kw, In kw (section_keywords sec) ->
                   Text.contains (Text.lower kw) (Text.lower doc) = false) /\
  total_sections report = Z.of_nat (length (rubric_sections self)).
Proof.
  intros H. destruct (validate_ok_inv self doc rs s H) as [Hk [-> _]].
  simpl. split; [|split].
  - intros n. apply (missing_tier_end_to_end self doc "critical" n Hk).
  - intros n. apply (missing_tier_end_to_end self doc "high" n Hk).
  - now rewrite length_map.
Qed.

(** * The summary of the orchestrator *)

Ltac settle_status :=
  intros;
  repeat match goal with H : _ /\ _ |- _ => destruct H end;
  first [reflexivity | discriminate | lia | contradiction | congruence | tauto].

(** X14. On the report of [format_report], [_generate_summary] returns.
    Its score is the report's, its gaps count the names of the two
    missing lists, it is READY FOR ENGINEERING REVIEW exactly when the
    score is at least 90 and no critical section is missing, and NOT
    READY exactly when the report's own status is NOT READY. A report
    that is READY FOR REVIEW with a critical section missing is
    downgraded to NEEDS ITERATION. *)
Theorem summary_of_report (rs : list ValidationResult) (the_score : Z)
    (the_critique : Skeptic.Critique) :
  let report := format_report rs the_score in
  exists sm,
    Orchestrator.generate_summary (as_dict report) the_critique = Ok sm /\
    Orchestrator.completeness_score sm = the_score /\
    Orchestrator.critical_gaps sm = Z.of_nat (length (missing_critical report)) /\
    Orchestrator.high_priority_gaps sm = Z.of_nat (length (missing_high report)) /\
    (Orchestrator.overall_status sm = "READY FOR ENGINEERING REVIEW" <->
     90 <= the_score /\ missing_critical report = []) /\
    (Orchestrator.overall_status sm = "NOT READY" <-> status report = "NOT READY") /\
    (status report = "READY FOR REVIEW" -> missing_critical report <> [] ->
     Orchestrator.overall_status sm = "NEEDS ITERATION").
Proof.
  cbn zeta. eexists. split; [reflexivity|]. cbn -[Z.leb Z.eqb Z.of_nat].
  split; [reflexivity|]. split; [reflexivity|]. split; [reflexivity|].
  unfold Orchestrator.readiness, status_of.
  set (mc := map section_name (critical_bucket rs)).
  destruct (90 <=? the_score) eqn:E90; [apply Z.leb_le in E90 | apply Z.leb_gt in E90].
  - destruct (Z.of_nat (length mc) =? 0) eqn:Ez; simpl.
    + apply Z.eqb_eq in Ez.
      assert (Hm : mc = []) by (destruct mc; [reflexivity | simpl in Ez; lia]).
      repeat split; settle_status.
    + apply Z.eqb_neq in Ez.
      assert (Hm : mc <> []) by (intros Hm; rewrite Hm in Ez; simpl in Ez; lia).
      destruct (70 <=? the_score) eqn:E70; [|apply Z.leb_gt in E70; lia].
      simpl. repeat split; settle_status.
  - simpl. destruct (70 <=? the_score) eqn:E70; simpl;
      repeat split; settle_status.
Qed.

(** * The prompt of the skeptic *)

Lemma contains_append_l (x a b : string) :
  Text.contains x a = true -> Text.contains x (a +:+ b) = true.
Proof.
  intros H. apply (contains_extend x a EmptyString b) in H.
  now rewrite append_empty in H.
Qed.

Lemma contains_append_r (x a b : string) :
  Text.contains x b = true -> Text.contains x (a +:+ b) = true.
Proof.
  intros H. apply (contains_extend x b a EmptyString) in H.
  now rewrite append_nil_r in H.
Qed.

Lemma contains_self (x : string) : Text.contains x x = true.
Proof.
  apply contains_spec. exists EmptyString, EmptyString.
  now rewrite append_empty, append_nil_r.
Qed.

(** The bullet lines the loop over a list of names appends. *)
Lemma bullet_lines (names : list string) (init : string) :
  exists tail,
    fold_left (fun acc section => acc +:+ "- " +:+ section +:+ Str.nl) names init =
    init +:+ tail /\
    forall n, In n names -> Text.contains ("- " +:+ n +:+ Str.nl) tail = true.
Proof.
  revert init. induction names as [|x l IH]; intros init; simpl.
  - exists EmptyString. split; [now rewrite append_nil_r | intros n []].
  - destruct (IH (init +:+ "- " +:+ x +:+ Str.nl)) as [tail [E Hin]].
    exists (("- " +:+ x +:+ Str.nl) +:+ tail). split.
    + rewrite E. now rewrite <- !append_assoc.
    + intros n [<- | Hn].
      * apply contains_append_l, contains_self.
      * apply contains_append_r. now apply Hin.
Qed.

Lemma add_missing_spec (heading : string) (names : list string) (summary : string) :
  exists tail,
    Skeptic.add_missing heading names summary = summary +:+ tail /\
    (names = [] -> tail = EmptyString) /\
    forall n, In n names -> Text.contains ("- " +:+ n +:+ Str.nl) tail = true.
Proof.
  unfold Skeptic.add_missing. destruct names as [|x l].
  - exists EmptyString. split; [now rewrite append_nil_r|]. split; [auto | intros n []].
  - destruct (bullet_lines (x :: l) (summary +:+ heading +:+ Str.nl)) as [tail [E Hin]].
    exists (heading +:+ Str.nl +:+ tail +:+ Str.nl). split.
    + rewrite E. now rewrite !append_assoc.
    + split; [discriminate|]. intros n Hn.
      do 2 apply contains_append_r. apply contains_append_l. now apply Hin.
Qed.

(** X15. The prompt built from a report of [format_report] begins with
    the fixed opening, carries the score line and the whole PRD text, and
    has a bullet line for every name in [missing_critical] and in
    [missing_high]. When both lists are empty it says nothing more about
    sections, whatever else is missing. *)
Theorem prompt_embeds_report (rs : list ValidationResult) (the_score : Z)
    (prd_text : string) :
  let report := format_report rs the_score in
  exists p,
    Skeptic.build_user_prompt prd_text (as_dict report) = Ok p /\
    Text.starts_with Skeptic.prompt_opening p = true /\
    Text.contains (Skeptic.score_line the_score (status report)) p = true /\
    Text.contains prd_text p = true /\
    (forall n, In n (missing_critical report) \/ In n (missing_high report) ->
               Text.contains ("- " +:+ n +:+ Str.nl) p = true) /\
    (missing_critical report = [] -> missing_high report = [] ->
     p = Skeptic.prompt_opening
         +:+ Skeptic.score_line the_score (status report)
         +:+ Skeptic.prompt_middle +:+ prd_text +:+ Skeptic.prompt_closing).
Proof.
  cbn zeta. eexists. split; [reflexivity|].
  cbn [as_dict ReportDict.score ReportDict.status ReportDict.missing_critical
       ReportDict.missing_high default report_score].
  set (report := format_report rs the_score).
  unfold Skeptic.validation_summary, id.
  destruct (add_missing_spec "**Critical Sections Missing:**" (missing_critical report)
              (Skeptic.score_line (report_score report) (status report)))
    as [t1 [E1 [N1 H1]]].
  destruct (add_missing_spec "**High Priority Sections Missing:**" (missing_high report)
              (Skeptic.score_line (report_score report) (status report) +:+ t1))
    as [t2 [E2 [N2 H2]]].
  rewrite E1, E2. change (report_score report) with the_score.
  split; [|split; [|split; [|split]]].
  - apply starts_with_spec. eexists. now rewrite !append_assoc.
  - apply contains_append_r. do 3 apply contains_append_l. apply contains_self.
  - do 3 apply contains_append_r. apply contains_append_l, contains_self.
  - intros n [Hn | Hn]; apply contains_append_r, contains_append_l.
    + apply contains_append_l, contains_append_r. now apply H1.
    + apply contains_append_r. now apply H2.
  - intros Hc Hh. rewrite (N1 Hc), (N2 Hh). now rewrite !append_nil_r.
Qed.

(** * File names and PRD names *)

Section StringFacts.

Import Str.

Lemma replace_char_step (a : ascii) (new : string) (c : ascii) (t : string) :
  replace_from (String a EmptyString) new 0 (String c t) =
  if Ascii.eqb a c
  then new +:+ replace_from (String a EmptyString) new 0 t
  else String c (replace_from (String a EmptyString) new 0 t).
Proof. simpl. destruct (Ascii.eqb a c); reflexivity. Qed.

Lemma replace_char_length (a b : ascii) (s : string) :
  String.length (replace (String a EmptyString) (String b EmptyString) s) =
  String.length s.
Proof.
  unfold replace. induction s as [|c t IH]; [reflexivity|].
  rewrite replace_char_step.
  destruct (Ascii.eqb a c); [rewrite append_cons, append_empty|]; simpl; now rewrite IH.
Qed.

(** After replacing the character [a] by [b], a character that is not
    [b] is in the result only if it was in the text and is not [a]. *)
Lemma replace_char_has (a b x : ascii) (s : string) :
  x <> b ->
  has_char (fun c => Ascii.eqb c x)
           (replace (String a EmptyString) (String b EmptyString) s) =
  if Ascii.eqb a x then false
  else has_char (fun c => Ascii.eqb c x) s.
Proof.
  intros Hxb. unfold replace. induction s as [|c t IH].
  - simpl. now destruct (Ascii.eqb a x).
  - rewrite replace_char_step. destruct (Ascii.eqb a c) eqn:Eac.
    + apply Ascii.eqb_eq in Eac. subst c. rewrite append_cons, append_empty.
      simpl. rewrite IH.
      assert (Ascii.eqb b x = false) by (apply Ascii.eqb_neq; congruence).
      rewrite H. simpl. destruct (Ascii.eqb a x); reflexivity.
    + simpl. rewrite IH. destruct (Ascii.eqb a x) eqn:Eax; [|reflexivity].
      apply Ascii.eqb_eq in Eax. subst x. rewrite Ascii.eqb_sym, Eac. reflexivity.
Qed.

Lemma replace_char_id (a b : ascii) (s : string) :
  has_char (fun c => Ascii.eqb c a) s = false ->
  replace (String a EmptyString) (String b EmptyString) s = s.
Proof.
  unfold replace. induction s as [|c t IH]; [reflexivity|].
  simpl has_char. intros H. apply orb_false_iff in H as [Hc Ht].
  rewrite replace_char_step, Ascii.eqb_sym, Hc. now rewrite IH.
Qed.

Lemma has_char_app (test : ascii -> bool) (a b : string) :
  has_char test (a +:+ b) = has_char test a || has_char test b.
Proof.
  induction a as [|c a IH]; [reflexivity|].
  rewrite append_cons. simpl. now rewrite IH, orb_assoc.
Qed.

Lemma upto_last_slash_none (s : string) :
  has_char is_slash s = false -> upto_last_slash s = EmptyString.
Proof.
  destruct s as [|c t]; [reflexivity|]. simpl. intros H. now rewrite H.
Qed.




End StringFacts.


(** X16. The name [save_review] gives the file has the length of the PRD
    name and holds neither a space nor a slash; a PRD name without
    spaces and slashes is kept as it is. *)
Theorem safe_name_is_safe (the_name : string) :
  String.length (Orchestrator.safe_name the_name) = String.length the_name /\
  Str.has_char Str.is_slash (Orchestrator.safe_name the_name) = false /\
  Str.has_char (fun c => Ascii.eqb c " ") (Orchestrator.safe_name the_name) = false /\
  (Str.has_char Str.is_slash the_name = false ->
   Str.has_char (fun c => Ascii.eqb c " ") the_name = false ->
   Orchestrator.safe_name the_name = the_name).
Proof.
  unfold Orchestrator.safe_name. split; [|split; [|split]].
  - now rewrite !replace_char_length.
  - unfold Str.is_slash.
    rewrite (replace_char_has "/" "-" "/"%char) by discriminate. reflexivity.
  - rewrite (replace_char_has "/" "-" " "%char) by discriminate.
    rewrite (replace_char_has " " "_" " "%char) by discriminate. reflexivity.
  - intros Hs Hp. rewrite (replace_char_id " " "_" the_name Hp).
    now apply replace_char_id.
Qed.


(** X18. With an output path that has no slash, [save_review] saves
    nothing: the directory name it asks [os.makedirs] for is empty, the
    call fails with [FileNotFoundError] on every file system, and the
    file is never opened. *)
Theorem save_review_bare_path (fs : Orchestrator.FileSystem)
    (review : Orchestrator.Review) (stamp : string) (c : ascii) (rest : string) :
  Str.has_char Str.is_slash (String c rest) = false ->
  Orchestrator.save_review fs review (Some (String c rest)) stamp =
  ([Orchestrator.MakeDirs EmptyString],
   Orchestrator.SaveFailed Orchestrator.FileNotFoundError).
Proof.
  intros H.
  unfold Orchestrator.save_review, Orchestrator.save_review_path, Str.dirname.
  cbn [Str.truthy default from_option id].
  now rewrite (upto_last_slash_none _ H).
Qed.

Section NameFacts.

Import Str.


Lemma first_line_none (s : string) :
  has_char is_newline s = false -> first_line s = s.
Proof.
  induction s as [|c t IH]; [reflexivity|]. simpl. unfold is_newline at 1.
  intros H. apply orb_false_iff in H as [Hc Ht]. now rewrite Hc, IH.
Qed.

Lemma first_line_app (l r : string) :
  has_char is_newline l = false -> first_line (l +:+ nl +:+ r) = l.
Proof.
  induction l as [|c t IH]; [reflexivity|].
  rewrite append_cons. simpl. unfold is_newline at 1.
  intros H. apply orb_false_iff in H as [Hc Ht]. now rewrite Hc, IH.
Qed.

Lemma lstrip_if_all (drop : ascii -> bool) (a b : string) :
  all_chars drop a = true -> lstrip_if drop (a +:+ b) = lstrip_if drop b.
Proof.
  induction a as [|c a IH]; [reflexivity|]. rewrite append_cons. simpl.
  intros H. apply andb_true_iff in H as [Hc Ha]. now rewrite Hc, IH.
Qed.

Lemma rstrip_if_app (drop : ascii -> bool) (a b : string) :
  rstrip_if drop b <> EmptyString ->
  rstrip_if drop (a +:+ b) = a +:+ rstrip_if drop b.
Proof.
  intros H. induction a as [|c a IH]; [reflexivity|].
  rewrite !append_cons. simpl. rewrite IH.
  destruct (a +:+ rstrip_if drop b) eqn:E; [|reflexivity].
  destruct a; [|rewrite append_cons in E; discriminate].
  rewrite append_empty in E. contradiction.
Qed.

Lemma rstrip_if_idem (drop : ascii -> bool) (s : string) :
  rstrip_if drop (rstrip_if drop s) = rstrip_if drop s.
Proof.
  induction s as [|c t IH]; [reflexivity|]. simpl.
  destruct (rstrip_if drop t) as [|d u] eqn:E.
  - destruct (drop c) eqn:Ec; [reflexivity|]. simpl. now rewrite Ec.
  - simpl in *. now rewrite IH.
Qed.

Lemma lstrip_if_idem (drop : ascii -> bool) (s : string) :
  lstrip_if drop (lstrip_if drop s) = lstrip_if drop s.
Proof.
  induction s as [|c t IH]; [reflexivity|]. simpl.
  destruct (drop c) eqn:Ec; [exact IH|]. simpl. now rewrite Ec.
Qed.

(** Stripping on the right leaves a stripped left end stripped. *)
Lemma lstrip_rstrip (drop : ascii -> bool) (s : string) :
  lstrip_if drop s = s -> lstrip_if drop (rstrip_if drop s) = rstrip_if drop s.
Proof.
  destruct s as [|c t]; [reflexivity|]. simpl.
  destruct (drop c) eqn:Ec.
  - intros H. exfalso.
    assert (L : forall u, (String.length (lstrip_if drop u) <= String.length u)%nat).
    { induction u as [|d u IHu]; simpl; [lia|]. destruct (drop d); simpl; lia. }
    pose proof (L t) as Ht. rewrite H in Ht. simpl in Ht. lia.
  - intros _. destruct (rstrip_if drop t); simpl; now rewrite Ec.
Qed.

Lemma strip_stripped (s : string) :
  lstrip_if is_space (strip s) = strip s /\
  rstrip_if is_space (strip s) = strip s.
Proof.
  unfold strip. split.
  - apply lstrip_rstrip, lstrip_if_idem.
  - apply rstrip_if_idem.
Qed.

Lemma has_char_lstrip (test drop : ascii -> bool) (s : string) :
  has_char test s = false -> has_char test (lstrip_if drop s) = false.
Proof.
  induction s as [|c t IH]; [reflexivity|]. simpl.
  intros H. apply orb_false_iff in H as [Hc Ht].
  destruct (drop c); [now apply IH|]. simpl. now rewrite Hc, Ht.
Qed.

Lemma has_char_rstrip (test drop : ascii -> bool) (s : string) :
  has_char test s = false -> has_char test (rstrip_if drop s) = false.
Proof.
  induction s as [|c t IH]; [reflexivity|]. simpl.
  intros H. apply orb_false_iff in H as [Hc Ht]. specialize (IH Ht).
  destruct (rstrip_if drop t) as [|d u].
  - destruct (drop c); [reflexivity|]. simpl. now rewrite Hc.
  - simpl. rewrite Hc. exact IH.
Qed.

Lemma has_char_first_line (s : string) :
  has_char is_newline (first_line s) = false.
Proof.
  induction s as [|c t IH]; [reflexivity|]. simpl.
  destruct (Ascii.eqb c (ascii_of_nat 10)) eqn:E; [reflexivity|].
  simpl. unfold is_newline at 1. now rewrite E, IH.
Qed.

End NameFacts.

(** X19. The PRD name [main] derives depends on the first line of the
    text only. When that line is a heading, the name has no white space
    at either end and no line break. *)
Theorem prd_name_from_first_line (first rest prd_file : string) :
  Str.has_char is_newline first = false ->
  Orchestrator.prd_name_of (first +:+ Str.nl +:+ rest) prd_file =
  Orchestrator.prd_name_of first prd_file /\
  (Text.starts_with "#" (Str.strip first) = true ->
   let n := Orchestrator.prd_name_of (first +:+ Str.nl +:+ rest) prd_file in
   Str.lstrip_if Str.is_space n = n /\
   Str.rstrip_if Str.is_space n = n /\
   Str.has_char is_newline n = false).
Proof.
  intros Hn. unfold Orchestrator.prd_name_of.
  rewrite (first_line_app first rest Hn), (first_line_none first Hn).
  split; [reflexivity|]. intros Hh. cbn zeta. rewrite Hh.
  split; [apply strip_stripped|]. split; [apply strip_stripped|].
  unfold Str.strip at 1.
  apply has_char_rstrip, has_char_lstrip, has_char_lstrip.
  unfold Str.strip. now apply has_char_rstrip, has_char_lstrip.
Qed.

(** X20. A heading gives its title back: for a text that begins with one
    or more [#], a space, a title without white space at its ends and
    without line break, then a line break, the PRD name is the title. *)
Theorem prd_name_of_heading (hashes title rest prd_file : string) :
  Str.all_chars Str.is_hash hashes = true ->
  title <> EmptyString ->
  Str.lstrip_if Str.is_space title = title ->
  Str.rstrip_if Str.is_space title = title ->
  Str.has_char is_newline title = false ->
  Orchestrator.prd_name_of
    (("#" +:+ hashes) +:+ " " +:+ title +:+ Str.nl +:+ rest) prd_file = title.
Proof.
  intros Hh Hne Hl Hr Hn. unfold Orchestrator.prd_name_of.
  assert (Hhn : Str.has_char is_newline ("#" +:+ hashes) = false).
  { rewrite has_char_app. simpl.
    clear -Hh. induction hashes as [|c t IH]; [reflexivity|].
    simpl in *. apply andb_true_iff in Hh as [Hc Ht]. rewrite (IH Ht), orb_false_r.
    unfold Str.is_hash in Hc. apply Ascii.eqb_eq in Hc. now subst c. }
  assert (Hline : Str.first_line
                    (("#" +:+ hashes) +:+ " " +:+ title +:+ Str.nl +:+ rest) =
                  ("#" +:+ hashes) +:+ " " +:+ title).
  { rewrite <- (first_line_app (("#" +:+ hashes) +:+ " " +:+ title) rest).
    - now rewrite !append_assoc.
    - rewrite (has_char_app _ ("#" +:+ hashes)), Hhn, has_char_app, Hn. reflexivity. }
  rewrite Hline.
  assert (Hrt : Str.rstrip_if Str.is_space title <> EmptyString) by congruence.
  assert (Hstrip : Str.strip (("#" +:+ hashes) +:+ " " +:+ title) =
                   ("#" +:+ hashes) +:+ " " +:+ title).
  { unfold Str.strip. rewrite append_assoc, append_cons, append_empty.
    simpl Str.lstrip_if.
    change (String "#" (hashes +:+ " " +:+ title))
      with (String "#" EmptyString +:+ hashes +:+ " " +:+ title).
    rewrite <- !append_assoc.
    rewrite (rstrip_if_app Str.is_space _ title Hrt), Hr. reflexivity. }
  rewrite Hstrip.
  assert (Hstart : Text.starts_with "#" (("#" +:+ hashes) +:+ " " +:+ title) = true).
  { apply starts_with_spec. eexists. now rewrite append_assoc. }
  rewrite Hstart.
  assert (Hall : Str.all_chars Str.is_hash ("#" +:+ hashes) = true).
  { rewrite append_cons, append_empty. simpl. exact Hh. }
  rewrite (lstrip_if_all Str.is_hash _ _ Hall).
  rewrite append_cons, append_empty. simpl Str.lstrip_if.
  unfold Str.strip. simpl Str.lstrip_if. now rewrite Hl, Hr.
Qed.

(** * The review pipeline *)

Lemma prompt_of_report (rs : list ValidationResult) (the_score : Z) (prd_text : string) :
  exists p,
    Skeptic.build_user_prompt prd_text (as_dict (format_report rs the_score)) = Ok p /\
    Text.contains prd_text p = true.
Proof.
  eexists. split; [reflexivity|].
  do 3 apply contains_append_r. apply contains_append_l, contains_self.
Qed.

(** X21. [review_prd] calls the API at most once, and not at all when
    the scorer raises: the scorer's exception is passed on and nothing
    is sent. Otherwise exactly one request is sent, for 2000 tokens, with
    the agent's model and system prompt and with the prompt built from
    the PRD text and the report, which contains the PRD text. *)
Theorem review_sends_one_request
    (api : Skeptic.Request -> option Skeptic.Response)
    (validator : ValidatorAgent) (skeptic : Skeptic.Agent)
    (now prd_text the_name : string) (sent : list Skeptic.Request) :
  match validate validator prd_text with
  | Raise e =>
      Orchestrator.review_prd api validator skeptic now prd_text the_name sent =
      (Skeptic.Raised (Skeptic.FromCore e), sent)
  | Ok (rs, s) =>
      exists request,
        snd (Orchestrator.review_prd api validator skeptic now prd_text the_name sent) =
        sent ++ [request] /\
        Skeptic.req_max_tokens request = 2000 /\
        Skeptic.req_model request = Skeptic.agent_model skeptic /\
        Skeptic.req_system request = Skeptic.system_prompt skeptic /\
        Skeptic.build_user_prompt prd_text (as_dict (format_report rs s)) =
        Ok (Skeptic.req_user request) /\
        Text.contains prd_text (Skeptic.req_user request) = true
  end.
Proof.
  unfold Orchestrator.review_prd.
  destruct (validate validator prd_text) as [[rs s]|e]; [|reflexivity].
  destruct (prompt_of_report rs s prd_text) as [p [Hp Hc]].
  unfold Skeptic.challenge. rewrite Hp.
  eexists {| Skeptic.req_model := _; Skeptic.req_max_tokens := _;
             Skeptic.req_system := _; Skeptic.req_user := p |}.
  split; [|simpl; auto].
  destruct (api _) as [response|]; [|reflexivity].
  destruct (Skeptic.content response); reflexivity.
Qed.

(** X22. What [review_prd] returns hangs together: its report is the
    report of the scorer's results, the score is the same in the
    metadata, the report and the summary, the status in the metadata is
    the report's, the critique is the first content block of the API's
    answer, and the tokens are the sum of its input and output tokens.
    It returns only when the scorer returned and the API answered with at
    least one content block. *)
Theorem review_is_consistent
    (api : Skeptic.Request -> option Skeptic.Response)
    (validator : ValidatorAgent) (skeptic : Skeptic.Agent)
    (now prd_text the_name : string) (sent sent' : list Skeptic.Request)
    (review : Orchestrator.Review) :
  Orchestrator.review_prd api validator skeptic now prd_text the_name sent =
  (Skeptic.Returned review, sent') ->
  exists rs s request response text more,
    validate validator prd_text = Ok (rs, s) /\
    sent' = sent ++ [request] /\
    api request = Some response /\
    Skeptic.content response = text :: more /\
    Orchestrator.prd_name review = the_name /\
    Orchestrator.timestamp review = now /\
    Orchestrator.validation review = format_report rs s /\
    Orchestrator.validator_score review = s /\
    report_score (Orchestrator.validation review) = s /\
    Orchestrator.completeness_score (Orchestrator.summary review) = s /\
    Orchestrator.validator_status review = status (Orchestrator.validation review) /\
    Orchestrator.critical_gaps (Orchestrator.summary review) =
      Z.of_nat (length (missing_critical (Orchestrator.validation review))) /\
    Orchestrator.technical_critique review = text /\
    Orchestrator.skeptic_tokens review =
      Skeptic.input_tokens response + Skeptic.output_tokens response /\
    Orchestrator.model_used review = Skeptic.agent_model skeptic.
Proof.
  unfold Orchestrator.review_prd.
  destruct (validate validator prd_text) as [[rs s]|e]; [|discriminate].
  destruct (prompt_of_report rs s prd_text) as [p [Hp _]].
  unfold Skeptic.challenge. rewrite Hp.
  set (request := {| Skeptic.req_model := Skeptic.agent_model skeptic;
                     Skeptic.req_max_tokens := 2000;
                     Skeptic.req_system := Skeptic.system_prompt skeptic;
                     Skeptic.req_user := p |}).
  destruct (api request) as [response|] eqn:Ea; [|discriminate].
  destruct (Skeptic.content response) as [|text more] eqn:Ec; [discriminate|].
  cbn -[format_report]. intros [= <- <-].
  exists rs, s, request, response, text, more. cbn -[format_report].
  repeat split; auto.
Qed.

(** X23. How [review_prd] fails after a successful scoring: with the
    API's own error when the call raises, with [IndexError] when the
    answer has no content block. The request has been sent in both cases. *)
Theorem review_failures
    (api : Skeptic.Request -> option Skeptic.Response)
    (validator : ValidatorAgent) (skeptic : Skeptic.Agent)
    (now prd_text the_name : string) (sent : list Skeptic.Request)
    (rs : list ValidationResult) (s : Z) :
  validate validator prd_text = Ok (rs, s) ->
  exists request,
    snd (Orchestrator.review_prd api validator skeptic now prd_text the_name sent) =
    sent ++ [request] /\
    match api request with
    | None =>
        fst (Orchestrator.review_prd api validator skeptic now prd_text the_name sent) =
        Skeptic.Raised Skeptic.ApiError
    | Some response =>
        match Skeptic.content response with
        | [] =>
            fst (Orchestrator.review_prd api validator skeptic now prd_text the_name sent) =
            Skeptic.Raised Skeptic.IndexError
        | _ :: _ =>
            exists review,
              fst (Orchestrator.review_prd api validator skeptic now prd_text the_name sent) =
              Skeptic.Returned review
        end
    end.
Proof.
  intros Hv. unfold Orchestrator.review_prd. rewrite Hv.
  destruct (prompt_of_report rs s prd_text) as [p [Hp _]].
  unfold Skeptic.challenge. rewrite Hp.
  set (request := {| Skeptic.req_model := Skeptic.agent_model skeptic;
                     Skeptic.req_max_tokens := 2000;
                     Skeptic.req_system := Skeptic.system_prompt skeptic;
                     Skeptic.req_user := p |}).
  exists request.
  destruct (api request) as [response|]; [|split; reflexivity].
  destruct (Skeptic.content response) as [|text more]; [split; reflexivity|].
  split; [reflexivity|]. eexists. reflexivity.
Qed.

(** * The further properties at concrete inputs *)


Lemma scenario_validates :
  validate (init scenario_rubric) scenario_doc = Ok ([problem_result; metrics_result], 66).
Proof. vm_compute. reflexivity. Qed.

Lemma validate_results_follow_template_witness :
  validate (init scenario_rubric) scenario_doc = Ok ([problem_result; metrics_result], 66) /\
  length [problem_result; metrics_result] = length (rubric_sections (init scenario_rubric)) /\
  map (fun r => Some (section_name r)) [problem_result; metrics_result] =
  map Rubric.name (rubric_sections (init scenario_rubric)).
Proof.
  pose proof (validate_results_follow_template (init scenario_rubric) scenario_doc
                _ _ scenario_validates) as [H1 [H2 _]].
  split; [exact scenario_validates|]. split; [exact H1 | exact H2].
Defined.

Lemma validate_result_fields_witness :
  validate (init scenario_rubric) scenario_doc = Ok ([problem_result; metrics_result], 66) /\
  Forall2
    (fun sec r =>
       keywords_found r =
         List.filter (fun kw => Text.contains (Text.lower kw) (Text.lower scenario_doc))
                     (section_keywords sec) /\
       sublist (keywords_found r) (section_keywords sec) /\
       (found r = true <-> keywords_found r <> []) /\
       score r = (if found r then section_weight (init scenario_rubric) (severity r) else 0))
    (rubric_sections (init scenario_rubric)) [problem_result; metrics_result].
Proof.
  split; [exact scenario_validates|].
  exact (validate_result_fields (init scenario_rubric) scenario_doc _ _ scenario_validates).
Defined.

Lemma keyless_raises :
  validate (init keyless_rubric) scenario_doc = Raise (KeyError "severity").
Proof. vm_compute. reflexivity. Qed.

Lemma scenario_weights_nonneg :
  forall sec, In sec (rubric_sections (init scenario_rubric)) ->
              0 <= section_weight (init scenario_rubric) (section_tier sec).
Proof. intros sec [<- | [<- | []]]; vm_compute; discriminate. Qed.

Lemma validate_score_nonneg_witness :
  (forall sec, In sec (rubric_sections (init scenario_rubric)) ->
               0 <= section_weight (init scenario_rubric) (section_tier sec)) /\
  validate (init scenario_rubric) scenario_doc = Ok ([problem_result; metrics_result], 66) /\
  0 <= 66.
Proof.
  split; [exact scenario_weights_nonneg|]. split; [exact scenario_validates|].
  exact (validate_score_nonneg (init scenario_rubric) scenario_doc _ _
           scenario_weights_nonneg scenario_validates).
Defined.

Lemma validate_score_in_range_witness :
  forallb has_keys (rubric_sections (init scenario_rubric)) = true /\
  (forall sec, In sec (rubric_sections (init scenario_rubric)) ->
               0 <= section_weight (init scenario_rubric) (section_tier sec)) /\
  (forall sec, In sec (rubric_sections (init scenario_rubric)) ->
               section_found (Text.lower scenario_doc) sec = true ->
               section_required sec = true) /\
  exists rs s,
    validate (init scenario_rubric) scenario_doc = Ok (rs, s) /\ 0 <= s <= 100.
Proof.
  assert (H1 : forallb has_keys (rubric_sections (init scenario_rubric)) = true)
    by reflexivity.
  assert (H3 : forall sec, In sec (rubric_sections (init scenario_rubric)) ->
                 section_found (Text.lower scenario_doc) sec = true ->
                 section_required sec = true)
    by (intros sec [<- | [<- | []]] _; reflexivity).
  split; [exact H1|]. split; [exact scenario_weights_nonneg|]. split; [exact H3|].
  exact (validate_score_in_range (init scenario_rubric) scenario_doc
           H1 scenario_weights_nonneg H3).
Defined.

Lemma validate_full_marks_witness :
  forallb has_keys (rubric_sections (init scenario_rubric)) = true /\
  (forall sec, In sec (rubric_sections (init scenario_rubric)) ->
               section_found (Text.lower optional_doc) sec = section_required sec) /\
  0 < possible_total (init scenario_rubric) (rubric_sections (init scenario_rubric)) /\
  exists rs, validate (init scenario_rubric) optional_doc = Ok (rs, 100).
Proof.
  assert (H1 : forallb has_keys (rubric_sections (init scenario_rubric)) = true)
    by reflexivity.
  assert (H2 : forall sec, In sec (rubric_sections (init scenario_rubric)) ->
                 section_found (Text.lower optional_doc) sec = section_required sec)
    by (intros sec [<- | [<- | []]]; vm_compute; reflexivity).
  assert (H3 : 0 < possible_total (init scenario_rubric)
                     (rubric_sections (init scenario_rubric)))
    by (vm_compute; reflexivity).
  split; [exact H1|]. split; [exact H2|]. split; [exact H3|].
  exact (validate_full_marks (init scenario_rubric) optional_doc H1 H2 H3).
Defined.

Lemma scenario_runs :
  run_sections (init scenario_rubric) scenario_doc = Ok scenario_state.
Proof. vm_compute. reflexivity. Qed.

Lemma more_text_keeps_matches_witness :
  Text.contains (Text.lower scenario_doc)
    (Text.lower ("Draft. " +:+ scenario_doc +:+ " Success Metrics follow.")) = true /\
  run_sections (init scenario_rubric) scenario_doc = Ok scenario_state /\
  exists st',
    run_sections (init scenario_rubric)
      ("Draft. " +:+ scenario_doc +:+ " Success Metrics follow.") = Ok st' /\
    max_score st' = max_score scenario_state.
Proof.
  assert (H0 : Text.contains (Text.lower scenario_doc)
                 (Text.lower ("Draft. " +:+ scenario_doc
                              +:+ " Success Metrics follow.")) = true)
    by reflexivity.
  split; [exact H0|]. split; [exact scenario_runs|].
  destruct (more_text_keeps_matches (init scenario_rubric) scenario_doc
              ("Draft. " +:+ scenario_doc +:+ " Success Metrics follow.")
              scenario_state H0 scenario_runs)
    as [st' [H1 [H2 _]]].
  exists st'. split; [exact H1 | exact H2].
Defined.



Lemma missing_lists_end_to_end_witness :
  validate (init scenario_rubric) scenario_doc = Ok ([problem_result; metrics_result], 66) /\
  total_sections (format_report [problem_result; metrics_result] 66) =
  Z.of_nat (length (rubric_sections (init scenario_rubric))).
Proof.
  split; [exact scenario_validates|].
  exact (proj2 (proj2 (missing_lists_end_to_end (init scenario_rubric) scenario_doc
                         _ _ scenario_validates))).
Defined.


Lemma save_review_bare_path_witness :
  Str.has_char Str.is_slash "review.json" = false /\
  forall review,
    Orchestrator.save_review welcoming_disk review (Some "review.json")
      "20240131_093000" =
    ([Orchestrator.MakeDirs EmptyString],
     Orchestrator.SaveFailed Orchestrator.FileNotFoundError).
Proof.
  assert (H1 : Str.has_char Str.is_slash "review.json" = false) by reflexivity.
  split; [exact H1|]. intros review.
  exact (save_review_bare_path welcoming_disk review "20240131_093000"
           "r" "eview.json" H1).
Defined.

Lemma prd_name_from_first_line_witness :
  Str.has_char is_newline "# Checkout redesign" = false /\
  Orchestrator.prd_name_of ("# Checkout redesign" +:+ Str.nl +:+ "Body text.") "prd.md" =
  Orchestrator.prd_name_of "# Checkout redesign" "prd.md".
Proof.
  assert (H1 : Str.has_char is_newline "# Checkout redesign" = false) by reflexivity.
  split; [exact H1|].
  exact (proj1 (prd_name_from_first_line "# Checkout redesign" "Body text." "prd.md" H1)).
Defined.

Lemma prd_name_of_heading_witness :
  Str.all_chars Str.is_hash "#" = true /\
  "Checkout redesign" <> EmptyString /\
  Str.lstrip_if Str.is_space "Checkout redesign" = "Checkout redesign" /\
  Str.rstrip_if Str.is_space "Checkout redesign" = "Checkout redesign" /\
  Str.has_char is_newline "Checkout redesign" = false /\
  Orchestrator.prd_name_of
    (("#" +:+ "#") +:+ " " +:+ "Checkout redesign" +:+ Str.nl +:+ "Body text.")
    "prd.md" = "Checkout redesign".
Proof.
  assert (H1 : Str.all_chars Str.is_hash "#" = true) by reflexivity.
  assert (H2 : "Checkout redesign" <> EmptyString) by discriminate.
  assert (H3 : Str.lstrip_if Str.is_space "Checkout redesign" = "Checkout redesign")
    by reflexivity.
  assert (H4 : Str.rstrip_if Str.is_space "Checkout redesign" = "Checkout redesign")
    by reflexivity.
  assert (H5 : Str.has_char is_newline "Checkout redesign" = false) by reflexivity.
  repeat (split; [assumption|]).
  exact (prd_name_of_heading "#" "Checkout redesign" "Body text." "prd.md"
           H1 H2 H3 H4 H5).
Defined.

Lemma review_is_consistent_witness :
  exists review sent',
    Orchestrator.review_prd sample_api (init scenario_rubric) sample_agent
      "2024-01-31T09:30:00" scenario_doc "Checkout" [] =
    (Skeptic.Returned review, sent') /\
    Orchestrator.validator_score review = 66 /\
    Orchestrator.skeptic_tokens review = 1500.
Proof.
  eexists. eexists.
  match goal with |- ?A /\ _ => assert (H : A) by (vm_compute; reflexivity) end.
  split; [exact H|].
  destruct (review_is_consistent sample_api (init scenario_rubric) sample_agent
              "2024-01-31T09:30:00" scenario_doc "Checkout" [] _ _ H)
    as [rs [s [request [response [text [more F]]]]]].
  split; reflexivity.
Defined.

Lemma review_failures_witness :
  validate (init scenario_rubric) scenario_doc = Ok ([problem_result; metrics_result], 66) /\
  exists request,
    snd (Orchestrator.review_prd (fun _ => None) (init scenario_rubric) sample_agent
           "2024-01-31T09:30:00" scenario_doc "Checkout" []) = [] ++ [request].
Proof.
  split; [exact scenario_validates|].
  destruct (review_failures (fun _ => None) (init scenario_rubric) sample_agent
              "2024-01-31T09:30:00" scenario_doc "Checkout" [] _ _ scenario_validates)
    as [request [H _]].
  exists request. exact H.
Defined.


(** * How far the score can be from the exact percentage *)

Lemma digits_ge (p : positive) : 2 ^ (Zpos (digits2_pos p) - 1) <= Zpos p.
Proof.
  rewrite digits2_pos_size. pose proof (Pos.size_le p) as H.
  assert (H' : 2 ^ Zpos (Pos.size p) <= 2 * Zpos p).
  { rewrite <- Pos2Z.inj_pow. change (2 * Zpos p) with (Zpos p~0). exact H. }
  replace (Zpos (Pos.size p)) with (Zpos (Pos.size p) - 1 + 1) in H' by lia.
  rewrite Z.pow_add_r in H' by lia. lia.
Qed.

Lemma digits_eq (p : positive) (k : Z) :
  2 ^ (k - 1) <= Zpos p < 2 ^ k -> Zpos (digits2_pos p) = k.
Proof.
  intros [Hlo Hhi]. pose proof (digits_le p k Hhi) as Hle.
  pose proof (digits_gt p) as Hgt.
  destruct (Z_lt_le_dec (Zpos (digits2_pos p)) k) as [Hlt|]; [|lia].
  exfalso.
  assert (2 ^ Zpos (digits2_pos p) <= 2 ^ (k - 1)) by (apply Z.pow_le_mono_r; lia).
  lia.
Qed.

(** A significand of at least 53 bits, away from the subnormal range, is
    shifted down to exactly 53 bits. *)
Lemma shr_fexp_normal (m e : Z) (l : location) :
  2 ^ 52 <= m -> -1074 <= Zdigits2 m + e - 53 ->
  exists out,
    shr_fexp 53 1024 m e l = (out, Zdigits2 m + e - 53) /\
    shr_m out = m / 2 ^ (Zdigits2 m - 53) /\
    2 ^ 52 <= shr_m out < 2 ^ 53.
Proof.
  intros Hm He. destruct m as [|p|p]; try (exfalso; lia).
  simpl Zdigits2 in *. set (d := Zpos (digits2_pos p)) in *.
  pose proof (digits_gt p) as Hgt. pose proof (digits_ge p) as Hge. fold d in Hgt, Hge.
  assert (Hd : 53 <= d).
  { destruct (Z_lt_le_dec d 53) as [Hlt|]; [|lia]. exfalso.
    assert (2 ^ d <= 2 ^ 52) by (apply Z.pow_le_mono_r; lia). lia. }
  assert (P : 0 < 2 ^ (d - 53)) by (apply Z.pow_pos_nonneg; lia).
  assert (Hhi : Zpos p < 2 ^ 53 * 2 ^ (d - 53)).
  { rewrite <- Z.pow_add_r by lia. replace (53 + (d - 53)) with d by lia. exact Hgt. }
  assert (Hlo : 2 ^ 52 * 2 ^ (d - 53) <= Zpos p).
  { rewrite <- Z.pow_add_r by lia. replace (52 + (d - 53)) with (d - 1) by lia. exact Hge. }
  assert (Hq : 2 ^ 52 <= Zpos p / 2 ^ (d - 53) < 2 ^ 53).
  { split; [apply Z.div_le_lower_bound; lia | apply Z.div_lt_upper_bound; lia]. }
  unfold shr_fexp. simpl Zdigits2. fold d. rewrite fexp_double.
  replace (Z.max (d + e - 53) (-1074) - e) with (d - 53) by lia.
  assert (E : shr_m (shr_record_of_loc (Zpos p) l) = Zpos p)
    by (destruct l as [|[]]; reflexivity).
  destruct (d - 53) as [|q|q] eqn:En; try lia.
  - eexists. split; [simpl; f_equal; lia|]. rewrite E, Z.div_1_r. split; [reflexivity|].
    rewrite Z.div_1_r in Hq. exact Hq.
  - destruct (shr_spec (Zpos p) e q l ltac:(lia)) as [out [Hs [Sm _]]].
    exists out. rewrite Hs, Sm. split; [f_equal; lia|]. split; [reflexivity | exact Hq].
Qed.

(** Rounding to nearest in the normal range: the result is the 53-bit
    floor of the value or the next double. [mid] is that floor, on the
    grid of exponent [ex + n]. *)
Lemma binary_round_aux_near (mx ex : Z) (lx : location) :
  2 ^ 52 <= mx -> -1021 <= Zdigits2 mx + ex <= 1023 ->
  exists m e,
    binary_round_aux 53 1024 false mx ex lx = S754_finite false m e /\
    2 ^ 52 <= Zpos m < 2 ^ 53 /\
    let n := Zdigits2 mx - 53 in
    let mid := mx / 2 ^ n in
    2 ^ 52 <= mid < 2 ^ 53 /\
    ((e = ex + n /\ mid <= Zpos m <= mid + 1) \/
     (e = ex + n + 1 /\ mid + 1 = 2 ^ 53 /\ Zpos m = 2 ^ 52)).
Proof.
  intros Hm Hr. unfold binary_round_aux.
  destruct (shr_fexp_normal mx ex lx Hm ltac:(lia)) as [o1 [-> [S1 B1]]].
  destruct (round_nearest_even_bounds (shr_m o1) (loc_of_shr_record o1)) as [[Rl Rh] _].
  set (m2 := round_nearest_even (shr_m o1) (loc_of_shr_record o1)) in *.
  set (e1 := Zdigits2 mx + ex - 53) in *.
  assert (Hm2 : 2 ^ 52 <= m2) by lia.
  assert (Hd2 : Zdigits2 m2 = 53 \/ (m2 = 2 ^ 53 /\ Zdigits2 m2 = 54)).
  { destruct m2 as [|p|p] eqn:E2; try (exfalso; lia).
    destruct (Z_lt_le_dec (Zpos p) (2 ^ 53)) as [Hlt|Hge].
    - left. simpl. apply digits_eq. simpl. lia.
    - right. split; [lia|]. simpl. apply digits_eq. simpl. lia. }
  destruct (shr_fexp_normal m2 e1 loc_Exact Hm2 ltac:(destruct Hd2 as [->|[_ ->]]; lia))
    as [o2 [-> [S2 B2]]].
  destruct (shr_m o2) as [|m|m] eqn:Em; try (exfalso; lia).
  assert (He : (Zdigits2 m2 + e1 - 53 <=? 1024 - 53) = true).
  { apply Z.leb_le. destruct Hd2 as [->|[_ ->]]; lia. }
  rewrite He. exists m, (Zdigits2 m2 + e1 - 53).
  split; [reflexivity|]. split; [exact B2|]. cbn zeta. rewrite <- S1.
  split; [exact B1|].
  destruct Hd2 as [Hd | [Hp Hd]]; rewrite Hd in *.
  - left. change (53 - 53) with 0 in S2. rewrite Z.div_1_r in S2.
    split; [unfold e1; lia | lia].
  - right. change (54 - 53) with 1 in S2. rewrite Hp in S2.
    change (2 ^ 53 / 2 ^ 1) with (2 ^ 52) in S2.
    split; [unfold e1; lia|]. split; lia.
Qed.

(** The arithmetic of two roundings, on integers: [mq / A] is the
    rounded quotient of [a] by [b], [mp / B] the rounded product of that
    by 100; [K] stands for [2^44]. *)
Lemma two_roundings_core (K a b A B mid mq mid' mp : Z) :
  0 < a < K -> 0 < b -> 0 < A -> 0 < B ->
  256 * K <= mid -> mid * b <= a * A -> a * A < (mid + 1) * b ->
  mid <= mq <= mid + 1 ->
  256 * K <= mid' -> mid' * A <= 100 * mq * B -> 100 * mq * B < (mid' + 1) * A ->
  mid' <= mp <= mid' + 1 ->
  (a * 100 / b - 1) * B <= mp < (a * 100 / b + 1) * B /\
  ((a * 100) mod b <> 0 -> a * 100 / b * B <= mp).
Proof.
  intros Ha Hb HA HB Hmid H2 H3 H4 Hmid' H6 H7 H8.
  pose proof (Z.div_mod (a * 100) b ltac:(lia)) as Hdm.
  pose proof (Z.mod_pos_bound (a * 100) b Hb) as Hf.
  set (T := a * 100 / b) in *. set (f := (a * 100) mod b) in *.
  assert (HT : 0 <= T) by (apply Z.div_pos; lia).
  assert (HAb : 0 < A * b) by (apply Z.mul_pos_pos; lia).
  assert (HAB : 0 < A * B) by (apply Z.mul_pos_pos; lia).
  (* the quotient's grid is finer than 1/(256 b) *)
  assert (I1 : 256 * b < A).
  { assert (E1 : 256 * K * b <= mid * b) by (apply Z.mul_le_mono_nonneg_r; lia).
    assert (E2 : a * A < K * A) by (apply Z.mul_lt_mono_pos_r; lia).
    assert (E3 : K * (256 * b) < K * A) by lia.
    apply Z.mul_lt_mono_pos_l in E3; lia. }
  assert (Mq : mq * b <= a * A + b).
  { assert (mq * b <= (mid + 1) * b) by (apply Z.mul_le_mono_nonneg_r; lia). lia. }
  assert (Mq' : a * A < mq * b + b).
  { assert (mid * b <= mq * b) by (apply Z.mul_le_mono_nonneg_r; lia). lia. }
  (* the product's grid is finer than 100/(256 b) *)
  assert (I2 : 256 * b <= 100 * B).
  { assert (J0 : 256 * K * A <= 100 * mq * B) by
        (assert (256 * K * A <= mid' * A) by (apply Z.mul_le_mono_nonneg_r; lia); lia).
    assert (J1 : 256 * K * A * b <= 100 * mq * B * b)
      by (apply Z.mul_le_mono_nonneg_r; lia).
    assert (J2 : 100 * B * (mq * b) <= 100 * B * (a * A + b))
      by (apply Z.mul_le_mono_nonneg_l; lia).
    assert (J3 : a * A + b <= K * A).
    { assert ((a + 1) * A <= K * A) by (apply Z.mul_le_mono_nonneg_r; lia). lia. }
    assert (J4 : 100 * B * (a * A + b) <= 100 * B * (K * A))
      by (apply Z.mul_le_mono_nonneg_l; lia).
    assert (J5 : (K * A) * (256 * b) <= (K * A) * (100 * B)) by lia.
    apply Z.mul_le_mono_pos_l in J5; [lia | apply Z.mul_pos_pos; lia]. }
  (* 100 b B + A b < A B *)
  assert (G : 100 * b * B + A * b < A * B).
  { assert (G1 : 256 * b * (100 * B) <= A * (100 * B))
      by (apply Z.mul_le_mono_nonneg_r; lia).
    assert (G2 : A * (256 * b) <= A * (100 * B))
      by (apply Z.mul_le_mono_nonneg_l; lia).
    lia. }
  (* upper side *)
  assert (U1 : mp * A <= 100 * mq * B + A).
  { assert (mp * A <= (mid' + 1) * A) by (apply Z.mul_le_mono_nonneg_r; lia). lia. }
  assert (U2 : mp * A * b <= 100 * B * (a * A + b) + A * b).
  { assert (mp * A * b <= (100 * mq * B + A) * b)
      by (apply Z.mul_le_mono_nonneg_r; lia).
    assert (100 * B * (mq * b) <= 100 * B * (a * A + b))
      by (apply Z.mul_le_mono_nonneg_l; lia).
    lia. }
  assert (U3 : 100 * B * (a * A) = A * B * (T * b) + A * B * f).
  { replace (100 * B * (a * A)) with (A * B * (a * 100)) by ring. rewrite Hdm. ring. }
  assert (U4 : A * B * f <= A * B * (b - 1)) by (apply Z.mul_le_mono_nonneg_l; lia).
  assert (Up : mp < (T + 1) * B).
  { assert (mp * (A * b) < (T + 1) * B * (A * b)) by lia.
    apply Z.mul_lt_mono_pos_r in H; lia. }
  (* lower side *)
  assert (L1 : 100 * mq * B < (mp + 1) * A).
  { assert ((mid' + 1) * A <= (mp + 1) * A) by (apply Z.mul_le_mono_nonneg_r; lia). lia. }
  assert (L2 : 100 * B * (a * A) - 100 * B * b < (mp + 1) * (A * b)).
  { assert (100 * mq * B * b < (mp + 1) * A * b)
      by (apply Z.mul_lt_mono_pos_r; lia).
    assert (100 * B * (a * A) < 100 * B * (mq * b + b))
      by (apply Z.mul_lt_mono_pos_l; lia).
    lia. }
  assert (L4 : 100 * b * B <= A * B).
  { assert (100 * b * B <= A * B) by (apply Z.mul_le_mono_nonneg_r; lia). lia. }
  assert (L5 : A * B <= A * B * b).
  { assert (A * B * 1 <= A * B * b) by (apply Z.mul_le_mono_nonneg_l; lia). lia. }
  assert (L6 : 0 <= A * B * f) by (apply Z.mul_nonneg_nonneg; lia).
  split; [split; [|exact Up]|].
  - assert (H : (T - 1) * B * (A * b) < (mp + 1) * (A * b)) by lia.
    apply Z.mul_lt_mono_pos_r in H; lia.
  - intros Hf0.
    assert (L7 : A * B * 1 <= A * B * f) by (apply Z.mul_le_mono_nonneg_l; lia).
    assert (H : T * B * (A * b) < (mp + 1) * (A * b)) by lia.
    apply Z.mul_lt_mono_pos_r in H; lia.
Qed.

(** The quotient of two positive integers below [2^44]: a normal double
    whose value is the 53-bit floor [mid] of the quotient on the grid of
    exponent [g], or the next double. *)
Lemma int_true_divide_near (a b : Z) :
  0 < a < 2 ^ 44 -> 0 < b < 2 ^ 44 ->
  exists m e g mid,
    SFdiv 53 1024 (Binary64.exact a) (Binary64.exact b) = S754_finite false m e /\
    2 ^ 52 <= Zpos m < 2 ^ 53 /\
    -97 <= g <= -9 /\
    2 ^ 52 <= mid /\
    mid * b <= a * 2 ^ (- g) /\ a * 2 ^ (- g) < (mid + 1) * b /\
    ((e = g /\ mid <= Zpos m <= mid + 1) \/
     (e = g + 1 /\ mid + 1 = 2 ^ 53 /\ Zpos m = 2 ^ 52)).
Proof.
  intros Ha Hb. destruct a as [|pa|pa]; try lia. destruct b as [|pb|pb]; try lia.
  unfold Binary64.exact, SFdiv, SFdiv_core_binary. simpl Zdigits2. simpl xorb.
  set (d1 := Zpos (digits2_pos pa)). set (d2 := Zpos (digits2_pos pb)).
  pose proof (digits_gt pa) as A1. pose proof (digits_ge pa) as A2.
  pose proof (digits_gt pb) as B1. pose proof (digits_ge pb) as B2.
  fold d1 in A1, A2. fold d2 in B1, B2.
  assert (Hd1 : 1 <= d1 <= 44) by (split; [unfold d1; lia | apply digits_le; lia]).
  assert (Hd2 : 1 <= d2 <= 44) by (split; [unfold d2; lia | apply digits_le; lia]).
  rewrite fexp_double.
  replace (Z.min (Z.max (d1 + 0 - (d2 + 0) - 53) (-1074)) (0 - 0))
    with (d1 - d2 - 53) by lia.
  replace (0 - 0 - (d1 - d2 - 53)) with (53 - d1 + d2) by lia.
  set (s := 53 - d1 + d2).
  assert (Hs : 10 <= s <= 96) by (unfold s; lia).
  destruct s as [|ps|ps] eqn:Es; try lia. rewrite <- Es.
  rewrite Z.shiftl_mul_pow2 by lia.
  pose proof (Z_div_mod (Zpos pa * 2 ^ s) (Zpos pb) eq_refl) as Hdiv.
  destruct (Z.div_eucl (Zpos pa * 2 ^ s) (Zpos pb)) as [q r]. destruct Hdiv as [Hq Hr].
  assert (Ps : 0 < 2 ^ s) by (apply Z.pow_pos_nonneg; lia).
  assert (Pd2 : 0 < 2 ^ (d2 - 1)) by (apply Z.pow_pos_nonneg; lia).
  (* the numerator lies between 2^(52+d2) and 2^(53+d2) *)
  assert (N1 : 2 ^ 52 * 2 ^ d2 <= Zpos pa * 2 ^ s).
  { assert (2 ^ 52 * 2 ^ d2 = 2 ^ (d1 - 1) * 2 ^ s).
    { rewrite <- !Z.pow_add_r by lia. f_equal. lia. }
    assert (2 ^ (d1 - 1) * 2 ^ s <= Zpos pa * 2 ^ s)
      by (apply Z.mul_le_mono_nonneg_r; lia).
    lia. }
  assert (N2 : Zpos pa * 2 ^ s < 2 ^ 54 * 2 ^ (d2 - 1)).
  { assert (2 ^ 54 * 2 ^ (d2 - 1) = 2 ^ d1 * 2 ^ s).
    { rewrite <- !Z.pow_add_r by lia. f_equal. lia. }
    assert (Zpos pa * 2 ^ s < 2 ^ d1 * 2 ^ s) by (apply Z.mul_lt_mono_pos_r; lia).
    lia. }
  assert (Q1 : 2 ^ 52 <= q).
  { assert (2 ^ 52 * Zpos pb < 2 ^ 52 * 2 ^ d2) by (apply Z.mul_lt_mono_pos_l; lia).
    assert (Zpos pb * 2 ^ 52 < Zpos pb * (q + 1)) by lia.
    apply Z.mul_lt_mono_pos_l in H0; lia. }
  assert (Q2 : q < 2 ^ 54).
  { assert (2 ^ 54 * 2 ^ (d2 - 1) <= 2 ^ 54 * Zpos pb)
      by (apply Z.mul_le_mono_nonneg_l; lia).
    assert (Zpos pb * q < Zpos pb * 2 ^ 54) by lia.
    apply Z.mul_lt_mono_pos_l in H0; lia. }
  assert (Dq : 53 <= Zdigits2 q <= 54).
  { destruct q as [|pq|pq]; try lia. simpl. split.
    - pose proof (digits_gt pq).
      destruct (Z_lt_le_dec (Zpos (digits2_pos pq)) 53); [|lia]. exfalso.
      assert (2 ^ Zpos (digits2_pos pq) <= 2 ^ 52) by (apply Z.pow_le_mono_r; lia). lia.
    - apply digits_le. lia. }
  destruct (binary_round_aux_near q (d1 - d2 - 53) (new_location (Zpos pb) r)
              Q1 ltac:(lia)) as [m [e [-> [Bm [Bmid Hcase]]]]].
  cbn zeta in Bmid, Hcase.
  set (n := Zdigits2 q - 53) in *. set (mid := q / 2 ^ n) in *.
  assert (Hn : 0 <= n <= 1) by (unfold n; lia).
  assert (Pn : 0 < 2 ^ n) by (apply Z.pow_pos_nonneg; lia).
  exists m, e, (d1 - d2 - 53 + n), mid.
  split; [reflexivity|]. split; [exact Bm|]. split; [lia|]. split; [lia|].
  assert (Mid1 : mid * 2 ^ n <= q).
  { unfold mid. rewrite Z.mul_comm. apply Z.mul_div_le. lia. }
  assert (Mid2 : q < (mid + 1) * 2 ^ n).
  { unfold mid. pose proof (Z.mod_pos_bound q (2 ^ n) Pn).
    pose proof (Z.div_mod q (2 ^ n) ltac:(lia)). lia. }
  assert (Split : 2 ^ s = 2 ^ (- (d1 - d2 - 53 + n)) * 2 ^ n).
  { rewrite <- Z.pow_add_r by lia. f_equal. unfold s. lia. }
  set (A := 2 ^ (- (d1 - d2 - 53 + n))) in *.
  split; [|split; [|exact Hcase]].
  - assert (mid * 2 ^ n * Zpos pb <= q * Zpos pb)
      by (apply Z.mul_le_mono_nonneg_r; lia).
    assert (H1 : (mid * Zpos pb) * 2 ^ n <= (Zpos pa * A) * 2 ^ n) by lia.
    apply Z.mul_le_mono_pos_r in H1; lia.
  - assert ((q + 1) * Zpos pb <= (mid + 1) * 2 ^ n * Zpos pb)
      by (apply Z.mul_le_mono_nonneg_r; lia).
    assert (H1 : (Zpos pa * A) * 2 ^ n < ((mid + 1) * Zpos pb) * 2 ^ n) by lia.
    apply Z.mul_lt_mono_pos_r in H1; lia.
Qed.

(** A normal double between [2^-45] and [2^45], times 100, truncated:
    the integer part of [mp / 2^(-g')], where [mp] is the 53-bit floor
    [mid'] of the exact product on the grid of exponent [g'], or the
    next integer. *)
Lemma times_hundred_near (m : positive) (e : Z) :
  2 ^ 52 <= Zpos m < 2 ^ 53 -> -97 <= e <= -8 ->
  exists s g' mid' mp,
    Binary64.to_int (Binary64.mul_int (S754_finite false m e) 100) = Ok s /\
    e + 6 <= g' <= -1 /\
    s = mp / 2 ^ (- g') /\
    2 ^ 52 <= mid' /\ mid' <= mp <= mid' + 1 /\
    mid' * 2 ^ (g' - e + 46) <= Zpos m * (100 * 2 ^ 46)
      < (mid' + 1) * 2 ^ (g' - e + 46).
Proof.
  intros Hm He. unfold Binary64.mul_int, Binary64.prec, Binary64.emax.
  rewrite hundred_as_double. unfold SFmul. simpl xorb.
  set (P := Zpos (m * 7036874417766400)).
  assert (HP : P = Zpos m * (100 * 2 ^ 46)) by (unfold P; rewrite Pos2Z.inj_mul; reflexivity).
  assert (P1 : 2 ^ 104 <= P).
  { rewrite HP. change (2 ^ 104) with (2 ^ 52 * (64 * 2 ^ 46)). nia. }
  assert (P2 : P < 2 ^ 106).
  { rewrite HP. change (2 ^ 106) with (2 ^ 53 * (128 * 2 ^ 46)). nia. }
  assert (Dp : 105 <= Zdigits2 P <= 106).
  { unfold P. simpl Zdigits2. fold P. split.
    - pose proof (digits_gt (m * 7036874417766400)) as G. fold P in G.
      destruct (Z_lt_le_dec (Zpos (digits2_pos (m * 7036874417766400))) 105); [|lia].
      exfalso.
      assert (2 ^ Zpos (digits2_pos (m * 7036874417766400)) <= 2 ^ 104)
        by (apply Z.pow_le_mono_r; lia).
      lia.
    - apply digits_le. fold P. lia. }
  assert (P52 : 2 ^ 52 <= P).
  { assert (2 ^ 52 <= 2 ^ 104) by (apply Z.pow_le_mono_r; lia). lia. }
  destruct (binary_round_aux_near P (e + -46) loc_Exact P52 ltac:(lia))
    as [m' [e' [-> [Bm [Bmid Hcase]]]]].
  cbn zeta in Bmid, Hcase.
  set (n := Zdigits2 P - 53) in *. set (mid' := P / 2 ^ n) in *.
  assert (Hn : 52 <= n <= 53) by (unfold n; lia).
  assert (Pn : 0 < 2 ^ n) by (apply Z.pow_pos_nonneg; lia).
  set (g' := e + -46 + n) in *.
  assert (Hg : e + 6 <= g' <= -1) by (unfold g'; lia).
  assert (Mid1 : mid' * 2 ^ n <= P).
  { unfold mid'. rewrite Z.mul_comm. apply Z.mul_div_le. lia. }
  assert (Mid2 : P < (mid' + 1) * 2 ^ n).
  { unfold mid'. pose proof (Z.mod_pos_bound P (2 ^ n) Pn).
    pose proof (Z.div_mod P (2 ^ n) ltac:(lia)). lia. }
  assert (En : g' - e + 46 = n) by (unfold g'; lia).
  cbn [Binary64.to_int cond_Zopp].
  destruct Hcase as [[He' Hm'] | [He' [Hmid Hm']]].
  - exists (Z.shiftl (Zpos m') e'), g', mid', (Zpos m').
    split; [reflexivity|]. split; [exact Hg|].
    split; [rewrite Z.shiftl_div_pow2 by lia; now rewrite He'|].
    split; [lia|]. split; [exact Hm'|]. rewrite En, <- HP. lia.
  - exists (Z.shiftl (Zpos m') e'), g', mid', (mid' + 1).
    split; [reflexivity|]. split; [exact Hg|].
    split.
    + rewrite Z.shiftl_div_pow2 by lia. rewrite Hm', Hmid, He'.
      replace (- g') with (- (g' + 1) + 1) by lia.
      rewrite Z.pow_add_r by lia.
      change (2 ^ 53) with (2 ^ 52 * 2 ^ 1).
      rewrite Z.div_mul_cancel_r; [reflexivity | | lia].
      apply Z.pow_nonzero; lia.
    + split; [lia|]. split; [lia|]. rewrite En, <- HP. lia.
Qed.

(** The two roundings put together. *)
Lemma overall_score_near (total max : Z) :
  0 < total < 2 ^ 44 -> 0 < max < 2 ^ 44 ->
  exists s,
    overall_score total max = Ok s /\
    (s = total * 100 / max \/
     (s = total * 100 / max - 1 /\ (total * 100) mod max = 0)).
Proof.
  intros Ht Hm. unfold overall_score, Binary64.int_true_divide, Binary64.prec, Binary64.emax.
  destruct (0 <? max) eqn:E; [|apply Z.ltb_ge in E; lia].
  destruct (max =? 0) eqn:E0; [apply Z.eqb_eq in E0; lia|].
  destruct (int_true_divide_near total max Ht Hm)
    as [m [e [g [mid [-> [Bm [Bg [Bmid [D1 [D2 Hq]]]]]]]]]].
  cbn [bind].
  assert (Be : -97 <= e <= -8) by (destruct Hq as [[-> _] | [-> _]]; lia).
  destruct (times_hundred_near m e Bm Be)
    as [s [g' [mid' [mp [-> [Bg' [Hs [Bmid' [Bmp [M1 M2]]]]]]]]]].
  exists s. split; [reflexivity|].
  set (A := 2 ^ (- g)) in *. set (B := 2 ^ (- g')).
  set (W := 2 ^ (g' - e + 46)) in *.
  assert (PA : 0 < A) by (apply Z.pow_pos_nonneg; lia).
  assert (PB : 0 < B) by (apply Z.pow_pos_nonneg; lia).
  assert (PW : 0 < W) by (apply Z.pow_pos_nonneg; lia).
  (* the quotient's value on its grid *)
  set (mq := Zpos m * 2 ^ (e - g)).
  assert (Hmq : mid <= mq <= mid + 1).
  { unfold mq. destruct Hq as [[-> H] | [-> [H1 H2]]].
    - replace (g - g) with 0 by lia. simpl. lia.
    - replace (g + 1 - g) with 1 by lia. rewrite H2.
      change (2 ^ 52 * 2 ^ 1) with (2 ^ 53). lia. }
  assert (Id : Zpos m * (100 * 2 ^ 46) * A = 100 * mq * B * W).
  { unfold mq, A, B, W.
    assert (0 <= e - g) by (destruct Hq as [[-> _] | [-> _]]; lia).
    replace (100 * (Zpos m * 2 ^ (e - g)) * 2 ^ (- g') * 2 ^ (g' - e + 46))
      with (Zpos m * 100 * (2 ^ (e - g) * 2 ^ (- g') * 2 ^ (g' - e + 46))) by ring.
    rewrite <- !Z.pow_add_r by lia.
    replace (e - g + - g' + (g' - e + 46)) with (46 + - g) by lia.
    rewrite Z.pow_add_r by lia. ring. }
  assert (H6 : mid' * A <= 100 * mq * B).
  { assert (mid' * W * A <= Zpos m * (100 * 2 ^ 46) * A)
      by (apply Z.mul_le_mono_nonneg_r; lia).
    assert (Hc : (mid' * A) * W <= (100 * mq * B) * W) by lia.
    apply Z.mul_le_mono_pos_r in Hc; lia. }
  assert (H7 : 100 * mq * B < (mid' + 1) * A).
  { assert (Zpos m * (100 * 2 ^ 46) * A < (mid' + 1) * W * A)
      by (apply Z.mul_lt_mono_pos_r; lia).
    assert (Hc : (100 * mq * B) * W < ((mid' + 1) * A) * W) by lia.
    apply Z.mul_lt_mono_pos_r in Hc; lia. }
  destruct (two_roundings_core (2 ^ 44) total max A B mid mq mid' mp
              Ht ltac:(lia) PA PB ltac:(lia) D1 D2 Hmq ltac:(lia) H6 H7 Bmp)
    as [[Lo Hi] Hex].
  fold B in Hs. set (T := total * 100 / max) in *.
  assert (S1 : T - 1 <= s) by (rewrite Hs; apply Z.div_le_lower_bound; lia).
  assert (S2 : s < T + 1) by (rewrite Hs; apply Z.div_lt_upper_bound; lia).
  destruct (Z.eq_dec ((total * 100) mod max) 0) as [Hz|Hnz].
  - destruct (Z.eq_dec s T); [now left | right; split; lia].
  - left. assert (T <= s) by (rewrite Hs; apply Z.div_le_lower_bound; [lia | specialize (Hex Hnz); lia]).
    lia.
Qed.

(** X24. For totals below [2^44] the score [validate] returns is the
    exact percentage truncated toward zero, except that it can be one
    less when the exact percentage is a whole number: the two roundings
    of the double precision computation never cost more than that. *)
Theorem validate_score_near_exact (self : ValidatorAgent) (doc : string) :
  forallb has_keys (rubric_sections self) = true ->
  0 <= earned_total self (Text.lower doc) (rubric_sections self) < 2 ^ 44 ->
  0 < possible_total self (rubric_sections self) < 2 ^ 44 ->
  let exact :=
    truncated_percentage (earned_total self (Text.lower doc) (rubric_sections self))
                         (possible_total self (rubric_sections self)) in
  exists rs s,
    validate self doc = Ok (rs, s) /\
    (s = exact \/
     (s = exact - 1 /\
      (earned_total self (Text.lower doc) (rubric_sections self) * 100)
        mod possible_total self (rubric_sections self) = 0)).
Proof.
  intros Hk He Hp. cbn zeta. rewrite (validate_unfold self doc Hk).
  set (E := earned_total self (Text.lower doc) (rubric_sections self)) in *.
  set (P := possible_total self (rubric_sections self)) in *.
  unfold truncated_percentage. rewrite Z.quot_div_nonneg by lia.
  destruct (Z.eq_dec E 0) as [Hz|Hnz].
  - rewrite Hz, (overall_score_nothing_earned P) by lia. simpl.
    eexists. eexists. split; [reflexivity|]. left. reflexivity.
  - destruct (overall_score_near E P ltac:(lia) Hp) as [s [-> Hs]].
    simpl. eauto.
Qed.

Lemma validate_score_near_exact_witness :
  forallb has_keys (rubric_sections (init rounding_rubric)) = true /\
  0 <= earned_total (init rounding_rubric) (Text.lower scenario_doc)
         (rubric_sections (init rounding_rubric)) < 2 ^ 44 /\
  0 < possible_total (init rounding_rubric) (rubric_sections (init rounding_rubric))
    < 2 ^ 44 /\
  exists rs s,
    validate (init rounding_rubric) scenario_doc = Ok (rs, s) /\
    (s = truncated_percentage
           (earned_total (init rounding_rubric) (Text.lower scenario_doc)
              (rubric_sections (init rounding_rubric)))
           (possible_total (init rounding_rubric) (rubric_sections (init rounding_rubric))) \/
     (s = truncated_percentage
            (earned_total (init rounding_rubric) (Text.lower scenario_doc)
               (rubric_sections (init rounding_rubric)))
            (possible_total (init rounding_rubric) (rubric_sections (init rounding_rubric)))
          - 1 /\
      (earned_total (init rounding_rubric) (Text.lower scenario_doc)
         (rubric_sections (init rounding_rubric)) * 100)
        mod possible_total (init rounding_rubric) (rubric_sections (init rounding_rubric))
      = 0)).
Proof.
  assert (H1 : forallb has_keys (rubric_sections (init rounding_rubric)) = true)
    by reflexivity.
  assert (H2 : 0 <= earned_total (init rounding_rubric) (Text.lower scenario_doc)
                      (rubric_sections (init rounding_rubric)) < 2 ^ 44)
    by (vm_compute; split; [discriminate | reflexivity]).
  assert (H3 : 0 < possible_total (init rounding_rubric)
                     (rubric_sections (init rounding_rubric)) < 2 ^ 44)
    by (vm_compute; split; reflexivity).
  split; [exact H1|]. split; [exact H2|]. split; [exact H3|].
  exact (validate_score_near_exact (init rounding_rubric) scenario_doc H1 H2 H3).
Defined.

(** * The typed rubric inside the loaded one *)

Section TypedRubric.

Variable repr : Dynamic.Value -> string.

(** A table of integer weights answers as its typed form does. *)
Lemma get_typed_weights (entries : list (string * Dynamic.Value)) (m : gmap string Z)
    (key : string) :
  Dynamic.typed_weights entries = Some m ->
  Dynamic.get entries key = fmap Dynamic.VInt (m !! key).
Proof.
  revert m. induction entries as [|[k v] rest IH]; intros m; simpl.
  - intros [= <-]. now rewrite lookup_empty.
  - destruct (Dynamic.as_int v) as [w|] eqn:Hv; [|discriminate].
    destruct (Dynamic.typed_weights rest) as [m'|]; [|discriminate].
    intros [= <-]. destruct v; try discriminate. injection Hv as ->.
    destruct (String.eqb k key) eqn:E.
    + apply String.eqb_eq in E. subst. now rewrite lookup_insert_eq.
    + apply String.eqb_neq in E. rewrite lookup_insert_ne by exact E.
      now apply IH.
Qed.

(** A list of strings is filtered as the typed keywords are. *)
Lemma keywords_found_typed (prd_lower : string) (items : list Dynamic.Value)
    (kws : list string) :
  Dynamic.all_of Dynamic.as_str items = Some kws ->
  Dynamic.keywords_found prd_lower items =
  Dynamic.Returns (matching_keywords prd_lower kws).
Proof.
  revert kws. induction items as [|v rest IH]; intros kws; simpl.
  - now intros [= <-].
  - destruct (Dynamic.as_str v) as [kw|] eqn:Hv; [|discriminate].
    destruct (Dynamic.all_of Dynamic.as_str rest) as [others|]; [|discriminate].
    intros [= <-]. destruct v; try discriminate. injection Hv as ->.
    rewrite (IH others eq_refl). simpl.
    now destruct (Text.contains (Text.lower kw) prd_lower).
Qed.

Variable agent : Dynamic.Agent.
Variable self : ValidatorAgent.
Variable weights : list (string * Dynamic.Value).
Hypothesis agent_scoring : Dynamic.scoring agent = Dynamic.VDict weights.
Hypothesis self_scoring : Dynamic.typed_weights weights = Some (scoring self).

Lemma weight_typed (sev : string) :
  Dynamic.get_method (Dynamic.scoring agent) (sev +:+ "_weight") (Dynamic.VInt 0) =
  Dynamic.Returns (Dynamic.VInt (section_weight self sev)).
Proof.
  rewrite agent_scoring. simpl.
  rewrite (get_typed_weights weights _ _ self_scoring). unfold section_weight.
  now destruct (scoring self !! (sev +:+ "_weight")).
Qed.

(** The keywords entry of a well-typed section, read and filtered. *)
Lemma keywords_entry_typed (prd_lower : string)
    (entries : list (string * Dynamic.Value)) (kws : option (list string)) :
  Dynamic.entry (Dynamic.as_list Dynamic.as_str) (Dynamic.get entries "keywords") =
    Some kws ->
  Dynamic.and_then
    (Dynamic.and_then
       (Dynamic.get_method (Dynamic.VDict entries) "keywords" (Dynamic.VList []))
       Dynamic.iterate)
    (Dynamic.keywords_found prd_lower) =
  Dynamic.Returns (matching_keywords prd_lower (default [] kws)).
Proof.
  unfold Dynamic.entry. cbn [Dynamic.get_method Dynamic.and_then].
  destruct (Dynamic.get entries "keywords") as [vk|].
  - destruct (Dynamic.as_list Dynamic.as_str vk) as [l|] eqn:Hl; [|discriminate].
    intros [= <-]. destruct vk; try discriminate. simpl.
    now apply keywords_found_typed.
  - now intros [= <-].
Qed.

(** One turn of the loop on a well-typed section. *)
Lemma check_section_typed (prd_lower : string) (st : LoopState)
    (v : Dynamic.Value) (sec : Rubric.Section) :
  Dynamic.typed_section v = Some sec ->
  Dynamic.check_section repr agent prd_lower (as_state st) v =
  match check_section self prd_lower st sec with
  | Ok st' => Dynamic.Returns (as_state st')
  | Raise e => Dynamic.Raises (Dynamic.Core e)
  end.
Proof.
  destruct v as [| | | | |?|entries]; try discriminate.
  unfold Dynamic.typed_section.
  destruct (Dynamic.entry Dynamic.as_str (Dynamic.get entries "name"))
    as [n|] eqn:Hn; [|discriminate].
  destruct (Dynamic.entry Dynamic.as_bool (Dynamic.get entries "required"))
    as [r|] eqn:Hr; [|discriminate].
  destruct (Dynamic.entry Dynamic.as_str (Dynamic.get entries "severity"))
    as [sv|] eqn:Hs; [|discriminate].
  destruct (Dynamic.entry (Dynamic.as_list Dynamic.as_str)
              (Dynamic.get entries "keywords")) as [kws|] eqn:Hkws; [|discriminate].
  intros [= <-].
  pose proof (keywords_entry_typed prd_lower entries kws Hkws) as Hk.
  unfold Dynamic.check_section, check_section.
  cbn [Dynamic.subscript Rubric.name Rubric.required Rubric.severity Rubric.keywords].
  unfold Dynamic.entry in Hn, Hr, Hs.
  destruct (Dynamic.get entries "name") as [vn|].
  2:{ injection Hn as <-. reflexivity. }
  destruct (Dynamic.as_str vn) as [n'|] eqn:Hn'; [|discriminate].
  injection Hn as <-. destruct vn; try discriminate. injection Hn' as ->.
  destruct (Dynamic.get entries "required") as [vr|].
  2:{ injection Hr as <-. reflexivity. }
  destruct (Dynamic.as_bool vr) as [r'|] eqn:Hr'; [|discriminate].
  injection Hr as <-. destruct vr; try discriminate. injection Hr' as ->.
  destruct (Dynamic.get entries "severity") as [vs|].
  2:{ injection Hs as <-. reflexivity. }
  destruct (Dynamic.as_str vs) as [s'|] eqn:Hs'; [|discriminate].
  injection Hs as <-. destruct vs; try discriminate. injection Hs' as ->.
  cbn [Dynamic.and_then bind subscript] in *.
  destruct (Dynamic.get_method (Dynamic.VDict entries) "keywords" (Dynamic.VList []))
    as [kv|]; [|discriminate].
  cbn [Dynamic.and_then] in *. destruct (Dynamic.iterate kv) as [items|]; [|discriminate].
  cbn [Dynamic.and_then] in *. rewrite Hk.
  cbn [Dynamic.and_then Dynamic.format_value].
  rewrite weight_typed. cbn [Dynamic.and_then Dynamic.truthy].
  unfold as_state at 1. cbn [Dynamic.max_score Dynamic.total_score Dynamic.results].
  destruct r'; cbn [Dynamic.add Dynamic.as_number Dynamic.and_then];
    destruct (0 <? length (matching_keywords prd_lower (default [] kws)))%nat;
    cbn [Dynamic.add Dynamic.as_number Dynamic.and_then]; unfold as_state; simpl;
    rewrite map_app; reflexivity.
Qed.

Lemma for_each_typed (prd_lower : string) (items : list Dynamic.Value)
    (secs : list Rubric.Section) (st : LoopState) :
  Dynamic.all_of Dynamic.typed_section items = Some secs ->
  Dynamic.for_each (Dynamic.check_section repr agent prd_lower) items (as_state st) =
  match for_each (check_section self prd_lower) secs st with
  | Ok st' => Dynamic.Returns (as_state st')
  | Raise e => Dynamic.Raises (Dynamic.Core e)
  end.
Proof.
  revert secs st. induction items as [|v rest IH]; intros secs st; simpl.
  - now intros [= <-].
  - destruct (Dynamic.typed_section v) as [sec|] eqn:Hv; [|discriminate].
    destruct (Dynamic.all_of Dynamic.typed_section rest) as [others|]; [|discriminate].
    intros [= <-]. rewrite (check_section_typed _ _ _ _ Hv). simpl.
    destruct (check_section self prd_lower st sec) as [st'|e]; simpl;
      [now apply IH | reflexivity].
Qed.

End TypedRubric.

Lemma overall_score_typed (total max : Z) :
  Dynamic.overall_score (Dynamic.Int total) (Dynamic.Int max) =
  Dynamic.of_core (overall_score total max).
Proof.
  unfold Dynamic.overall_score, overall_score. simpl.
  destruct (0 <? max); [|reflexivity]. simpl.
  now destruct (Binary64.int_true_divide total max).
Qed.

(** On a well-typed rubric [__init__] succeeds and [validate] does what
    the typed model says: same results, same score, same exception. *)
Lemma validate_typed (repr : Dynamic.Value -> string) (loaded : Dynamic.Value)
    (tpl : Rubric.Template) (doc : string) :
  Dynamic.typed_template loaded = Some tpl ->
  exists agent,
    Dynamic.init loaded = Dynamic.Returns agent /\
    Dynamic.validate repr agent doc = as_outcome (validate (init tpl) doc).
Proof.
  destruct loaded as [| | | | |?|entries]; try discriminate. simpl.
  destruct (Dynamic.entry (Dynamic.as_list Dynamic.typed_section)
              (Dynamic.get entries "sections")) as [secs|] eqn:Hsecs; [|discriminate].
  destruct (Dynamic.entry Dynamic.typed_scoring (Dynamic.get entries "scoring"))
    as [ws|] eqn:Hws; [|discriminate].
  intros [= <-]. eexists. split; [reflexivity|].
  unfold Dynamic.validate, validate, run_sections. cbn [Dynamic.template template init].
  cbn [Rubric.sections Rubric.scoring].
  assert (Hw : exists weights,
             default (Dynamic.VDict []) (Dynamic.get entries "scoring") =
             Dynamic.VDict weights /\
             Dynamic.typed_weights weights = Some (default ∅ ws)).
  { unfold Dynamic.entry in Hws. destruct (Dynamic.get entries "scoring") as [v|].
    - destruct (Dynamic.typed_scoring v) as [m|] eqn:Hm; [|discriminate].
      injection Hws as <-. destruct v; try discriminate. now eexists.
    - injection Hws as <-. now exists []. }
  destruct Hw as [weights [Hw1 Hw2]].
  assert (Hs : exists items,
             Dynamic.iterate (default (Dynamic.VList []) (Dynamic.get entries "sections")) =
             Dynamic.Returns items /\
             Dynamic.all_of Dynamic.typed_section items = Some (default [] secs)).
  { unfold Dynamic.entry in Hsecs. destruct (Dynamic.get entries "sections") as [v|].
    - destruct (Dynamic.as_list Dynamic.typed_section v) as [l|] eqn:Hl; [|discriminate].
      injection Hsecs as <-. destruct v; try discriminate. now eexists.
    - injection Hsecs as <-. now exists []. }
  destruct Hs as [items [Hs1 Hs2]]. rewrite Hs1. cbn [Dynamic.and_then].
  change Dynamic.initial_state with (as_state initial_state).
  rewrite (for_each_typed repr
             {| Dynamic.template := entries;
                Dynamic.scoring := default (Dynamic.VDict [])
                                     (Dynamic.get entries "scoring") |}
             (init {| Rubric.sections := secs; Rubric.scoring := ws |})
             weights Hw1 Hw2 _ _ _ _ Hs2).
  cbn [template init Rubric.sections].
  destruct (for_each _ _ _) as [st|e]; simpl; [|reflexivity].
  rewrite overall_score_typed.
  now destruct (overall_score (total_score st) (max_score st)).
Qed.

(** X4. On a well-typed rubric [validate] raises nothing but [KeyError],
    for one of the three keys, and [OverflowError]: no [TypeError], no
    [AttributeError], no division by zero, no conversion of a NaN. *)
Theorem validate_raises_only (repr : Dynamic.Value -> string)
    (loaded : Dynamic.Value) (tpl : Rubric.Template) (agent : Dynamic.Agent)
    (doc : string) (e : Dynamic.Exception) :
  Dynamic.typed_template loaded = Some tpl ->
  Dynamic.init loaded = Dynamic.Returns agent ->
  Dynamic.validate repr agent doc = Dynamic.Raises e ->
  e = Dynamic.Core (KeyError "name") \/ e = Dynamic.Core (KeyError "required") \/
  e = Dynamic.Core (KeyError "severity") \/ e = Dynamic.Core OverflowError.
Proof.
  intros Ht Hi H.
  destruct (validate_typed repr loaded tpl doc Ht) as [agent' [Hi' Hv]].
  rewrite Hi in Hi'. injection Hi' as <-. rewrite Hv in H.
  destruct (validate (init tpl) doc) as [[rs s]|e0] eqn:E; [discriminate|].
  injection H as <-.
  destruct (validate_raises_only_typed (init tpl) doc e0 E) as [-> | [-> | [-> | ->]]];
    auto.
Qed.

(** X8. On a well-typed rubric whose sections all have their keys,
    [validate] returns, with the results and the score of the typed
    model, whenever the earned total is below [2^1000] in size: only
    astronomic weights can make it raise [OverflowError]. *)
Theorem validate_returns (repr : Dynamic.Value -> string)
    (loaded : Dynamic.Value) (tpl : Rubric.Template) (agent : Dynamic.Agent)
    (doc : string) :
  Dynamic.typed_template loaded = Some tpl ->
  Dynamic.init loaded = Dynamic.Returns agent ->
  forallb has_keys (rubric_sections (init tpl)) = true ->
  Z.abs (earned_total (init tpl) (Text.lower doc) (rubric_sections (init tpl)))
    < 2 ^ 1000 ->
  exists rs s,
    validate (init tpl) doc = Ok (rs, s) /\
    Dynamic.validate repr agent doc = Dynamic.Returns (map as_value rs, s).
Proof.
  intros Ht Hi Hk Hsize.
  destruct (validate_typed repr loaded tpl doc Ht) as [agent' [Hi' Hv]].
  rewrite Hi in Hi'. injection Hi' as <-.
  destruct (validate_returns_typed (init tpl) doc Hk Hsize) as [rs [s E]].
  exists rs, s. split; [exact E|]. now rewrite Hv, E.
Qed.

Lemma dynamic_for_each_app (body : Dynamic.LoopState -> Dynamic.Value ->
                                   Dynamic.Outcome Dynamic.LoopState)
    (a b : list Dynamic.Value) (st : Dynamic.LoopState) :
  Dynamic.for_each body (a ++ b) st =
  Dynamic.and_then (Dynamic.for_each body a st) (Dynamic.for_each body b).
Proof.
  revert st. induction a as [|x a IH]; intros st; simpl; [reflexivity|].
  destruct (body st x); simpl; [apply IH | reflexivity].
Qed.

(** One item that is no string, and the comprehension raises. *)
Lemma keywords_found_not_str (prd_lower : string) (items : list Dynamic.Value) :
  forallb Dynamic.is_str items = false ->
  Dynamic.keywords_found prd_lower items = Dynamic.Raises Dynamic.AttributeError.
Proof.
  induction items as [|v items IH]; [discriminate|].
  destruct v; try reflexivity. simpl. intros Hi. now rewrite (IH Hi).
Qed.

(** X25. A [keywords] entry of the wrong kind stops [validate] at its
    section, whatever the document: when the sections before it pass and
    it has its three keys, an entry that is null, a boolean or a number
    raises [TypeError], and a list with an item that is no string raises
    [AttributeError]. *)
Theorem ill_typed_keywords_raise (repr : Dynamic.Value -> string)
    (agent : Dynamic.Agent) (doc : string) (before after : list Dynamic.Value)
    (entries : list (string * Dynamic.Value)) (kws : Dynamic.Value)
    (st : Dynamic.LoopState) :
  Dynamic.get (Dynamic.template agent) "sections" =
    Some (Dynamic.VList (before ++ Dynamic.VDict entries :: after)) ->
  Dynamic.for_each (Dynamic.check_section repr agent (Text.lower doc)) before
    Dynamic.initial_state = Dynamic.Returns st ->
  Dynamic.get entries "name" <> None ->
  Dynamic.get entries "required" <> None ->
  Dynamic.get entries "severity" <> None ->
  Dynamic.get entries "keywords" = Some kws ->
  (Dynamic.iterable kws = false ->
   Dynamic.validate repr agent doc = Dynamic.Raises Dynamic.TypeError) /\
  (forall items,
      kws = Dynamic.VList items ->
      forallb Dynamic.is_str items = false ->
      Dynamic.validate repr agent doc = Dynamic.Raises Dynamic.AttributeError).
Proof.
  intros Hs Hb Hn Hr Hv Hk.
  assert (Hstep : forall e,
             (Dynamic.and_then (Dynamic.iterate kws)
                (Dynamic.keywords_found (Text.lower doc))) = Dynamic.Raises e ->
             Dynamic.validate repr agent doc = Dynamic.Raises e).
  { intros e He. unfold Dynamic.validate. rewrite Hs. cbn [default from_option id
      Dynamic.iterate Dynamic.and_then].
    rewrite dynamic_for_each_app, Hb. cbn [Dynamic.and_then Dynamic.for_each].
    unfold Dynamic.check_section at 1. cbn [Dynamic.subscript Dynamic.get_method].
    destruct (Dynamic.get entries "name"); [|contradiction].
    destruct (Dynamic.get entries "required"); [|contradiction].
    destruct (Dynamic.get entries "severity"); [|contradiction].
    rewrite Hk. cbn [Dynamic.and_then default from_option id].
    destruct (Dynamic.iterate kws) as [items|e']; cbn [Dynamic.and_then] in *.
    - rewrite He. reflexivity.
    - injection He as <-. reflexivity. }
  split.
  - intros Hi. apply Hstep. destruct kws; try discriminate; reflexivity.
  - intros items -> Hi. apply Hstep. cbn [Dynamic.iterate Dynamic.and_then].
    now apply keywords_found_not_str.
Qed.

Lemma validate_raises_only_witness :
  Dynamic.typed_template loaded_keyless = Some keyless_rubric /\
  exists agent,
    Dynamic.init loaded_keyless = Dynamic.Returns agent /\
    Dynamic.validate no_repr agent scenario_doc =
      Dynamic.Raises (Dynamic.Core (KeyError "severity")) /\
    (Dynamic.Core (KeyError "severity") = Dynamic.Core (KeyError "name") \/
     Dynamic.Core (KeyError "severity") = Dynamic.Core (KeyError "required") \/
     Dynamic.Core (KeyError "severity") = Dynamic.Core (KeyError "severity") \/
     Dynamic.Core (KeyError "severity") = Dynamic.Core OverflowError).
Proof.
  assert (H1 : Dynamic.typed_template loaded_keyless = Some keyless_rubric)
    by reflexivity.
  split; [exact H1|]. eexists. split; [reflexivity|].
  assert (H3 : Dynamic.validate no_repr
                 {| Dynamic.template :=
                      match loaded_keyless with
                      | Dynamic.VDict entries => entries
                      | _ => []
                      end;
                    Dynamic.scoring :=
                      Dynamic.VDict [("critical_weight", Dynamic.VInt 40)] |}
                 scenario_doc =
               Dynamic.Raises (Dynamic.Core (KeyError "severity")))
    by (vm_compute; reflexivity).
  split; [exact H3|].
  exact (validate_raises_only no_repr loaded_keyless keyless_rubric _ scenario_doc
           _ H1 eq_refl H3).
Defined.

Lemma validate_returns_witness :
  Dynamic.typed_template loaded_optional = Some optional_rubric /\
  forallb has_keys (rubric_sections (init optional_rubric)) = true /\
  Z.abs (earned_total (init optional_rubric) (Text.lower optional_doc)
           (rubric_sections (init optional_rubric))) < 2 ^ 1000 /\
  exists agent rs s,
    Dynamic.init loaded_optional = Dynamic.Returns agent /\
    Dynamic.validate no_repr agent optional_doc = Dynamic.Returns (rs, s).
Proof.
  assert (H1 : Dynamic.typed_template loaded_optional = Some optional_rubric)
    by reflexivity.
  assert (H2 : forallb has_keys (rubric_sections (init optional_rubric)) = true)
    by reflexivity.
  assert (H3 : Z.abs (earned_total (init optional_rubric) (Text.lower optional_doc)
                        (rubric_sections (init optional_rubric))) < 2 ^ 1000)
    by (vm_compute; reflexivity).
  split; [exact H1|]. split; [exact H2|]. split; [exact H3|].
  destruct (validate_returns no_repr loaded_optional optional_rubric _ optional_doc
              H1 eq_refl H2 H3) as [rs [s [_ E]]].
  eexists. exists (map as_value rs), s. split; [reflexivity | exact E].
Defined.

Lemma ill_typed_keywords_raise_witness :
  Dynamic.iterable Dynamic.VNone = false /\
  Dynamic.validate no_repr null_keywords_agent optional_doc =
    Dynamic.Raises Dynamic.TypeError.
Proof.
  split; [reflexivity|].
  refine (proj1 (ill_typed_keywords_raise no_repr null_keywords_agent optional_doc
                   [loaded_section "Problem Statement" true "critical"
                      ["problem statement"]]
                   [] null_keywords_entries Dynamic.VNone _
                   eq_refl eq_refl _ _ _ eq_refl) eq_refl);
    discriminate.
Defined.

(** A well-typed section with its three keys: what is left of the loop
    body once they and the keywords are read. *)
Lemma check_section_keys_read (repr : Dynamic.Value -> string) (agent : Dynamic.Agent)
    (prd_lower : string) (st : Dynamic.LoopState) (v : Dynamic.Value)
    (sec : Rubric.Section) :
  Dynamic.typed_section v = Some sec ->
  has_keys sec = true ->
  Dynamic.check_section repr agent prd_lower st v =
  Dynamic.and_then
    (Dynamic.get_method (Dynamic.scoring agent) (section_tier sec +:+ "_weight")
       (Dynamic.VInt 0))
    (fun weight =>
       let section_score :=
         if section_found prd_lower sec then weight else Dynamic.VInt 0 in
       Dynamic.and_then
         (if section_required sec then Dynamic.add (Dynamic.max_score st) weight
          else Dynamic.Returns (Dynamic.max_score st))
         (fun max' =>
            Dynamic.and_then (Dynamic.add (Dynamic.total_score st) section_score)
              (fun total' =>
                 Dynamic.Returns
                   {| Dynamic.results :=
                        Dynamic.results st ++
                        [{| Dynamic.section_name :=
                              Dynamic.VStr (default EmptyString (Rubric.name sec));
                            Dynamic.required := Dynamic.VBool (section_required sec);
                            Dynamic.found := section_found prd_lower sec;
                            Dynamic.severity := Dynamic.VStr (section_tier sec);
                            Dynamic.keywords_found_in :=
                              matching_keywords prd_lower (section_keywords sec);
                            Dynamic.score := section_score |}];
                      Dynamic.total_score := total';
                      Dynamic.max_score := max' |}))).
Proof.
  destruct v as [| | | | |?|entries]; try discriminate.
  unfold Dynamic.typed_section.
  destruct (Dynamic.entry Dynamic.as_str (Dynamic.get entries "name"))
    as [n|] eqn:Hn; [|discriminate].
  destruct (Dynamic.entry Dynamic.as_bool (Dynamic.get entries "required"))
    as [r|] eqn:Hr; [|discriminate].
  destruct (Dynamic.entry Dynamic.as_str (Dynamic.get entries "severity"))
    as [sv|] eqn:Hs; [|discriminate].
  destruct (Dynamic.entry (Dynamic.as_list Dynamic.as_str)
              (Dynamic.get entries "keywords")) as [kws|] eqn:Hkws; [|discriminate].
  intros [= <-]. unfold has_keys. cbn [Rubric.name Rubric.required Rubric.severity].
  destruct n as [n|], r as [r|], sv as [sv|]; try discriminate. intros _.
  pose proof (keywords_entry_typed prd_lower entries kws Hkws) as Hk.
  unfold Dynamic.check_section, section_tier, section_required, section_found,
    section_keywords.
  cbn [Dynamic.subscript Rubric.name Rubric.required Rubric.severity Rubric.keywords
       default from_option id].
  unfold Dynamic.entry in Hn, Hr, Hs.
  destruct (Dynamic.get entries "name") as [vn|]; [|discriminate].
  destruct (Dynamic.as_str vn) as [n'|] eqn:Hn'; [|discriminate].
  injection Hn as <-. destruct vn; try discriminate. injection Hn' as ->.
  destruct (Dynamic.get entries "required") as [vr|]; [|discriminate].
  destruct (Dynamic.as_bool vr) as [r'|] eqn:Hr'; [|discriminate].
  injection Hr as <-. destruct vr; try discriminate. injection Hr' as ->.
  destruct (Dynamic.get entries "severity") as [vs|]; [|discriminate].
  destruct (Dynamic.as_str vs) as [s'|] eqn:Hs'; [|discriminate].
  injection Hs as <-. destruct vs; try discriminate. injection Hs' as ->.
  cbn [Dynamic.and_then] in *.
  destruct (Dynamic.get_method (Dynamic.VDict entries) "keywords" (Dynamic.VList []))
    as [kv|]; [|discriminate].
  cbn [Dynamic.and_then] in *. destruct (Dynamic.iterate kv) as [items|]; [|discriminate].
  cbn [Dynamic.and_then] in *. rewrite Hk.
  cbn [Dynamic.and_then Dynamic.format_value Dynamic.truthy]. reflexivity.
Qed.

(** X26. A weight that is no number is an error only where it is
    added: when the sections before pass, a well-typed section of that
    tier makes [validate] raise [TypeError] if it is required or found,
    and passes with nothing added to either total if it is neither. *)
Theorem ill_typed_weight_raises (repr : Dynamic.Value -> string)
    (agent : Dynamic.Agent) (doc : string) (before after : list Dynamic.Value)
    (v : Dynamic.Value) (sec : Rubric.Section)
    (weights : list (string * Dynamic.Value)) (w : Dynamic.Value)
    (st : Dynamic.LoopState) :
  Dynamic.get (Dynamic.template agent) "sections" =
    Some (Dynamic.VList (before ++ v :: after)) ->
  Dynamic.for_each (Dynamic.check_section repr agent (Text.lower doc)) before
    Dynamic.initial_state = Dynamic.Returns st ->
  Dynamic.typed_section v = Some sec ->
  has_keys sec = true ->
  Dynamic.scoring agent = Dynamic.VDict weights ->
  Dynamic.get weights (section_tier sec +:+ "_weight") = Some w ->
  Dynamic.is_number w = false ->
  (section_required sec || section_found (Text.lower doc) sec = true ->
   Dynamic.validate repr agent doc = Dynamic.Raises Dynamic.TypeError) /\
  (section_required sec || section_found (Text.lower doc) sec = false ->
   exists st',
     Dynamic.for_each (Dynamic.check_section repr agent (Text.lower doc))
       (before ++ [v]) Dynamic.initial_state = Dynamic.Returns st' /\
     Dynamic.max_score st' = Dynamic.max_score st /\
     (forall n, Dynamic.total_score st = Dynamic.Int n ->
                Dynamic.total_score st' = Dynamic.Int n) /\
     length (Dynamic.results st') = S (length (Dynamic.results st))).
Proof.
  intros Hs Hb Hv Hk Hsc Hw Hnum.
  pose proof (check_section_keys_read repr agent (Text.lower doc) st v sec Hv Hk)
    as Hbody.
  rewrite Hsc in Hbody. cbn [Dynamic.get_method] in Hbody. rewrite Hw in Hbody.
  cbn [default from_option id Dynamic.and_then] in Hbody.
  assert (Hadd : forall total, Dynamic.add total w = Dynamic.Raises Dynamic.TypeError).
  { intros total. unfold Dynamic.add. destruct w; try discriminate; reflexivity. }
  split.
  - intros Hor. unfold Dynamic.validate. rewrite Hs.
    cbn [default from_option id Dynamic.iterate Dynamic.and_then].
    rewrite dynamic_for_each_app, Hb. cbn [Dynamic.and_then Dynamic.for_each].
    rewrite Hbody.
    destruct (section_required sec).
    + now rewrite Hadd.
    + simpl in Hor. rewrite Hor. cbn [Dynamic.and_then]. now rewrite Hadd.
  - intros Hor. apply orb_false_iff in Hor as [Hr Hf].
    rewrite dynamic_for_each_app, Hb. cbn [Dynamic.and_then Dynamic.for_each].
    rewrite Hbody, Hr, Hf. cbn [Dynamic.and_then].
    destruct (Dynamic.total_score st) as [n|x] eqn:Ht.
    + simpl. eexists. split; [reflexivity|]. simpl.
      split; [reflexivity|]. split.
      * intros n' [= <-]. now rewrite Z.add_0_r.
      * rewrite length_app. simpl. lia.
    + simpl. eexists. split; [reflexivity|]. simpl.
      split; [reflexivity|]. split; [discriminate|].
      rewrite length_app. simpl. lia.
Qed.

Lemma ill_typed_weight_raises_witness :
  Dynamic.is_number (Dynamic.VStr "40") = false /\
  Dynamic.validate no_repr text_weight_agent scenario_doc =
    Dynamic.Raises Dynamic.TypeError.
Proof.
  split; [reflexivity|].
  refine (proj1 (ill_typed_weight_raises no_repr text_weight_agent scenario_doc
                   [] []
                   (loaded_section "Problem Statement" true "critical"
                      ["problem statement"])
                   (a_section "Problem Statement" true "critical" ["problem statement"])
                   [("critical_weight", Dynamic.VStr "40")] (Dynamic.VStr "40")
                   Dynamic.initial_state
                   eq_refl eq_refl eq_refl eq_refl eq_refl eq_refl eq_refl) eq_refl).
Defined.
